(** * JCC refinement tutor: angle arithmetic, JCC geometry and the tutor
      state machine of [script.js], embedded as Rocq functions.

    Numbers.  Every angle the script stores is an integer number of degrees
    (the pointer angle goes through [Math.round] before it is stored), so
    angles are [Z].  The script divides and multiplies them as doubles:
    [Binary64] evaluates the two angle functions on doubles, and agrees with
    the integer functions of [AngleMath] on every angle of magnitude up to
    [2 ^ 50].  Powers are multiples of 0.25 dioptre, which binary
    floating point represents and adds exactly; they are kept as an integer
    number of hundredths of a dioptre ([-200] is -2.00 DC, one click is
    [25]). *)

From Stdlib Require Import ZArith Lia Bool List String Ascii.
From Stdlib Require Import DecimalString.
From Stdlib Require Import SpecFloat.
Import ListNotations.
Open Scope string_scope.
Open Scope list_scope.
Open Scope Z_scope.

(** ** Helper functions of the script *)

Module AngleMath.

(** [Math.round(n / d)] for an integer [n] and a positive integer [d]:
    the nearest integer, a half rounding up, that is [floor (n/d + 1/2)].
    The script rounds the double nearest to [n / d]; for [d = 5] that gives
    the same integer while [n] is at most [2 ^ 50] in magnitude. *)
Definition Math_round_div (n d : Z) : Z := (2 * n + d) / (2 * d).

(** [function roundTo5Degrees(angle) { return Math.round(angle / 5) * 5; }] *)
Definition roundTo5Degrees (angle : Z) : Z := Math_round_div angle 5 * 5.

(** [getDisplayAxis]: snap to 5 degrees, reduce with JavaScript's [%]
    (the remainder takes the sign of the dividend: [Z.rem]), lift a negative
    remainder by 180 and show 0 as 180. *)
Definition getDisplayAxis (angle : Z) : Z :=
  let displayAngle := roundTo5Degrees angle in
  let displayAngle := Z.rem displayAngle 180 in
  let displayAngle := if displayAngle <? 0 then displayAngle + 180 else displayAngle in
  if displayAngle =? 0 then 180 else displayAngle.

End AngleMath.
Export AngleMath.

(** ** The same arithmetic on doubles *)

(** A JavaScript number is an IEEE 754 binary64 value.  [Binary64] evaluates
    the two angle functions the way the engine does: [/], [*] and [+] round
    to the nearest double, ties to even ([SFdiv], [SFmul], [SFadd]);
    [Math.round] and [%] are exact; [<] and [===] compare values, so a
    negative zero is not below zero and equals it.  On integer angles of
    magnitude up to [2 ^ 50] the quotient by 5 is within 1/64 of the exact
    one, which is never closer than 1/10 to a half, and both evaluations give
    the same integer; from [5 * 2 ^ 50] on the doubles are a quarter apart
    and the rounded quotient can reach a half. *)
Module Binary64.

Definition prec : Z := 53.
Definition emax : Z := 1024.

(** The double nearest to an integer; exact below [2 ^ 53]. *)
Definition ofZ (n : Z) : spec_float := binary_normalize prec emax n 0 false.

(** The integer a double holds, if it holds one. *)
Definition toZ (x : spec_float) : option Z :=
  match x with
  | S754_zero _ => Some 0
  | S754_finite s m e =>
      match e with
      | Zneg d =>
          if Zpos m mod 2 ^ Zpos d =? 0
          then Some (cond_Zopp s (Zpos m / 2 ^ Zpos d))
          else None
      | _ => Some (cond_Zopp s (Zpos m) * 2 ^ e)
      end
  | _ => None
  end.

(** The double with sign [s] and magnitude [n], for [0 < n < 2 ^ 53]: [n]
    shifted to a mantissa of 53 bits. *)
Definition normal (s : bool) (n : Z) : spec_float :=
  S754_finite s (Z.to_pos (n * 2 ^ (52 - Z.log2 n))) (Z.log2 n - 52).

(** [Math.round(x)]: [floor (x + 1/2)], computed exactly; a zero result keeps
    the sign of [x]; infinities and NaN are returned as they are. *)
Definition Math_round (x : spec_float) : spec_float :=
  match x with
  | S754_finite s m e =>
      let v := cond_Zopp s (Zpos m) in
      let n := match e with
               | Zneg d => (2 * v + 2 ^ Zpos d) / (2 * 2 ^ Zpos d)
               | _ => v * 2 ^ e
               end in
      binary_normalize prec emax n 0 s
  | _ => x
  end.

(** [n % d]: the exact remainder of the division truncated towards zero, with
    the sign of the dividend, also when it is zero. *)
Definition rem (n d : spec_float) : spec_float :=
  match n, d with
  | S754_nan, _ | _, S754_nan => S754_nan
  | S754_infinity _, _ => S754_nan
  | _, S754_zero _ => S754_nan
  | _, S754_infinity _ => n
  | S754_zero _, _ => n
  | S754_finite sn mn en, S754_finite _ md ed =>
      let e := Z.min en ed in
      let N := Zpos mn * 2 ^ (en - e) in
      let D := Zpos md * 2 ^ (ed - e) in
      binary_normalize prec emax (cond_Zopp sn (Z.rem N D)) e sn
  end.

(** [function roundTo5Degrees(angle) { return Math.round(angle / 5) * 5; }] *)
Definition roundTo5Degrees (angle : spec_float) : spec_float :=
  SFmul prec emax (Math_round (SFdiv prec emax angle (ofZ 5))) (ofZ 5).

(** [getDisplayAxis], statement by statement. *)
Definition getDisplayAxis (angle : spec_float) : spec_float :=
  let displayAngle := roundTo5Degrees angle in
  let displayAngle := rem displayAngle (ofZ 180) in
  let displayAngle :=
    if SFltb displayAngle (ofZ 0)
    then SFadd prec emax displayAngle (ofZ 180)
    else displayAngle in
  if SFeqb displayAngle (ofZ 0) then ofZ 180 else displayAngle.

End Binary64.

(** ** Text rendering *)

Definition string_of_Z (n : Z) : string := NilZero.string_of_int (Z.to_int n).

(** [x.toFixed(2)] for [x = n / 100]: sign, integer part, point, two digits.
    No minus sign is printed for zero. *)
Definition toFixed2 (n : Z) : string :=
  let m := Z.abs n in
  ((if (n <? 0)%Z then "-" else "") ++ string_of_Z (m / 100) ++ "."
     ++ string_of_Z (m / 10 mod 10) ++ string_of_Z (m mod 10))%string.

(** The degree sign that follows every displayed angle. *)
Definition degree : string := "°".

(** ** State *)

(** The two circular sliders. *)
Inductive Slider := jccAxisSliderDiv | lensAxisSliderDiv.

(** The elements whose availability the script switches: seven buttons with
    a [disabled] property and the two slider divs with a [disabled] class. *)
Inductive Control :=
| flipJCCButton | jccAxisSlider | lensAxisSlider
| increasePowerButton | decreasePowerButton
| confirmAxisButton | confirmPowerButton
| notificationOkButton | startTutorialButton.

Definition Control_eqb (c d : Control) : bool :=
  match c, d with
  | flipJCCButton, flipJCCButton | jccAxisSlider, jccAxisSlider
  | lensAxisSlider, lensAxisSlider | increasePowerButton, increasePowerButton
  | decreasePowerButton, decreasePowerButton | confirmAxisButton, confirmAxisButton
  | confirmPowerButton, confirmPowerButton | notificationOkButton, notificationOkButton
  | startTutorialButton, startTutorialButton => true
  | _, _ => false
  end.

Definition sliderControl (s : Slider) : Control :=
  match s with jccAxisSliderDiv => jccAxisSlider | lensAxisSliderDiv => lensAxisSlider end.

(** The script's variables, followed by what it keeps in the page and in the
    browser: the [disabled] flag of each control, the text contents it
    writes and that the properties below read, whether [notificationOkButton.onclick]
    is set, the callbacks queued by [setTimeout], and the sliders whose
    [moveHandler]/[upHandler] pair is registered on the document (one entry
    per [startDrag] that went through, in registration order).
    [finalRXDisplay] is [None] until the script writes it.  Instruction and
    feedback texts, CSS transforms and thumb coordinates are written by the
    script and never read back; they are left out. *)
Record State := mkState {
  currentSphere : Z;
  currentCylinder : Z;
  currentAxis : Z;
  jccHandleAngle : Z;
  jccFlipped : bool;
  tutorStep : Z;
  isDraggingJCC : bool;
  isDraggingLens : bool;
  disabled : Control -> bool;
  lensAxisDisplay : string;
  currentRXDisplay : string;
  cylinderPowerDisplay : string;
  jccAngleDisplay : string;
  jccPositionDisplay : string;
  finalRXDisplay : option string;
  notificationOnclick : bool;
  pendingTimeouts : nat;
  dragListeners : list Slider
}.

Definition set_currentSphere (v : Z) (st : State) : State :=
  mkState v (currentCylinder st) (currentAxis st) (jccHandleAngle st) (jccFlipped st)
    (tutorStep st) (isDraggingJCC st) (isDraggingLens st) (disabled st)
    (lensAxisDisplay st) (currentRXDisplay st) (cylinderPowerDisplay st)
    (jccAngleDisplay st) (jccPositionDisplay st) (finalRXDisplay st)
    (notificationOnclick st) (pendingTimeouts st) (dragListeners st).
Definition set_currentCylinder (v : Z) (st : State) : State :=
  mkState (currentSphere st) v (currentAxis st) (jccHandleAngle st) (jccFlipped st)
    (tutorStep st) (isDraggingJCC st) (isDraggingLens st) (disabled st)
    (lensAxisDisplay st) (currentRXDisplay st) (cylinderPowerDisplay st)
    (jccAngleDisplay st) (jccPositionDisplay st) (finalRXDisplay st)
    (notificationOnclick st) (pendingTimeouts st) (dragListeners st).
Definition set_currentAxis (v : Z) (st : State) : State :=
  mkState (currentSphere st) (currentCylinder st) v (jccHandleAngle st)
    (jccFlipped st) (tutorStep st) (isDraggingJCC st) (isDraggingLens st)
    (disabled st) (lensAxisDisplay st) (currentRXDisplay st) (cylinderPowerDisplay st)
    (jccAngleDisplay st) (jccPositionDisplay st) (finalRXDisplay st)
    (notificationOnclick st) (pendingTimeouts st) (dragListeners st).
Definition set_jccHandleAngle (v : Z) (st : State) : State :=
  mkState (currentSphere st) (currentCylinder st) (currentAxis st) v (jccFlipped st)
    (tutorStep st) (isDraggingJCC st) (isDraggingLens st) (disabled st)
    (lensAxisDisplay st) (currentRXDisplay st) (cylinderPowerDisplay st)
    (jccAngleDisplay st) (jccPositionDisplay st) (finalRXDisplay st)
    (notificationOnclick st) (pendingTimeouts st) (dragListeners st).
Definition set_jccFlipped (v : bool) (st : State) : State :=
  mkState (currentSphere st) (currentCylinder st) (currentAxis st) (jccHandleAngle st)
    v (tutorStep st) (isDraggingJCC st) (isDraggingLens st) (disabled st)
    (lensAxisDisplay st) (currentRXDisplay st) (cylinderPowerDisplay st)
    (jccAngleDisplay st) (jccPositionDisplay st) (finalRXDisplay st)
    (notificationOnclick st) (pendingTimeouts st) (dragListeners st).
Definition set_tutorStep (v : Z) (st : State) : State :=
  mkState (currentSphere st) (currentCylinder st) (currentAxis st) (jccHandleAngle st)
    (jccFlipped st) v (isDraggingJCC st) (isDraggingLens st) (disabled st)
    (lensAxisDisplay st) (currentRXDisplay st) (cylinderPowerDisplay st)
    (jccAngleDisplay st) (jccPositionDisplay st) (finalRXDisplay st)
    (notificationOnclick st) (pendingTimeouts st) (dragListeners st).
Definition set_isDraggingJCC (v : bool) (st : State) : State :=
  mkState (currentSphere st) (currentCylinder st) (currentAxis st) (jccHandleAngle st)
    (jccFlipped st) (tutorStep st) v (isDraggingLens st) (disabled st)
    (lensAxisDisplay st) (currentRXDisplay st) (cylinderPowerDisplay st)
    (jccAngleDisplay st) (jccPositionDisplay st) (finalRXDisplay st)
    (notificationOnclick st) (pendingTimeouts st) (dragListeners st).
Definition set_isDraggingLens (v : bool) (st : State) : State :=
  mkState (currentSphere st) (currentCylinder st) (currentAxis st) (jccHandleAngle st)
    (jccFlipped st) (tutorStep st) (isDraggingJCC st) v (disabled st)
    (lensAxisDisplay st) (currentRXDisplay st) (cylinderPowerDisplay st)
    (jccAngleDisplay st) (jccPositionDisplay st) (finalRXDisplay st)
    (notificationOnclick st) (pendingTimeouts st) (dragListeners st).
Definition set_disabled (v : Control -> bool) (st : State) : State :=
  mkState (currentSphere st) (currentCylinder st) (currentAxis st) (jccHandleAngle st)
    (jccFlipped st) (tutorStep st) (isDraggingJCC st) (isDraggingLens st) v
    (lensAxisDisplay st) (currentRXDisplay st) (cylinderPowerDisplay st)
    (jccAngleDisplay st) (jccPositionDisplay st) (finalRXDisplay st)
    (notificationOnclick st) (pendingTimeouts st) (dragListeners st).
Definition set_lensAxisDisplay (v : string) (st : State) : State :=
  mkState (currentSphere st) (currentCylinder st) (currentAxis st) (jccHandleAngle st)
    (jccFlipped st) (tutorStep st) (isDraggingJCC st) (isDraggingLens st)
    (disabled st) v (currentRXDisplay st) (cylinderPowerDisplay st)
    (jccAngleDisplay st) (jccPositionDisplay st) (finalRXDisplay st)
    (notificationOnclick st) (pendingTimeouts st) (dragListeners st).
Definition set_currentRXDisplay (v : string) (st : State) : State :=
  mkState (currentSphere st) (currentCylinder st) (currentAxis st) (jccHandleAngle st)
    (jccFlipped st) (tutorStep st) (isDraggingJCC st) (isDraggingLens st)
    (disabled st) (lensAxisDisplay st) v (cylinderPowerDisplay st)
    (jccAngleDisplay st) (jccPositionDisplay st) (finalRXDisplay st)
    (notificationOnclick st) (pendingTimeouts st) (dragListeners st).
Definition set_cylinderPowerDisplay (v : string) (st : State) : State :=
  mkState (currentSphere st) (currentCylinder st) (currentAxis st) (jccHandleAngle st)
    (jccFlipped st) (tutorStep st) (isDraggingJCC st) (isDraggingLens st)
    (disabled st) (lensAxisDisplay st) (currentRXDisplay st) v (jccAngleDisplay st)
    (jccPositionDisplay st) (finalRXDisplay st) (notificationOnclick st)
    (pendingTimeouts st) (dragListeners st).
Definition set_jccAngleDisplay (v : string) (st : State) : State :=
  mkState (currentSphere st) (currentCylinder st) (currentAxis st) (jccHandleAngle st)
    (jccFlipped st) (tutorStep st) (isDraggingJCC st) (isDraggingLens st)
    (disabled st) (lensAxisDisplay st) (currentRXDisplay st) (cylinderPowerDisplay st)
    v (jccPositionDisplay st) (finalRXDisplay st) (notificationOnclick st)
    (pendingTimeouts st) (dragListeners st).
Definition set_jccPositionDisplay (v : string) (st : State) : State :=
  mkState (currentSphere st) (currentCylinder st) (currentAxis st) (jccHandleAngle st)
    (jccFlipped st) (tutorStep st) (isDraggingJCC st) (isDraggingLens st)
    (disabled st) (lensAxisDisplay st) (currentRXDisplay st) (cylinderPowerDisplay st)
    (jccAngleDisplay st) v (finalRXDisplay st) (notificationOnclick st)
    (pendingTimeouts st) (dragListeners st).
Definition set_finalRXDisplay (v : option string) (st : State) : State :=
  mkState (currentSphere st) (currentCylinder st) (currentAxis st) (jccHandleAngle st)
    (jccFlipped st) (tutorStep st) (isDraggingJCC st) (isDraggingLens st)
    (disabled st) (lensAxisDisplay st) (currentRXDisplay st) (cylinderPowerDisplay st)
    (jccAngleDisplay st) (jccPositionDisplay st) v (notificationOnclick st)
    (pendingTimeouts st) (dragListeners st).
Definition set_notificationOnclick (v : bool) (st : State) : State :=
  mkState (currentSphere st) (currentCylinder st) (currentAxis st) (jccHandleAngle st)
    (jccFlipped st) (tutorStep st) (isDraggingJCC st) (isDraggingLens st)
    (disabled st) (lensAxisDisplay st) (currentRXDisplay st) (cylinderPowerDisplay st)
    (jccAngleDisplay st) (jccPositionDisplay st) (finalRXDisplay st) v
    (pendingTimeouts st) (dragListeners st).
Definition set_pendingTimeouts (v : nat) (st : State) : State :=
  mkState (currentSphere st) (currentCylinder st) (currentAxis st) (jccHandleAngle st)
    (jccFlipped st) (tutorStep st) (isDraggingJCC st) (isDraggingLens st)
    (disabled st) (lensAxisDisplay st) (currentRXDisplay st) (cylinderPowerDisplay st)
    (jccAngleDisplay st) (jccPositionDisplay st) (finalRXDisplay st)
    (notificationOnclick st) v (dragListeners st).
Definition set_dragListeners (v : list Slider) (st : State) : State :=
  mkState (currentSphere st) (currentCylinder st) (currentAxis st) (jccHandleAngle st)
    (jccFlipped st) (tutorStep st) (isDraggingJCC st) (isDraggingLens st)
    (disabled st) (lensAxisDisplay st) (currentRXDisplay st) (cylinderPowerDisplay st)
    (jccAngleDisplay st) (jccPositionDisplay st) (finalRXDisplay st)
    (notificationOnclick st) (pendingTimeouts st) v.

(** Statements of a function body are chained left to right. *)
Notation "st ;> f" := (f st) (at level 61, left associativity, only parsing).

(** ** Display and control helpers *)

(** The prescription line shared by [currentRXDisplay] and [finalRXDisplay]. *)
Definition rxText (st : State) : string :=
  (toFixed2 (currentSphere st) ++ " DS / " ++ toFixed2 (currentCylinder st)
     ++ " DC x " ++ string_of_Z (getDisplayAxis (currentAxis st)) ++ degree)%string.

Definition updateLensDisplay (st : State) : State :=
  st ;> set_lensAxisDisplay (string_of_Z (getDisplayAxis (currentAxis st)) ++ degree)%string
     ;> set_currentRXDisplay (rxText st)
     ;> set_cylinderPowerDisplay (toFixed2 (currentCylinder st) ++ " DC")%string.

Definition updateJCCDisplay (st : State) : State :=
  st ;> set_jccPositionDisplay (if negb (jccFlipped st) then "Position 1" else "Position 2")
     ;> set_jccAngleDisplay (string_of_Z (getDisplayAxis (jccHandleAngle st)) ++ degree)%string.

Definition disableAllControls (st : State) : State :=
  set_disabled (fun _ => true) st.

Definition setDisabled (c : Control) (b : bool) (st : State) : State :=
  set_disabled (fun d => if Control_eqb c d then b else disabled st d) st.

(** The [switch] of [enableControls]; a name it does not list is ignored. *)
Definition enableControl (control : string) (st : State) : State :=
  if (control =? "flipJCC")%string then setDisabled flipJCCButton false st
  else if (control =? "jccRotation")%string then setDisabled jccAxisSlider false st
  else if (control =? "lensRotation")%string then setDisabled lensAxisSlider false st
  else if (control =? "increasePower")%string then setDisabled increasePowerButton false st
  else if (control =? "decreasePower")%string then setDisabled decreasePowerButton false st
  else if (control =? "confirmAxis")%string then setDisabled confirmAxisButton false st
  else if (control =? "confirmPower")%string then setDisabled confirmPowerButton false st
  else if (control =? "startTutorialButton")%string
       then setDisabled startTutorialButton false st
  else st.

Definition enableControls (controls : list string) (st : State) : State :=
  fold_left (fun st control => enableControl control st) controls st.

(** [showJCCNotification(message, nextStep)]: every caller passes [nextStep]
    as the callback, so the stored [onclick] is a flag. *)
Definition showJCCNotification (st : State) : State :=
  st ;> disableAllControls
     ;> setDisabled notificationOkButton false
     ;> set_notificationOnclick true.

(** ** JCC geometry *)

Definition getJCCRedLineAxis (st : State) : Z :=
  let redLineOffset := if negb (jccFlipped st) then -45 else 45 in
  let calculatedAxis := jccHandleAngle st + redLineOffset in
  getDisplayAxis calculatedAxis.

Definition getJCCGreenLineAxis (st : State) : Z :=
  let greenLineOffset := if negb (jccFlipped st) then 45 else -45 in
  let calculatedAxis := jccHandleAngle st + greenLineOffset in
  getDisplayAxis calculatedAxis.


(** ** The tutor *)

(** [nextStep]: count the step, disable every control, then run the entry
    code of the new step.  Step 1 leaves its instruction and the enabling of
    the JCC slider to a [setTimeout] callback. *)
Definition nextStep (st : State) : State :=
  let st := st ;> set_tutorStep (tutorStep st + 1) ;> disableAllControls in
  match tutorStep st with
  | 1 => st ;> set_pendingTimeouts (S (pendingTimeouts st))
  | 2 => st ;> enableControls ["flipJCC"] ;> set_jccFlipped false ;> updateJCCDisplay
  | 3 => st ;> showJCCNotification
  | 4 => st ;> enableControls ["flipJCC"] ;> set_jccFlipped true ;> updateJCCDisplay
  | 5 => st ;> showJCCNotification
  | 6 => st ;> enableControls ["flipJCC"] ;> set_jccFlipped false ;> updateJCCDisplay
  | 7 => st ;> showJCCNotification
  | 8 => st ;> enableControls ["lensRotation"] ;> updateLensDisplay
  | 9 => st ;> enableControls ["jccRotation"] ;> updateJCCDisplay
  | 10 => st ;> enableControls ["flipJCC"] ;> set_jccFlipped false ;> updateJCCDisplay
  | 11 => st ;> showJCCNotification
  | 12 => st ;> enableControls ["flipJCC"] ;> set_jccFlipped true ;> updateJCCDisplay
  | 13 => st ;> showJCCNotification
  | 14 => st ;> enableControls ["flipJCC"] ;> set_jccFlipped false ;> updateJCCDisplay
  | 15 => st ;> showJCCNotification
  | 16 => st ;> enableControls ["confirmAxis"]
  | 17 => st ;> enableControls ["jccRotation"] ;> updateJCCDisplay
  | 18 => st ;> enableControls ["flipJCC"] ;> set_jccFlipped false ;> updateJCCDisplay
  | 19 => st ;> showJCCNotification
  | 20 => st ;> enableControls ["flipJCC"] ;> set_jccFlipped true ;> updateJCCDisplay
  | 21 => st ;> showJCCNotification
  | 22 => st ;> enableControls ["flipJCC"] ;> set_jccFlipped false ;> updateJCCDisplay
  | 23 => st ;> showJCCNotification
  | 24 => st ;> enableControls ["increasePower"; "decreasePower"]
  | 25 => st ;> enableControls ["flipJCC"] ;> set_jccFlipped false ;> updateJCCDisplay
  | 26 => st ;> showJCCNotification
  | 27 => st ;> enableControls ["flipJCC"] ;> set_jccFlipped true ;> updateJCCDisplay
  | 28 => st ;> showJCCNotification
  | 29 => st ;> enableControls ["flipJCC"] ;> set_jccFlipped false ;> updateJCCDisplay
  | 30 => st ;> showJCCNotification
  | 31 => st ;> enableControls ["increasePower"; "decreasePower"]
  | 32 => st ;> enableControls ["flipJCC"] ;> set_jccFlipped false ;> updateJCCDisplay
  | 33 => st ;> showJCCNotification
  | 34 => st ;> enableControls ["flipJCC"] ;> set_jccFlipped true ;> updateJCCDisplay
  | 35 => st ;> showJCCNotification
  | 36 => st ;> enableControls ["flipJCC"] ;> set_jccFlipped false ;> updateJCCDisplay
  | 37 => st ;> showJCCNotification
  | 38 => st ;> enableControls ["confirmPower"]
  | 39 => st ;> set_finalRXDisplay (Some (rxText st)) ;> disableAllControls
  | _ => st
  end.

(** [checkSliderValueForNextStep], called after a slider is released. *)
Definition checkSliderValueForNextStep (st : State) : State :=
  match tutorStep st with
  | 1 => if jccHandleAngle st =? 180 then nextStep st else st
  | 8 => if currentAxis st =? 5 then nextStep st else st
  | 9 => if jccHandleAngle st =? 5 then nextStep st else st
  | 17 =>
      let targetPowerRefineJCCHandleAngle := getDisplayAxis (currentAxis st + 45) in
      if jccHandleAngle st =? targetPowerRefineJCCHandleAngle then nextStep st else st
  | _ => st
  end.

(** ** Slider drags *)

(** [updateJCCRotation] and [updateLensRotation], the [updateValueCallback]
    of the two sliders. *)
Definition updateJCCRotation (angle : Z) (st : State) : State := set_jccHandleAngle angle st.
Definition updateLensRotation (angle : Z) (st : State) : State := set_currentAxis angle st.

Definition updateValueCallback (sliderDiv : Slider) : Z -> State -> State :=
  match sliderDiv with
  | jccAxisSliderDiv => updateJCCRotation
  | lensAxisSliderDiv => updateLensRotation
  end.

(** A pointer event reaches the model as the value [svgCoordsToOptometricAxis]
    computes from it (an integer, by [Math.round], from a floating-point
    [atan2]) relative to the slider whose handler looks at it. *)
Definition Pointer := Slider -> Z.

(** [startDrag(e, sliderDiv, ...)], the [mousedown]/[touchstart] listener. *)
Definition startDrag (sliderDiv : Slider) (e : Pointer) (st : State) : State :=
  if disabled st (sliderControl sliderDiv) then st
  else
    let st := match sliderDiv with
              | jccAxisSliderDiv => set_isDraggingJCC true st
              | lensAxisSliderDiv => set_isDraggingLens true st
              end in
    st ;> set_dragListeners (dragListeners st ++ [sliderDiv])
       ;> updateValueCallback sliderDiv (getDisplayAxis (e sliderDiv)).

(** The [moveHandler] closure of a drag on [sliderDiv].  The element it
    calls [lensAngleDisplay] is the one [lensAxisDisplay] holds. *)
Definition moveHandler (sliderDiv : Slider) (moveEvent : Pointer) (st : State) : State :=
  if negb (isDraggingJCC st) && negb (isDraggingLens st) then st
  else
    let newOptometricAxis := moveEvent sliderDiv in
    let st := updateValueCallback sliderDiv newOptometricAxis st in
    match sliderDiv with
    | jccAxisSliderDiv =>
        set_jccAngleDisplay (string_of_Z (getDisplayAxis newOptometricAxis) ++ degree)%string st
    | lensAxisSliderDiv =>
        set_lensAxisDisplay (string_of_Z (getDisplayAxis newOptometricAxis) ++ degree)%string st
    end.

Fixpoint removeListener (s : Slider) (l : list Slider) : list Slider :=
  match l with
  | [] => []
  | x :: l' =>
      match s, x with
      | jccAxisSliderDiv, jccAxisSliderDiv | lensAxisSliderDiv, lensAxisSliderDiv => l'
      | _, _ => x :: removeListener s l'
      end
  end.

(** The part of [upHandler] before its last line: clear the flags, remove
    the closure pair, snap the slider's own value and redraw. *)
Definition commitDrag (sliderDiv : Slider) (st : State) : State :=
  let st := st ;> set_isDraggingJCC false ;> set_isDraggingLens false in
  let st := set_dragListeners (removeListener sliderDiv (dragListeners st)) st in
  match sliderDiv with
  | jccAxisSliderDiv =>
      let finalOptometricAxis := getDisplayAxis (jccHandleAngle st) in
      st ;> set_jccHandleAngle finalOptometricAxis ;> updateJCCDisplay
  | lensAxisSliderDiv =>
      let finalOptometricAxis := getDisplayAxis (currentAxis st) in
      st ;> set_currentAxis finalOptometricAxis ;> updateLensDisplay
  end.

(** The [upHandler] closure of a drag on [sliderDiv]. *)
Definition upHandler (sliderDiv : Slider) (st : State) : State :=
  st ;> commitDrag sliderDiv ;> checkSliderValueForNextStep.

(** ** Button listeners *)

(** [jccFlipped = !jccFlipped;] *)
Definition toggleFlip (st : State) : State := set_jccFlipped (negb (jccFlipped st)) st.

Definition flipJCCClick (st : State) : State :=
  if disabled st flipJCCButton then st
  else st ;> toggleFlip ;> updateJCCDisplay ;> nextStep.

Definition increasePowerClick (st : State) : State :=
  let st := st ;> set_currentCylinder (currentCylinder st - 25) ;> updateLensDisplay in
  if (tutorStep st =? 24) || (tutorStep st =? 31) then nextStep st else st.

Definition decreasePowerClick (st : State) : State :=
  st ;> set_currentCylinder (currentCylinder st + 25) ;> updateLensDisplay.

Definition confirmAxisClick (st : State) : State :=
  if (tutorStep st =? 16) && (currentAxis st =? 5) then nextStep st else st.

Definition confirmPowerClick (st : State) : State :=
  if (tutorStep st =? 38) && (currentCylinder st =? -250) then nextStep st else st.

Definition startTutorialClick (st : State) : State :=
  st ;> setDisabled startTutorialButton true ;> nextStep.

(** The [onclick] that [showJCCNotification] installs: clear itself, then
    run the callback. *)
Definition notificationOkClick (st : State) : State :=
  if notificationOnclick st then st ;> set_notificationOnclick false ;> nextStep else st.

(** The callback queued by step 1. *)
Definition timeoutFires (st : State) : State :=
  match pendingTimeouts st with
  | O => st
  | S n => st ;> set_pendingTimeouts n ;> enableControls ["jccRotation"]
  end.

(** ** Sessions *)

(** The values of the top-level [let] declarations.  The page is not part
    of the script: its texts and flags are placeholders here, and [init]
    overwrites all of them but [finalRXDisplay]. *)
Definition loaded : State :=
  mkState 0 (-200) 180 90 false 0 false false (fun _ => false)
    "" "" "" "" "" None false 0 [].

Definition init (st : State) : State :=
  st ;> set_currentSphere 0 ;> set_currentCylinder (-200)
     ;> set_currentAxis 180 ;> set_jccHandleAngle 90
     ;> updateLensDisplay ;> updateJCCDisplay
     ;> disableAllControls ;> enableControls ["startTutorialButton"].

Definition initial : State := init loaded.

(** The events the script listens to.  Each runs its listener as written,
    with the checks the listener makes itself; a move or a release on the
    document runs every registered closure, in registration order. *)
Inductive Event :=
| MouseDown (sliderDiv : Slider) (e : Pointer)
| MouseMove (e : Pointer)
| MouseUp
| FlipJCC | IncreasePower | DecreasePower | ConfirmAxis | ConfirmPower
| StartTutorial | NotificationOk
| TimerFires.

Definition handle (ev : Event) (st : State) : State :=
  match ev with
  | MouseDown s e => startDrag s e st
  | MouseMove e => fold_left (fun st s => moveHandler s e st) (dragListeners st) st
  | MouseUp => fold_left (fun st s => upHandler s st) (dragListeners st) st
  | FlipJCC => flipJCCClick st
  | IncreasePower => increasePowerClick st
  | DecreasePower => decreasePowerClick st
  | ConfirmAxis => confirmAxisClick st
  | ConfirmPower => confirmPowerClick st
  | StartTutorial => startTutorialClick st
  | NotificationOk => notificationOkClick st
  | TimerFires => timeoutFires st
  end.

Definition run (evs : list Event) (st : State) : State :=
  fold_left (fun st ev => handle ev st) evs st.

Inductive reachable : State -> Prop :=
| reachable_initial : reachable initial
| reachable_handle ev st : reachable st -> reachable (handle ev st).

(** The variable a slider writes. *)
Definition sliderValue (sliderDiv : Slider) (st : State) : Z :=
  match sliderDiv with
  | jccAxisSliderDiv => jccHandleAngle st
  | lensAxisSliderDiv => currentAxis st
  end.

Definition otherSlider (sliderDiv : Slider) : Slider :=
  match sliderDiv with
  | jccAxisSliderDiv => lensAxisSliderDiv
  | lensAxisSliderDiv => jccAxisSliderDiv
  end.

(** The text next to a slider. *)
Definition sliderText (sliderDiv : Slider) (st : State) : string :=
  match sliderDiv with
  | jccAxisSliderDiv => jccAngleDisplay st
  | lensAxisSliderDiv => lensAxisDisplay st
  end.

(** The [moveHandler] of one drag, run on a sequence of move events. *)
Definition moves (sliderDiv : Slider) (es : list Pointer) (st : State) : State :=
  fold_left (fun st e => moveHandler sliderDiv e st) es st.

(** The sphere is 0.00 and every prescription line drawn so far begins
    with it. *)
Definition rxShown (st : State) : Prop :=
  currentSphere st = 0 /\
  prefix "0.00 DS" (currentRXDisplay st) = true /\
  (forall s, finalRXDisplay st = Some s -> prefix "0.00 DS" s = true).

(** While the tutor waits for a confirmation or a power click, the button
    it waits for is enabled. *)
Definition gated (st : State) : Prop :=
  (tutorStep st = 16 -> disabled st confirmAxisButton = false) /\
  (tutorStep st = 38 -> disabled st confirmPowerButton = false) /\
  (tutorStep st = 24 \/ tutorStep st = 31 ->
   disabled st increasePowerButton = false /\ disabled st decreasePowerButton = false).

(** A pointer resting at one angle for both sliders. *)
Definition pointerAt (a : Z) : Pointer := fun _ => a.

Definition drag (sliderDiv : Slider) (a : Z) : list Event :=
  [MouseDown sliderDiv (pointerAt a); MouseUp].

Definition flipThrice : list Event :=
  [FlipJCC; NotificationOk; FlipJCC; NotificationOk; FlipJCC; NotificationOk].

(** The scripted path from the start button to the final prescription. *)
Definition session : list Event :=
  [StartTutorial; TimerFires] ++ drag jccAxisSliderDiv 179 ++ flipThrice
    ++ drag lensAxisSliderDiv 4 ++ drag jccAxisSliderDiv 4 ++ flipThrice
    ++ [ConfirmAxis] ++ drag jccAxisSliderDiv 50 ++ flipThrice
    ++ [IncreasePower] ++ flipThrice ++ [IncreasePower] ++ flipThrice
    ++ [ConfirmPower].

(** The handle angles of the perpendicularity check: 0, 5, ..., 180. *)
Definition handleAngles : list Z := map (fun k => 5 * Z.of_nat k) (seq 0 37).

(** Agreement of two states on the variables other than [jccFlipped] and
    [tutorStep]. *)
Definition sameValues (st st' : State) : Prop :=
  currentSphere st' = currentSphere st /\
  currentCylinder st' = currentCylinder st /\
  currentAxis st' = currentAxis st /\
  jccHandleAngle st' = jccHandleAngle st.

(** ** Notions used by the further properties *)

(** A clinical axis: a multiple of 5 from 5 to 180. *)
Definition clinicalAxis (x : Z) : Prop := 5 <= x <= 180 /\ x mod 5 = 0.

(** What [updateLensDisplay] and [updateJCCDisplay] write next to a slider
    whose variable is [v]. *)
Definition axisText (v : Z) : string := (string_of_Z (getDisplayAxis v) ++ degree)%string.

(** The page shows the variables: every slider without a running drag
    holds a clinical axis and has it as its text, the prescription line is
    the one a redraw would give unless the lens slider is being dragged, and
    the position label and the power label follow their variables. *)
Definition settled (st : State) : Prop :=
  (forall s, ~ In s (dragListeners st) ->
             clinicalAxis (sliderValue s st) /\
             sliderText s st = axisText (sliderValue s st)) /\
  (~ In lensAxisSliderDiv (dragListeners st) -> currentRXDisplay st = rxText st) /\
  jccPositionDisplay st = (if negb (jccFlipped st) then "Position 1" else "Position 2") /\
  cylinderPowerDisplay st = (toFixed2 (currentCylinder st) ++ " DC")%string.

Definition memControl (c : Control) (l : list Control) : bool := existsb (Control_eqb c) l.

(** The controls open to the learner in step [n]: what [init] enables
    (step 0), what the delayed callback of step 1 enables, and what the case
    of [nextStep] for step [n] enables, directly or, for the OK button,
    through [showJCCNotification]. *)
Definition stepControls (n : Z) : list Control :=
  match n with
  | 0 => [startTutorialButton]
  | 1 | 9 | 17 => [jccAxisSlider]
  | 8 => [lensAxisSlider]
  | 2 | 4 | 6 | 10 | 12 | 14 | 18 | 20 | 22 | 25 | 27 | 29 | 32 | 34 | 36 => [flipJCCButton]
  | 3 | 5 | 7 | 11 | 13 | 15 | 19 | 21 | 23 | 26 | 28 | 30 | 33 | 35 | 37 =>
      [notificationOkButton]
  | 16 => [confirmAxisButton]
  | 24 | 31 => [increasePowerButton; decreasePowerButton]
  | 38 => [confirmPowerButton]
  | _ => []
  end.

(** The value the case of step [n] assigns to [jccFlipped], if it assigns one. *)
Definition flipAt (n : Z) : option bool :=
  match n with
  | 2 | 6 | 10 | 14 | 18 | 22 | 25 | 29 | 32 | 36 => Some false
  | 4 | 12 | 20 | 27 | 34 => Some true
  | _ => None
  end.

(** The start button is enabled exactly before the first step. *)
Definition startOpen (st : State) : Prop :=
  0 <= tutorStep st /\ (disabled st startTutorialButton = false <-> tutorStep st = 0).

(** ** Sessions in a browser *)

(** A browser delivers no click to a button whose [disabled] property is
    set; the other events arrive whenever they occur. *)
Definition delivered (ev : Event) (st : State) : bool :=
  match ev with
  | FlipJCC => negb (disabled st flipJCCButton)
  | IncreasePower => negb (disabled st increasePowerButton)
  | DecreasePower => negb (disabled st decreasePowerButton)
  | ConfirmAxis => negb (disabled st confirmAxisButton)
  | ConfirmPower => negb (disabled st confirmPowerButton)
  | StartTutorial => negb (disabled st startTutorialButton)
  | NotificationOk => negb (disabled st notificationOkButton)
  | MouseDown _ _ | MouseMove _ | MouseUp | TimerFires => true
  end.

(** The states of the sessions in which every event is delivered. *)
Inductive inSession : State -> Prop :=
| inSession_initial : inSession initial
| inSession_handle ev st :
    inSession st -> delivered ev st = true -> inSession (handle ev st).

(** [runDelivered evs st] runs [evs] from [st] as long as each event is
    delivered in the state it meets. *)
Fixpoint runDelivered (evs : list Event) (st : State) : option State :=
  match evs with
  | [] => Some st
  | ev :: evs' => if delivered ev st then runDelivered evs' (handle ev st) else None
  end.

(** The values the script leads to, by step: the lens axis outside step 8,
    the handle angle outside the steps 1, 9 and 17 that set it, the flip
    flag, and the cylinder the two scripted power clicks give. *)
Definition scriptAxis (n : Z) : option Z :=
  if n <=? 7 then Some 180 else if n =? 8 then None else Some 5.

Definition scriptHandle (n : Z) : option Z :=
  if n =? 0 then Some 90 else if n =? 1 then None
  else if n <=? 8 then Some 180 else if n =? 9 then None
  else if n <=? 16 then Some 5 else if n =? 17 then None
  else Some 50.

Definition scriptFlipped (n : Z) : bool :=
  match n with
  | 3 | 4 | 7 | 8 | 9 | 11 | 12 | 15 | 16 | 17 | 19 | 20 | 23 | 24
  | 26 | 27 | 30 | 31 | 33 | 34 | 37 | 38 | 39 => true
  | _ => false
  end.

Definition scriptCylinder (n : Z) : Z :=
  if n <=? 24 then -200 else if n <=? 31 then -225 else -250.

Definition agrees (o : option Z) (v : Z) : Prop :=
  match o with Some a => v = a | None => True end.

(** What holds of a session state, also between the closures of one release. *)
Definition onScript (st : State) : Prop :=
  0 <= tutorStep st <= 39 /\
  (pendingTimeouts st <= 1)%nat /\
  (pendingTimeouts st = 1%nat -> tutorStep st = 1) /\
  (forall c, disabled st c =
             negb ((pendingTimeouts st =? 0)%nat
                   && memControl c (stepControls (tutorStep st)))) /\
  currentSphere st = 0 /\
  agrees (scriptAxis (tutorStep st)) (currentAxis st) /\
  agrees (scriptHandle (tutorStep st)) (jccHandleAngle st) /\
  jccFlipped st = scriptFlipped (tutorStep st) /\
  scriptCylinder (tutorStep st) <= currentCylinder st /\
  (tutorStep st = 39 -> currentCylinder st = -250) /\
  finalRXDisplay st =
    (if tutorStep st =? 39 then Some "0.00 DS / -2.50 DC x 5°" else None) /\
  notificationOnclick st = memControl notificationOkButton (stepControls (tutorStep st)).

(** What holds of a session state between events: closures are registered
    only for an enabled slider. *)
Definition inScript (st : State) : Prop :=
  onScript st /\
  (forall s, In s (dragListeners st) -> disabled st (sliderControl s) = false).

(** How far the cylinder is above the one the script has at this step. *)
Definition powerSlack (st : State) : Z := currentCylinder st - scriptCylinder (tutorStep st).

(** ** The texts of a step *)

(** What [displayInstruction] and [displayContinuousPatientFeedback] put in
    their boxes for a text. *)
Definition displayInstruction (text : string) : string :=
  ("<strong>Tutor:</strong> " ++ text)%string.

Definition displayContinuousPatientFeedback (text : string) : string :=
  ("<strong>Patient:</strong> " ++ text)%string.

(** The text [nextStep st] hands to [displayInstruction], read with the
    variables as they are when [nextStep] is called: every case displays
    before it assigns.  The acknowledged steps display none, step 1 leaves
    its instruction to the delayed callback, and the [default] case has a
    fixed one. *)
Definition nextStepInstruction (st : State) : option string :=
  match tutorStep st + 1 with
  | 2 =>
      Some ("JCC handle is at " ++ string_of_Z (getDisplayAxis (jccHandleAngle st))
            ++ "°. Click 'Flip JCC' to view Position 1.")%string
  | 4 =>
      Some ("Click 'Flip JCC' again to view Position 1.")%string
  | 6 =>
      Some ("Click 'Flip JCC' one more time to view Position 2 and finalize.")%string
  | 8 =>
      Some ("As instructed, rotate the trial lens cylinder axis to 5° using the circular slider.")%string
  | 9 =>
      Some ("Trial lens is now at " ++ string_of_Z (getDisplayAxis (currentAxis st))
            ++ "°. Now align the JCC handle parallel to this new lens axis ("
            ++ string_of_Z (getDisplayAxis (currentAxis st))
            ++ "°) for further refinement. Please set the JCC Handle Angle to "
            ++ string_of_Z (getDisplayAxis (currentAxis st)) ++ "° using the circular slider.")%string
  | 10 =>
      Some ("JCC handle is at " ++ string_of_Z (getDisplayAxis (jccHandleAngle st))
            ++ "°. Click 'Flip JCC' to show Position 1 for axis confirmation.")%string
  | 12 =>
      Some ("Click 'Flip JCC' again to view Position 1.")%string
  | 14 =>
      Some ("Click 'Flip JCC' one more time to view Position 2 and finalize.")%string
  | 16 =>
      Some ("As indicated by patient feedback, confirm the axis by clicking 'Confirm Axis'.")%string
  | 17 =>
      Some ("Axis confirmed at " ++ string_of_Z (getDisplayAxis (currentAxis st))
            ++ "°. Now for power refinement. Align the JCC's red line (minus cylinder axis) parallel to the current lens axis ("
            ++ string_of_Z (getDisplayAxis (currentAxis st))
            ++ "°). For Position 1 (unflipped JCC), this means setting the JCC Handle Angle to "
            ++ string_of_Z (getDisplayAxis (currentAxis st + 45))
            ++ "°. Please set the JCC Handle Angle to "
            ++ string_of_Z (getDisplayAxis (currentAxis st + 45)) ++ "°.")%string
  | 18 =>
      Some ("JCC's red line is now aligned with the lens axis at "
            ++ string_of_Z (getJCCRedLineAxis st)
            ++ "°. Click 'Flip JCC' to show Position 1 for power comparison.")%string
  | 20 =>
      Some ("Click 'Flip JCC' again to view Position 1.")%string
  | 22 =>
      Some ("Click 'Flip JCC' one more time to view Position 2 and finalize.")%string
  | 24 =>
      Some ("Based on patient feedback, click 'Increase Power (-0.25 DC)'.")%string
  | 25 =>
      Some ("Cylinder power increased to " ++ toFixed2 (currentCylinder st)
            ++ " DC. Click 'Flip JCC' again to re-evaluate Position 1.")%string
  | 27 =>
      Some ("Click 'Flip JCC' again to view Position 1.")%string
  | 29 =>
      Some ("Click 'Flip JCC' one more time to view Position 2 and finalize.")%string
  | 31 =>
      Some ("Based on patient feedback, click 'Increase Power (-0.25 DC)' again.")%string
  | 32 =>
      Some ("Cylinder power increased to " ++ toFixed2 (currentCylinder st)
            ++ " DC. Click 'Flip JCC' again to re-evaluate Position 1.")%string
  | 34 =>
      Some ("Click 'Flip JCC' again to view Position 1.")%string
  | 36 =>
      Some ("Click 'Flip JCC' one more time to view Position 2 and finalize.")%string
  | 38 =>
      Some ("As indicated by patient feedback, confirm the power by clicking 'Confirm Power'.")%string
  | 39 =>
      Some ("Congratulations! You have successfully refined the cylinder axis and power. The final verified prescription is displayed below.")%string
  | 1 | 3 | 5 | 7 | 11 | 13 | 15 | 19 | 21 | 23 | 26 | 28 | 30 | 33 | 35 | 37 => None
  | _ => Some "Simulation complete. Refresh the page to restart."
  end.

(** The message [nextStep st] hands to [showJCCNotification], if the new
    step shows one. *)
Definition nextStepNotification (st : State) : option string :=
  match tutorStep st + 1 with
  | 3 =>
      Some ("Position 2 (red line at 40°): Blurred. Now, click 'Flip JCC' again to view Position 1.")%string
  | 5 =>
      Some ("Position 1 (red line at 140°): Blurred. Now, click 'Flip JCC' one more time to view Position 2 and finalize.")%string
  | 7 =>
      Some ("Position 2 (red line at 40°) is clearer than Position 1. Rotate the cylinder lens towards the red line (because of minus lens) for 5 degrees (to axis 5°).")%string
  | 11 =>
      Some ("Position 2 (red line at " ++ string_of_Z (getJCCRedLineAxis st)
            ++ "°): Equally blurred. Now, click 'Flip JCC' again to view Position 1.")%string
  | 13 =>
      Some ("Position 1 (red line at " ++ string_of_Z (getJCCRedLineAxis st)
            ++ "°): Equally blurred. Now, click 'Flip JCC' one more time to view Position 2 and finalize.")%string
  | 15 =>
      Some ("Both positions are 'Equally blurred'. This confirms "
            ++ string_of_Z (getDisplayAxis (currentAxis st))
            ++ "° as the correct cylinder axis! Now confirm the axis.")%string
  | 19 =>
      Some ("Position 2 (red line along " ++ string_of_Z (getDisplayAxis (currentAxis st))
            ++ "°, green line at " ++ string_of_Z (getJCCGreenLineAxis st)
            ++ "°): Clearer than Position 1. Now, click 'Flip JCC' again to view Position 1.")%string
  | 21 =>
      Some ("Position 1 (green line along " ++ string_of_Z (getDisplayAxis (currentAxis st))
            ++ "°, red line at " ++ string_of_Z (getJCCRedLineAxis st)
            ++ "°): Blurred. Now, click 'Flip JCC' one more time to view Position 2 and finalize.")%string
  | 23 =>
      Some ("Position 2 (red line along " ++ string_of_Z (getDisplayAxis (currentAxis st))
            ++ "°, green line at " ++ string_of_Z (getJCCGreenLineAxis st)
            ++ "°): Clearer than Position 1. This means more minus cylinder power is needed. Add -0.25 DC to the lens.")%string
  | 26 =>
      Some ("Position 2 (red line along " ++ string_of_Z (getDisplayAxis (currentAxis st))
            ++ "°, green line at " ++ string_of_Z (getJCCGreenLineAxis st)
            ++ "°): Still slightly clearer than Position 1. Now, click 'Flip JCC' again to view Position 1.")%string
  | 28 =>
      Some ("Position 1 (green line along " ++ string_of_Z (getDisplayAxis (currentAxis st))
            ++ "°, red line at " ++ string_of_Z (getJCCRedLineAxis st)
            ++ "°): Still slightly blurred. Now, click 'Flip JCC' one more time to view Position 2 and finalize.")%string
  | 30 =>
      Some ("Position 2 (red line along " ++ string_of_Z (getDisplayAxis (currentAxis st))
            ++ "°, green line at " ++ string_of_Z (getJCCGreenLineAxis st)
            ++ "°): Still slightly clearer than Position 1. Let's add another -0.25 DC.")%string
  | 33 =>
      Some ("Position 2 (red line along " ++ string_of_Z (getDisplayAxis (currentAxis st))
            ++ "°, green line at " ++ string_of_Z (getJCCGreenLineAxis st)
            ++ "°): Equally blurred. Now, click 'Flip JCC' again to view Position 1.")%string
  | 35 =>
      Some ("Position 1 (green line along " ++ string_of_Z (getDisplayAxis (currentAxis st))
            ++ "°, red line at " ++ string_of_Z (getJCCRedLineAxis st)
            ++ "°): Equally blurred. Now, click 'Flip JCC' one more time to view Position 2 and finalize.")%string
  | 37 =>
      Some ("Position 2 (red line along " ++ string_of_Z (getDisplayAxis (currentAxis st))
            ++ "°, green line at " ++ string_of_Z (getJCCGreenLineAxis st)
            ++ "°): Equally blurred. Both positions are now equally blurred! The cylinder power of "
            ++ toFixed2 (currentCylinder st) ++ " DC at axis "
            ++ string_of_Z (getDisplayAxis (currentAxis st))
            ++ "° is confirmed. Now confirm the power.")%string
  | _ => None
  end.

(** The text [nextStep st] hands to [displayContinuousPatientFeedback], if
    the new step has one. *)
Definition nextStepFeedback (st : State) : option string :=
  match tutorStep st + 1 with
  | 1 =>
      Some ("Ready for examination.")%string
  | 3 =>
      Some ("Position 2 (red line at 40°): Blurred.")%string
  | 5 =>
      Some ("Position 1 (red line at 140°): Blurred.")%string
  | 7 =>
      Some ("Position 2 (red line at 40°): Clearer than Position 1.")%string
  | 11 =>
      Some ("Position 2 (red line at " ++ string_of_Z (getJCCRedLineAxis st)
            ++ "°): Equally blurred.")%string
  | 13 =>
      Some ("Position 1 (red line at " ++ string_of_Z (getJCCRedLineAxis st)
            ++ "°): Equally blurred.")%string
  | 15 =>
      Some ("Position 2 (red line at " ++ string_of_Z (getJCCRedLineAxis st)
            ++ "°): Equally blurred.")%string
  | 19 =>
      Some ("Position 2 (red line along " ++ string_of_Z (getDisplayAxis (currentAxis st))
            ++ "°, green line at " ++ string_of_Z (getJCCGreenLineAxis st)
            ++ "°): Clearer than Position 1.")%string
  | 21 =>
      Some ("Position 1 (green line along " ++ string_of_Z (getDisplayAxis (currentAxis st))
            ++ "°, red line at " ++ string_of_Z (getJCCRedLineAxis st) ++ "°): Blurred.")%string
  | 23 =>
      Some ("Position 2 (red line along " ++ string_of_Z (getDisplayAxis (currentAxis st))
            ++ "°, green line at " ++ string_of_Z (getJCCGreenLineAxis st)
            ++ "°): Clearer than Position 1.")%string
  | 26 =>
      Some ("Position 2 (red line along " ++ string_of_Z (getDisplayAxis (currentAxis st))
            ++ "°, green line at " ++ string_of_Z (getJCCGreenLineAxis st)
            ++ "°): Still slightly clearer than Position 1.")%string
  | 28 =>
      Some ("Position 1 (green line along " ++ string_of_Z (getDisplayAxis (currentAxis st))
            ++ "°, red line at " ++ string_of_Z (getJCCRedLineAxis st)
            ++ "°): Still slightly blurred.")%string
  | 30 =>
      Some ("Position 2 (red line along " ++ string_of_Z (getDisplayAxis (currentAxis st))
            ++ "°, green line at " ++ string_of_Z (getJCCGreenLineAxis st)
            ++ "°): Still slightly clearer than Position 1.")%string
  | 33 =>
      Some ("Position 2 (red line along " ++ string_of_Z (getDisplayAxis (currentAxis st))
            ++ "°, green line at " ++ string_of_Z (getJCCGreenLineAxis st)
            ++ "°): Equally blurred.")%string
  | 35 =>
      Some ("Position 1 (green line along " ++ string_of_Z (getDisplayAxis (currentAxis st))
            ++ "°, red line at " ++ string_of_Z (getJCCRedLineAxis st) ++ "°): Equally blurred.")%string
  | 37 =>
      Some ("Position 2 (red line along " ++ string_of_Z (getDisplayAxis (currentAxis st))
            ++ "°, green line at " ++ string_of_Z (getJCCGreenLineAxis st)
            ++ "°): Equally blurred.")%string
  | _ => None
  end.

(** The instruction of step 1, displayed by the delayed callback. *)
Definition timeoutInstruction : string :=
  "For axis refinement, align the JCC handle with the current cylinder axis. Your trial lens is at 180°. Please set the JCC Handle Angle to 180° using the circular slider.".

(** The part of the scripted path before the first power click, and the
    rest of it. *)
Definition axisPhase : list Event :=
  [StartTutorial; TimerFires] ++ drag jccAxisSliderDiv 179 ++ flipThrice
    ++ drag lensAxisSliderDiv 4 ++ drag jccAxisSliderDiv 4 ++ flipThrice
    ++ [ConfirmAxis] ++ drag jccAxisSliderDiv 50 ++ flipThrice.

Definition powerPhase : list Event :=
  [IncreasePower] ++ flipThrice ++ [IncreasePower] ++ flipThrice ++ [ConfirmPower].

(** The scripted path up to the press on the JCC slider in step 17. *)
Definition pressInStep17 : list Event :=
  [StartTutorial; TimerFires] ++ drag jccAxisSliderDiv 179 ++ flipThrice
    ++ drag lensAxisSliderDiv 4 ++ drag jccAxisSliderDiv 4 ++ flipThrice
    ++ [ConfirmAxis; MouseDown jccAxisSliderDiv (pointerAt 50)].

(** ** Proof automation *)

(** Division, [mod] and [Z.rem] by a constant, handed to [lia]. *)
Ltac euclid := Z.to_euclidean_division_equations; lia.

(** Bounds on a 53-bit mantissa, with the powers of two written out. *)
Ltac pow2 :=
  change (2 ^ 52) with 4503599627370496;
  change (2 ^ 53) with 9007199254740992; lia.

(** Case analysis on a step number down to the depth of the [switch]. *)
Ltac split_pos p n :=
  lazymatch n with
  | O => idtac
  | S ?n' => destruct p as [p|p|]; [split_pos p n' | split_pos p n' | idtac]
  end.

Ltac step_cases z :=
  let p := fresh "p" in
  destruct z as [|p|p]; [ | split_pos p 6%nat | ].

(** * Properties *)

Example getDisplayAxis_neg45 : getDisplayAxis (-45) = 135.
Proof. reflexivity. Qed.
Example getDisplayAxis_3 : getDisplayAxis 3 = 5.
Proof. reflexivity. Qed.
Example getDisplayAxis_2 : getDisplayAxis 2 = 180.
Proof. reflexivity. Qed.
Example getDisplayAxis_neg183 : getDisplayAxis (-183) = 175.
Proof. reflexivity. Qed.

Lemma roundTo5Degrees_spec (a : Z) :
  exists k, roundTo5Degrees a = 5 * k /\ -2 <= a - 5 * k <= 2.
Proof.
  unfold roundTo5Degrees, Math_round_div.
  exists ((2 * a + 5) / (2 * 5)). split; [lia | euclid].
Qed.

Lemma roundTo5Degrees_shift (a m : Z) :
  roundTo5Degrees (a + 5 * m) = roundTo5Degrees a + 5 * m.
Proof. unfold roundTo5Degrees, Math_round_div. euclid. Qed.

Lemma roundTo5Degrees_multiple (k : Z) : roundTo5Degrees (5 * k) = 5 * k.
Proof. unfold roundTo5Degrees, Math_round_div. euclid. Qed.

Lemma getDisplayAxis_range (a : Z) :
  5 <= getDisplayAxis a <= 180 /\ exists k, getDisplayAxis a = 5 * k.
Proof.
  unfold getDisplayAxis.
  destruct (roundTo5Degrees_spec a) as [k [-> _]].
  destruct (Z.ltb_spec (Z.rem (5 * k) 180) 0);
    match goal with |- context [?x =? 0] => destruct (Z.eqb_spec x 0) end;
    (split; [ euclid | ]).
  - exists 36; lia.
  - exists (Z.rem k 36 + 36). euclid.
  - exists 36; lia.
  - exists (Z.rem k 36). euclid.
Qed.

Lemma getDisplayAxis_mod (a : Z) :
  (getDisplayAxis a - roundTo5Degrees a) mod 180 = 0.
Proof.
  unfold getDisplayAxis.
  destruct (Z.ltb_spec (Z.rem (roundTo5Degrees a) 180) 0);
    match goal with |- context [?x =? 0] => destruct (Z.eqb_spec x 0) end;
    euclid.
Qed.

(** Two angles in (0,180] that differ by a multiple of 180 are equal. *)
Lemma axis_unique (x y : Z) :
  0 < x <= 180 -> 0 < y <= 180 -> (x - y) mod 180 = 0 -> x = y.
Proof. intros Hx Hy H. euclid. Qed.

Lemma getDisplayAxis_congr (a b : Z) :
  (roundTo5Degrees a - roundTo5Degrees b) mod 180 = 0 ->
  getDisplayAxis a = getDisplayAxis b.
Proof.
  intros H. apply axis_unique.
  - pose proof (getDisplayAxis_range a); lia.
  - pose proof (getDisplayAxis_range b); lia.
  - pose proof (getDisplayAxis_mod a). pose proof (getDisplayAxis_mod b). euclid.
Qed.

Lemma getDisplayAxis_plus_180 (a : Z) : getDisplayAxis (a + 180) = getDisplayAxis a.
Proof.
  apply getDisplayAxis_congr.
  replace (a + 180) with (a + 5 * 36) by lia.
  rewrite roundTo5Degrees_shift. euclid.
Qed.

Lemma getDisplayAxis_fixed (x : Z) :
  0 < x <= 180 -> (exists k, x = 5 * k) -> getDisplayAxis x = x.
Proof.
  intros Hx [k ->]. unfold getDisplayAxis. rewrite roundTo5Degrees_multiple.
  destruct (Z.ltb_spec (Z.rem (5 * k) 180) 0);
    match goal with |- context [?x =? 0] => destruct (Z.eqb_spec x 0) end;
    euclid.
Qed.


(** ** What [nextStep] touches *)

Lemma nextStep_values (st : State) : sameValues st (nextStep st).
Proof.
  unfold nextStep, sameValues. cbn [tutorStep set_tutorStep disableAllControls set_disabled].
  step_cases (tutorStep st + 1); repeat split; reflexivity.
Qed.

Lemma nextStep_tutorStep (st : State) : tutorStep (nextStep st) = tutorStep st + 1.
Proof.
  unfold nextStep. cbn [tutorStep set_tutorStep disableAllControls set_disabled].
  step_cases (tutorStep st + 1); reflexivity.
Qed.

Lemma check_values (st : State) : sameValues st (checkSliderValueForNextStep st).
Proof.
  unfold checkSliderValueForNextStep.
  repeat match goal with
         | |- context [match ?z with Z0 => _ | Zpos _ => _ | Zneg _ => _ end] => destruct z
         | |- context [match ?p with xI _ => _ | xO _ => _ | xH => _ end] => destruct p
         | |- context [if ?b then _ else _] => destruct b
         end;
    first [apply nextStep_values | repeat split].
Qed.

(** ** Doubles *)

(** On integer angles of magnitude up to [2 ^ 50] the script's arithmetic on
    doubles returns the doubles of the integers that [AngleMath] computes. *)

Section Doubles.
Import Binary64.

(** [digits2_pos] counts bits like [Pos.size]. *)
Lemma digits2_pos_size (p : positive) : digits2_pos p = Pos.size p.
Proof. induction p; cbn; congruence. Qed.

Lemma digits2_pos_log2 (p : positive) :
  Zpos (digits2_pos p) = Z.log2 (Zpos p) + 1.
Proof.
  rewrite digits2_pos_size.
  destruct p; cbn [Pos.size Z.log2]; rewrite ?Pos2Z.inj_succ; lia.
Qed.

(** A number between [2 ^ (d - 1)] and [2 ^ d] has [d] bits. *)
Lemma Zdigits2_bounds (p : positive) (d : Z) :
  2 ^ (d - 1) <= Zpos p < 2 ^ d -> Zdigits2 (Zpos p) = d.
Proof.
  intros H. cbn [Zdigits2]. rewrite digits2_pos_log2.
  assert (0 < d).
  { destruct (Z.ltb_spec 0 d) as [L | L]; [exact L | ].
    destruct d as [|q|q]; cbn in H; lia. }
  rewrite (Z.log2_unique (Zpos p) (d - 1)); try lia.
  replace (Z.succ (d - 1)) with d by lia. exact H.
Qed.

(** [shl_align] shifts left by iterating [xO]. *)
Lemma iter_xO (d : positive) (m : positive) :
  Zpos (Pos.iter xO m d) = Zpos m * 2 ^ Zpos d.
Proof.
  rewrite <- Pos2Z.inj_pow.
  revert m. induction d as [ | d IH] using Pos.peano_ind; intros m.
  - cbn. lia.
  - rewrite Pos.iter_succ. rewrite Pos2Z.inj_xO, IH.
    rewrite Pos.pow_succ_r. lia.
Qed.

(** Shifting an even mantissa right loses nothing. *)
Lemma shr_1_exact (m : Z) :
  0 <= m ->
  shr_1 (Build_shr_record (m * 2) false false) = Build_shr_record m false false.
Proof.
  intros H. destruct m as [|p|p]; try lia; try reflexivity.
  cbn [Z.mul Pos.mul]. rewrite Pos.mul_comm. reflexivity.
Qed.

Lemma iter_shr_exact (p : positive) :
  forall m, 0 <= m ->
  iter_pos shr_1 p (Build_shr_record (m * 2 ^ Zpos p) false false)
  = Build_shr_record m false false.
Proof.
  induction p as [p IH | p IH | ]; intros m Hm; cbn [iter_pos].
  - replace (m * 2 ^ Zpos p~1) with ((m * 2 ^ Zpos p * 2 ^ Zpos p) * 2).
    + rewrite shr_1_exact by nia. rewrite IH by nia. apply IH, Hm.
    + assert (E : Zpos p~1 = Zpos p + Zpos p + 1) by lia.
      rewrite E, !Z.pow_add_r by lia. change (2 ^ 1) with 2. ring.
  - replace (m * 2 ^ Zpos p~0) with (m * 2 ^ Zpos p * 2 ^ Zpos p).
    + rewrite IH by nia. apply IH, Hm.
    + assert (E : Zpos p~0 = Zpos p + Zpos p) by lia.
      rewrite E, Z.pow_add_r by lia. ring.
  - change (2 ^ 1) with 2. apply shr_1_exact, Hm.
Qed.


(** A 53-bit mantissa in the exponent range is not shifted. *)
Lemma shr_fexp_53 (m : positive) (e : Z) (l : location) :
  2 ^ 52 <= Zpos m < 2 ^ 53 -> -1074 <= e ->
  shr_fexp prec emax (Zpos m) e l = (shr_record_of_loc (Zpos m) l, e).
Proof.
  intros Hm He. unfold shr_fexp. rewrite (Zdigits2_bounds m 53) by exact Hm.
  unfold fexp, emin, prec, emax.
  replace (Z.max (53 + e - 53) (3 - 1024 - 53) - e) with 0 by lia.
  reflexivity.
Qed.

(** A 53-bit mantissa shifted left by [k] and the exponent lowered by [k]
    rounds to the mantissa itself. *)
Lemma binary_round_aux_exact (s : bool) (M : positive) (E k : Z) :
  2 ^ 52 <= Zpos M < 2 ^ 53 -> -1074 <= E <= 971 -> 0 <= k ->
  binary_round_aux prec emax s (Zpos M * 2 ^ k) (E - k) loc_Exact
  = S754_finite s M E.
Proof.
  intros HM HE Hk. unfold binary_round_aux.
  assert (S1 : shr_fexp prec emax (Zpos M * 2 ^ k) (E - k) loc_Exact
               = (Build_shr_record (Zpos M) false false, E)).
  { destruct k as [|p|p]; try lia.
    - change (2 ^ 0) with 1. rewrite Z.mul_1_r, Z.sub_0_r.
      apply shr_fexp_53; lia.
    - unfold shr_fexp.
      assert (D : Zdigits2 (Zpos M * 2 ^ Zpos p) = 53 + Zpos p).
      { rewrite <- Pos2Z.inj_pow, <- Pos2Z.inj_mul.
        apply Zdigits2_bounds. rewrite Pos2Z.inj_mul, Pos2Z.inj_pow.
        replace (53 + Zpos p - 1) with (52 + Zpos p) by lia.
        rewrite !Z.pow_add_r by lia.
        assert (0 < 2 ^ Zpos p) by (apply Z.pow_pos_nonneg; lia). nia. }
      rewrite D. unfold fexp, emin, prec, emax.
      replace (Z.max (53 + Zpos p + (E - Zpos p) - 53) (3 - 1024 - 53)
               - (E - Zpos p)) with (Zpos p) by lia.
      cbn [shr shr_record_of_loc]. rewrite iter_shr_exact by lia.
      f_equal. lia. }
  rewrite S1. cbn [shr_m loc_of_shr_record round_nearest_even].
  rewrite shr_fexp_53 by lia. cbn [shr_m shr_record_of_loc].
  unfold prec, emax. destruct (Z.leb_spec E (1024 - 53)); [reflexivity | lia].
Qed.

(** The mantissa of [normal s n] has 53 bits. *)
Lemma normal_mantissa (n : Z) :
  0 < n < 2 ^ 53 ->
  0 <= Z.log2 n <= 52 /\
  2 ^ 52 <= n * 2 ^ (52 - Z.log2 n) < 2 ^ 53.
Proof.
  intros H. pose proof (Z.log2_spec n ltac:(lia)) as L.
  pose proof (Z.log2_nonneg n) as L0.
  assert (L1 : Z.log2 n <= 52).
  { destruct (Z.le_gt_cases (Z.log2 n) 52) as [A | A]; [exact A | ].
    assert (2 ^ 53 <= 2 ^ Z.log2 n) by (apply Z.pow_le_mono_r; lia). lia. }
  split; [lia | ].
  set (l := Z.log2 n) in *.
  assert (P : 2 ^ 52 = 2 ^ l * 2 ^ (52 - l)).
  { rewrite <- Z.pow_add_r by lia. f_equal. lia. }
  assert (Q : 2 ^ 53 = 2 ^ Z.succ l * 2 ^ (52 - l)).
  { rewrite <- Z.pow_add_r by lia. f_equal. lia. }
  assert (0 < 2 ^ (52 - l)) by (apply Z.pow_pos_nonneg; lia).
  rewrite P at 1. rewrite Q. nia.
Qed.

(** Rounding [n * 2 ^ j] given with exponent [- j] is exact when [n] has
    at most 53 bits. *)
Lemma binary_round_scaled (s : bool) (m : positive) (n j : Z) :
  0 < n < 2 ^ 53 -> 0 <= j -> Zpos m = n * 2 ^ j ->
  binary_round prec emax s m (- j) = normal s n.
Proof.
  intros Hn Hj Hm. destruct (normal_mantissa n Hn) as [Hl HM].
  set (l := Z.log2 n) in *. unfold normal. fold l.
  set (M := Z.to_pos (n * 2 ^ (52 - l))).
  assert (EM : Zpos M = n * 2 ^ (52 - l)) by (unfold M; rewrite Z2Pos.id; lia).
  assert (P2 : 0 < 2 ^ j) by (apply Z.pow_pos_nonneg; lia).
  assert (D : Zpos (digits2_pos m) = l + 1 + j).
  { apply (Zdigits2_bounds m (l + 1 + j)). rewrite Hm.
    pose proof (Z.log2_spec n ltac:(lia)) as L. fold l in L.
    replace (l + 1 + j - 1) with (l + j) by lia.
    replace (l + 1 + j) with (Z.succ l + j) by lia.
    rewrite !Z.pow_add_r by lia. nia. }
  unfold binary_round. rewrite D. unfold fexp, emin.
  replace (Z.max (l + 1 + j + - j - prec) (3 - emax - prec)) with (l - 52)
    by (unfold prec, emax; lia).
  unfold shl_align.
  destruct (l - 52 - - j) as [|p|p] eqn:Ek.
  - replace (Zpos m) with (Zpos M * 2 ^ 0).
    + replace (- j) with (l - 52 - 0) by lia.
      apply binary_round_aux_exact; lia.
    + rewrite EM, Hm. replace j with (52 - l) by lia. change (2 ^ 0) with 1. lia.
  - replace (Zpos m) with (Zpos M * 2 ^ Zpos p).
    + replace (- j) with (l - 52 - Zpos p) by lia.
      apply binary_round_aux_exact; lia.
    + rewrite EM, Hm. replace j with (52 - l + Zpos p) by lia.
      rewrite Z.pow_add_r by lia. ring.
  - replace (Zpos (Pos.iter xO m p)) with (Zpos M * 2 ^ 0).
    + replace (l - 52) with (l - 52 - 0) at 1 by lia.
      apply binary_round_aux_exact; lia.
    + rewrite iter_xO, EM, Hm. change (2 ^ 0) with 1.
      replace (52 - l) with (j + Zpos p) by lia.
      rewrite Z.pow_add_r by lia. ring.
Qed.

(** The double of a nonzero integer below [2 ^ 53]. *)
Lemma binary_normalize_scaled (v j : Z) (sz : bool) :
  0 < Z.abs v < 2 ^ 53 -> 0 <= j ->
  binary_normalize prec emax (v * 2 ^ j) (- j) sz = normal (v <? 0) (Z.abs v).
Proof.
  intros Hv Hj. assert (P2 : 0 < 2 ^ j) by (apply Z.pow_pos_nonneg; lia).
  destruct (v * 2 ^ j) as [|m|m] eqn:E; cbn [binary_normalize]; try nia.
  - assert (0 < v) by nia. destruct (Z.ltb_spec v 0); try lia.
    apply binary_round_scaled; try lia; rewrite Z.abs_eq by lia; congruence.
  - assert (v < 0) by nia. destruct (Z.ltb_spec v 0); try lia.
    apply binary_round_scaled; try lia; rewrite Z.abs_neq by lia; nia.
Qed.

(** [ofZ] is exact below [2 ^ 53]. *)
Lemma ofZ_normal (v : Z) :
  0 < Z.abs v < 2 ^ 53 -> ofZ v = normal (v <? 0) (Z.abs v).
Proof.
  intros Hv. unfold ofZ.
  replace v with (v * 2 ^ 0) at 1 by (change (2 ^ 0) with 1; lia).
  apply (binary_normalize_scaled v 0 false); lia.
Qed.

Lemma ofZ_5 : ofZ 5 = S754_finite false 5629499534213120 (-50).
Proof. reflexivity. Qed.

(** One shift to the right halves the mantissa. *)
Lemma shr_1_m (q : positive) (r s : bool) :
  shr_m (shr_1 (Build_shr_record (Zpos q) r s)) = Zpos q / 2.
Proof.
  destruct q as [q | q | ]; cbn [shr_1 shr_m].
  - rewrite Pos2Z.inj_xI. euclid.
  - rewrite Pos2Z.inj_xO. euclid.
  - reflexivity.
Qed.

(** Rounding keeps the mantissa or adds one to it. *)
Lemma round_nearest_even_cases (m : Z) (l : location) :
  round_nearest_even m l = m \/ round_nearest_even m l = m + 1.
Proof.
  destruct l as [ | [ | | ]]; cbn; try destruct (Z.even m); auto.
Qed.

Lemma loc_of_shr_record_of_loc (m : Z) (l : location) :
  loc_of_shr_record (shr_record_of_loc m l) = l.
Proof. destruct l as [ | [ | | ]]; reflexivity. Qed.

Lemma shr_m_of_loc (m : Z) (l : location) : shr_m (shr_record_of_loc m l) = m.
Proof. destruct l as [ | [ | | ]]; reflexivity. Qed.

(** The end of [binary_round_aux] on a 53-bit mantissa. *)
Lemma round_tail (s : bool) (m : positive) (e : Z) :
  2 ^ 52 <= Zpos m < 2 ^ 53 -> -1074 <= e <= 971 ->
  (let '(mrs, e') := shr_fexp prec emax (Zpos m) e loc_Exact in
   match shr_m mrs with
   | 0 => S754_zero s
   | Zpos m0 =>
       if e' <=? emax - prec then S754_finite s m0 e' else S754_infinity s
   | Zneg _ => S754_nan
   end) = S754_finite s m e.
Proof.
  intros Hm He. rewrite shr_fexp_53 by lia. cbn [shr_m shr_record_of_loc].
  unfold prec, emax. destruct (Z.leb_spec e (1024 - 53)); [reflexivity | lia].
Qed.

(** The quotient of a positive integer up to [2 ^ 50] by 5: a double with a
    negative exponent [- j], at least four fractional bits, and a mantissa
    within one unit of the exact quotient. *)
Lemma SFdiv_5 (s : bool) (n : Z) :
  0 < n <= 2 ^ 50 ->
  exists (m : positive) (j : Z),
    SFdiv prec emax (normal s n) (ofZ 5) = S754_finite s m (- j) /\
    4 <= j /\
    -5 <= 5 * Zpos m - 2 ^ j * n <= 5.
Proof.
  intros Hn. destruct (normal_mantissa n ltac:(lia)) as [Hl HM].
  assert (Hl50 : Z.log2 n <= 50).
  { destruct (Z.le_gt_cases (Z.log2 n) 50) as [A | A]; [exact A | ].
    pose proof (Z.log2_spec n ltac:(lia)).
    assert (2 ^ 51 <= 2 ^ Z.log2 n) by (apply Z.pow_le_mono_r; lia). lia. }
  rewrite ofZ_5. unfold normal.
  set (l := Z.log2 n) in *.
  set (M := Z.to_pos (n * 2 ^ (52 - l))).
  assert (EM : Zpos M = n * 2 ^ (52 - l)) by (unfold M; rewrite Z2Pos.id; lia).
  rewrite <- EM in HM.
  unfold SFdiv, SFdiv_core_binary.
  rewrite (Zdigits2_bounds M 53) by exact HM.
  rewrite (Zdigits2_bounds 5629499534213120 53)
    by (split; [apply Z.leb_le | apply Z.ltb_lt]; reflexivity).
  unfold fexp, emin.
  replace (Z.min (Z.max (53 + (l - 52) - (53 + -50) - prec) (3 - emax - prec))
                 (l - 52 - -50))
    with (l - 55) by (unfold prec, emax; lia).
  replace (l - 52 - -50 - (l - 55)) with 53 by lia.
  change (IntDef.Z.shiftl (Zpos M) 53) with (Z.shiftl (Zpos M) 53).
  rewrite Z.shiftl_mul_pow2 by lia.
  change (IntDef.Z.div_eucl (Zpos M * 2 ^ 53) 5629499534213120)
    with (Z.div_eucl (Zpos M * 2 ^ 53) 5629499534213120).
  pose proof (Z_div_mod (Zpos M * 2 ^ 53) 5629499534213120 ltac:(lia)) as DM.
  destruct (Z.div_eucl (Zpos M * 2 ^ 53) 5629499534213120) as [q r].
  destruct DM as [DM1 DM2]. change (2 ^ 53) with 9007199254740992 in DM1.
  change (2 ^ 52) with 4503599627370496 in HM.
  change (2 ^ 53) with 9007199254740992 in HM.
  rewrite xorb_false_r.
  generalize (new_location 5629499534213120 r). intros loc.
  assert (Q8 : 5 * q <= 8 * Zpos M < 5 * q + 5) by lia.
  assert (N8 : 8 * Zpos M = 2 ^ (55 - l) * n).
  { rewrite EM. replace (55 - l) with (3 + (52 - l)) by lia.
    rewrite Z.pow_add_r by lia. change (2 ^ 3) with 8. ring. }
  assert (N4 : 4 * Zpos M = 2 ^ (54 - l) * n).
  { rewrite EM. replace (54 - l) with (2 + (52 - l)) by lia.
    rewrite Z.pow_add_r by lia. change (2 ^ 2) with 4. ring. }
  destruct q as [|q|q]; try lia.
  unfold binary_round_aux.
  destruct (Z.lt_ge_cases (Zpos q) 9007199254740992) as [A | B].
  - rewrite shr_fexp_53 by pow2.
    rewrite shr_m_of_loc, loc_of_shr_record_of_loc.
    destruct (round_nearest_even_cases (Zpos q) loc) as [R | R]; rewrite R.
    + rewrite round_tail by pow2.
      exists q, (55 - l). split; [f_equal; lia | ]. split; [lia | ].
      rewrite <- N8. lia.
    + change (Zpos q + 1) with (Zpos (q + 1)).
      rewrite round_tail by pow2.
      exists (q + 1)%positive, (55 - l). split; [f_equal; lia | ]. split; [lia | ].
      rewrite <- N8. lia.
  - unfold shr_fexp at 1.
    rewrite (Zdigits2_bounds q 54)
      by (change (2 ^ (54 - 1)) with 9007199254740992;
          change (2 ^ 54) with 18014398509481984; lia).
    unfold fexp, emin.
    replace (Z.max (54 + (l - 55) - prec) (3 - emax - prec) - (l - 55)) with 1
      by (unfold prec, emax; lia).
    cbn [shr iter_pos].
    assert (RS : exists b c, shr_record_of_loc (Zpos q) loc
                             = Build_shr_record (Zpos q) b c)
      by (destruct loc as [ | [ | | ]]; cbn; eauto).
    destruct RS as [b [c ->]]. rewrite shr_1_m.
    generalize (loc_of_shr_record (shr_1 (Build_shr_record (Zpos q) b c))).
    intros loc'.
    destruct (Zpos q / 2) as [|h|h] eqn:Eh; try euclid.
    assert (Hh : 2 * Zpos h <= Zpos q <= 2 * Zpos h + 1) by euclid.
    replace (l - 55 + 1) with (l - 54) by lia.
    destruct (round_nearest_even_cases (Zpos h) loc') as [R | R]; rewrite R.
    + rewrite round_tail by pow2.
      exists h, (54 - l). split; [f_equal; lia | ]. split; [lia | ].
      rewrite <- N4. lia.
    + change (Zpos h + 1) with (Zpos (h + 1)).
      rewrite round_tail by pow2.
      exists (h + 1)%positive, (54 - l). split; [f_equal; lia | ]. split; [lia | ].
      rewrite <- N4. lia.
Qed.

(** A quotient by 5 known within a sixteenth rounds like the exact one: the
    exact quotient is never closer than a tenth to a half. *)
Lemma round_quotient_arith (K x m : Z) :
  16 <= K -> -5 <= 5 * m - K * x <= 5 ->
  (2 * m + K) / (2 * K) = Math_round_div x 5.
Proof.
  intros HK B. unfold Math_round_div. change (2 * 5) with 10.
  set (a := (2 * x + 5) / 10).
  assert (A : 5 * a - 2 <= x <= 5 * a + 2) by (unfold a; euclid).
  symmetry. apply (Z.div_unique _ _ _ (2 * m + K - 2 * K * a)); [left | ring].
  assert (0 <= K * (x - (5 * a - 2))) by nia.
  assert (0 <= K * (5 * a + 2 - x)) by nia.
  nia.
Qed.

(** [Math_round] on a double with a negative exponent. *)
Lemma Math_round_finite (s : bool) (m : positive) (j : Z) :
  0 < j ->
  Math_round (S754_finite s m (- j))
  = binary_normalize prec emax
      ((2 * cond_Zopp s (Zpos m) + 2 ^ j) / (2 * 2 ^ j)) 0 s.
Proof. intros H. destruct j; try lia. reflexivity. Qed.

(** [Math.round(angle / 5)] is the integer [Math_round_div angle 5], a zero
    with the sign of the angle. *)
Lemma Math_round_quotient (s : bool) (n : Z) :
  0 < n <= 2 ^ 50 ->
  Math_round (SFdiv prec emax (normal s n) (ofZ 5))
  = binary_normalize prec emax (Math_round_div (cond_Zopp s n) 5) 0 s.
Proof.
  intros Hn. destruct (SFdiv_5 s n Hn) as [m [j [E [Hj B]]]].
  rewrite E, Math_round_finite by lia. f_equal.
  assert (16 <= 2 ^ j).
  { change 16 with (2 ^ 4). apply Z.pow_le_mono_r; lia. }
  apply round_quotient_arith; [assumption | ].
  destruct s; cbn [cond_Zopp]; lia.
Qed.

Lemma normal_exponent (n : Z) :
  0 < n < 2 ^ 53 ->
  Zpos (Z.to_pos (n * 2 ^ (52 - Z.log2 n))) = n * 2 ^ (52 - Z.log2 n).
Proof.
  intros H. destruct (normal_mantissa n H) as [_ HM].
  rewrite Z2Pos.id; lia.
Qed.

(** Five times an integer, below [2 ^ 53], is computed exactly. *)
Lemma SFmul_5 (s : bool) (n : Z) :
  0 < n -> 5 * n < 2 ^ 53 ->
  SFmul prec emax (normal s n) (ofZ 5) = normal s (5 * n).
Proof.
  intros Hn H5. rewrite ofZ_5. unfold normal at 1. cbn [SFmul].
  rewrite xorb_false_r, Pos2Z.inj_mul, normal_exponent by lia.
  destruct (normal_mantissa n ltac:(lia)) as [Hl _].
  destruct (normal_mantissa (5 * n) ltac:(lia)) as [Hl5 HM5].
  assert (L : Z.log2 n <= Z.log2 (5 * n)) by (apply Z.log2_le_mono; lia).
  unfold normal. rewrite <- (normal_exponent (5 * n)) in HM5 by lia.
  set (l := Z.log2 n) in *. set (l5 := Z.log2 (5 * n)) in *.
  replace (l - 52 + -50) with (l5 - 52 - (l5 - l + 50)) by lia.
  replace (n * 2 ^ (52 - l) * 5629499534213120)
    with (Zpos (Z.to_pos (5 * n * 2 ^ (52 - l5))) * 2 ^ (l5 - l + 50)).
  - apply binary_round_aux_exact; lia.
  - rewrite normal_exponent by lia. fold l5.
    change 5629499534213120 with (5 * 2 ^ 50).
    replace (52 - l) with (52 - l5 + (l5 - l)) by lia.
    rewrite !Z.pow_add_r by lia. ring.
Qed.

(** [normal s n] holds the integer [n] with sign [s]. *)
Lemma toZ_normal (s : bool) (n : Z) :
  0 < n < 2 ^ 53 -> toZ (normal s n) = Some (cond_Zopp s n).
Proof.
  intros Hn. destruct (normal_mantissa n Hn) as [Hl _].
  unfold normal, toZ. rewrite normal_exponent by lia.
  set (l := Z.log2 n) in *.
  destruct (l - 52) as [|p|p] eqn:E; try lia.
  - replace (52 - l) with 0 by lia. change (2 ^ 0) with 1.
    rewrite Z.mul_1_r. f_equal. destruct s; cbn [cond_Zopp]; lia.
  - replace (52 - l) with (Zpos p) by lia.
    assert (0 < 2 ^ Zpos p) by (apply Z.pow_pos_nonneg; lia).
    rewrite Z.mod_mul by lia. cbn [Z.eqb].
    rewrite Z.div_mul by lia. reflexivity.
Qed.

(** The remainder of two positive integers below [2 ^ 53], the dividend
    taken with sign [s]. *)
Lemma rem_normal (s sd : bool) (n d : Z) :
  0 < n < 2 ^ 53 -> 0 < d < 2 ^ 53 ->
  rem (normal s n) (normal sd d)
  = if Z.rem n d =? 0 then S754_zero s else normal s (Z.rem n d).
Proof.
  intros Hn Hd. destruct (normal_mantissa n Hn) as [Hl _].
  destruct (normal_mantissa d Hd) as [Hld _].
  unfold normal at 1 2. cbn [rem]. rewrite !normal_exponent by lia.
  set (l := Z.log2 n) in *. set (ld := Z.log2 d) in *.
  set (e := Z.min (l - 52) (ld - 52)).
  assert (He : e <= 0) by lia.
  replace (n * 2 ^ (52 - l) * 2 ^ (l - 52 - e)) with (n * 2 ^ (- e))
    by (rewrite <- Z.mul_assoc, <- Z.pow_add_r by lia; do 2 f_equal; lia).
  replace (d * 2 ^ (52 - ld) * 2 ^ (ld - 52 - e)) with (d * 2 ^ (- e))
    by (rewrite <- Z.mul_assoc, <- Z.pow_add_r by lia; do 2 f_equal; lia).
  assert (P : 0 < 2 ^ (- e)) by (apply Z.pow_pos_nonneg; lia).
  rewrite Z.mul_rem_distr_r by lia.
  assert (R : 0 <= Z.rem n d < d) by (apply Z.rem_bound_pos; lia).
  destruct (Z.eqb_spec (Z.rem n d) 0) as [Z0 | NZ].
  - rewrite Z0. destruct s; reflexivity.
  - replace (cond_Zopp s (Z.rem n d * 2 ^ (- e)))
      with (cond_Zopp s (Z.rem n d) * 2 ^ (- e))
      by (destruct s; cbn [cond_Zopp]; ring).
    replace e with (- - e) at 2 by lia.
    rewrite binary_normalize_scaled by (destruct s; cbn [cond_Zopp]; lia).
    destruct s; cbn [cond_Zopp].
    + destruct (Z.ltb_spec (- Z.rem n d) 0); try lia.
      rewrite Z.abs_neq by lia. f_equal. lia.
    + destruct (Z.ltb_spec (Z.rem n d) 0); try lia.
      rewrite Z.abs_eq by lia. reflexivity.
Qed.

(** [shl_align] to a lower exponent multiplies the mantissa. *)
Lemma shl_align_fst (m : positive) (e e' : Z) :
  e' <= e -> Zpos (fst (shl_align m e e')) = Zpos m * 2 ^ (e - e').
Proof.
  intros H. unfold shl_align. destruct (e' - e) as [|p|p] eqn:E; try lia.
  - replace (e - e') with 0 by lia. cbn [fst]. change (2 ^ 0) with 1. lia.
  - cbn [fst]. rewrite iter_xO. do 2 f_equal. lia.
Qed.

(** A negative and a positive integer below [2 ^ 53] add exactly. *)
Lemma SFadd_normal (a b : Z) :
  0 < a < 2 ^ 53 -> 0 < b < 2 ^ 53 -> a <> b ->
  SFadd prec emax (normal true a) (normal false b) = ofZ (b - a).
Proof.
  intros Ha Hb Hab. destruct (normal_mantissa a Ha) as [Hla _].
  destruct (normal_mantissa b Hb) as [Hlb _].
  unfold normal. cbn [SFadd cond_Zopp].
  rewrite !shl_align_fst, !normal_exponent by lia.
  set (la := Z.log2 a) in *. set (lb := Z.log2 b) in *.
  set (e := Z.min (la - 52) (lb - 52)).
  assert (He : e <= 0) by lia.
  replace (- (a * 2 ^ (52 - la) * 2 ^ (la - 52 - e))
           + b * 2 ^ (52 - lb) * 2 ^ (lb - 52 - e))
    with ((b - a) * 2 ^ (- e)).
  - replace e with (- - e) at 2 by lia.
    rewrite binary_normalize_scaled by lia.
    symmetry. apply ofZ_normal. lia.
  - rewrite <- !Z.mul_assoc, <- !Z.pow_add_r by lia.
    replace (52 - la + (la - 52 - e)) with (- e) by lia.
    replace (52 - lb + (lb - 52 - e)) with (- e) by lia. ring.
Qed.

(** Size and sign of [Math.round(x / 5)]. *)
Lemma roundTo5Degrees_bound (x : Z) :
  Z.abs x <= 2 ^ 50 ->
  Z.abs (Math_round_div x 5) < 2 ^ 48 /\
  (0 < x -> 0 <= Math_round_div x 5) /\
  (x < 0 -> Math_round_div x 5 <= 0).
Proof.
  change (2 ^ 50) with 1125899906842624. change (2 ^ 48) with 281474976710656.
  intros H. unfold Math_round_div. euclid.
Qed.

(** What the script's [roundTo5Degrees] returns on an integer angle up to
    [2 ^ 50]: the double of the integer result, a zero with the sign of the
    angle. *)
Lemma roundTo5Degrees_double (x : Z) :
  Z.abs x <= 2 ^ 50 ->
  Binary64.roundTo5Degrees (ofZ x)
  = if AngleMath.roundTo5Degrees x =? 0 then S754_zero (x <? 0)
    else ofZ (AngleMath.roundTo5Degrees x).
Proof.
  intros Hx. destruct (Z.eq_dec x 0) as [-> | Nx]; [reflexivity | ].
  destruct (roundTo5Degrees_bound x Hx) as [HR [Hp Hn]].
  assert (P48 : 2 ^ 48 = 281474976710656) by reflexivity.
  assert (P53 : 2 ^ 53 = 9007199254740992) by reflexivity.
  assert (P50 : 2 ^ 50 = 1125899906842624) by reflexivity.
  unfold Binary64.roundTo5Degrees, AngleMath.roundTo5Degrees.
  rewrite (ofZ_normal x) by lia.
  rewrite Math_round_quotient by lia.
  replace (cond_Zopp (x <? 0) (Z.abs x)) with x
    by (destruct (Z.ltb_spec x 0); cbn [cond_Zopp]; lia).
  set (R := Math_round_div x 5) in *.
  destruct (Z.eqb_spec (R * 5) 0) as [Z0 | NZ].
  - replace R with 0 by lia. rewrite ofZ_5. destruct (x <? 0); reflexivity.
  - replace R with (R * 2 ^ 0) at 1 by (change (2 ^ 0) with 1; lia).
    change 0 with (- 0) at 1.
    rewrite binary_normalize_scaled by lia.
    rewrite SFmul_5 by lia.
    rewrite ofZ_normal by lia. f_equal.
    + destruct (Z.ltb_spec R 0), (Z.ltb_spec (R * 5) 0); lia || reflexivity.
    + lia.
Qed.

(** The script's [roundTo5Degrees] holds the integer result. *)
Lemma roundTo5Degrees_toZ (x : Z) :
  Z.abs x <= 2 ^ 50 ->
  toZ (Binary64.roundTo5Degrees (ofZ x)) = Some (AngleMath.roundTo5Degrees x).
Proof.
  intros Hx. rewrite roundTo5Degrees_double by exact Hx.
  destruct (roundTo5Degrees_bound x Hx) as [HR _].
  change (2 ^ 48) with 281474976710656 in HR.
  assert (P53 : 2 ^ 53 = 9007199254740992) by reflexivity.
  unfold AngleMath.roundTo5Degrees in *.
  set (R := Math_round_div x 5) in *.
  destruct (Z.eqb_spec (R * 5) 0) as [-> | NZ]; [reflexivity | ].
  rewrite ofZ_normal, toZ_normal by lia. f_equal.
  destruct (Z.ltb_spec (R * 5) 0); cbn [cond_Zopp]; lia.
Qed.

(** Comparing a nonzero double with 0. *)
Lemma SFltb_normal_0 (s : bool) (n : Z) : SFltb (normal s n) (ofZ 0) = s.
Proof. destruct s; reflexivity. Qed.

Lemma SFeqb_normal_0 (s : bool) (n : Z) : SFeqb (normal s n) (ofZ 0) = false.
Proof. destruct s; reflexivity. Qed.

(** The script's [getDisplayAxis] on an integer angle up to [2 ^ 50] is the
    double of the integer result. *)
Lemma getDisplayAxis_double (x : Z) :
  Z.abs x <= 2 ^ 50 ->
  Binary64.getDisplayAxis (ofZ x) = ofZ (AngleMath.getDisplayAxis x).
Proof.
  intros Hx. unfold Binary64.getDisplayAxis, AngleMath.getDisplayAxis.
  rewrite roundTo5Degrees_double by exact Hx.
  destruct (roundTo5Degrees_bound x Hx) as [HR _].
  change (2 ^ 48) with 281474976710656 in HR.
  assert (P53 : 2 ^ 53 = 9007199254740992) by reflexivity.
  unfold AngleMath.roundTo5Degrees in *.
  set (R := Math_round_div x 5) in *. set (T := R * 5) in *.
  destruct (Z.eqb_spec T 0) as [-> | NZ].
  { destruct (x <? 0); reflexivity. }
  rewrite (ofZ_normal T) by lia.
  change (ofZ 180) with (normal false 180).
  rewrite rem_normal by lia.
  assert (B : 0 <= Z.rem (Z.abs T) 180 < 180) by (apply Z.rem_bound_pos; lia).
  assert (E : Z.rem T 180 = cond_Zopp (T <? 0) (Z.rem (Z.abs T) 180)).
  { destruct (Z.ltb_spec T 0); cbn [cond_Zopp].
    - rewrite Z.abs_neq, Z.rem_opp_l' by lia. lia.
    - rewrite Z.abs_eq by lia. reflexivity. }
  rewrite E. set (r := Z.rem (Z.abs T) 180) in *.
  destruct (Z.eqb_spec r 0) as [-> | Nr].
  { destruct (T <? 0); reflexivity. }
  destruct (T <? 0); cbn [cond_Zopp].
  - rewrite SFltb_normal_0, SFadd_normal by lia.
    destruct (Z.ltb_spec (- r) 0); try lia.
    destruct (Z.eqb_spec (- r + 180) 0); try lia.
    rewrite (ofZ_normal (180 - r)), SFeqb_normal_0 by lia.
    rewrite ofZ_normal by lia. f_equal; f_equal; lia.
  - rewrite SFltb_normal_0, SFeqb_normal_0.
    destruct (Z.ltb_spec r 0); try lia.
    destruct (Z.eqb_spec r 0); try lia.
    rewrite ofZ_normal by lia.
    destruct (Z.ltb_spec r 0); try lia. rewrite Z.abs_eq by lia. reflexivity.
Qed.

Lemma toZ_ofZ (x : Z) : Z.abs x < 2 ^ 53 -> toZ (ofZ x) = Some x.
Proof.
  intros Hx. destruct (Z.eq_dec x 0) as [-> | Nx]; [reflexivity | ].
  rewrite ofZ_normal, toZ_normal by lia. f_equal.
  destruct (Z.ltb_spec x 0); cbn [cond_Zopp]; lia.
Qed.

End Doubles.

(** ** AngleMath *)

(** C4: on every integer in [-1000,1000] the display axis is a multiple of 5
    between 5 and 180 and is unchanged by adding 180 to the angle; 0, 180
    and 360 display as 180, and so does every angle that folds to 0. *)
Theorem C4_display_axis_range (a : Z) :
  -1000 <= a <= 1000 ->
  (5 <= getDisplayAxis a <= 180 /\
   getDisplayAxis a mod 5 = 0 /\
   getDisplayAxis a = getDisplayAxis (a + 180)) /\
  (getDisplayAxis 0 = 180 /\ getDisplayAxis 180 = 180 /\ getDisplayAxis 360 = 180) /\
  (Z.rem (roundTo5Degrees a) 180 = 0 -> getDisplayAxis a = 180) /\
  getDisplayAxis a <> 0.
Proof.
  intros _. destruct (getDisplayAxis_range a) as [Hr [k Hk]].
  repeat split; try reflexivity; try lia.
  - rewrite Hk. euclid.
  - symmetry. apply getDisplayAxis_plus_180.
  - intros H0. unfold getDisplayAxis. rewrite H0. reflexivity.
Qed.

Lemma C4_display_axis_range_witness :
  -1000 <= -183 <= 1000 /\ getDisplayAxis (-183) = getDisplayAxis (-183 + 180).
Proof.
  split; [lia | ].
  apply (C4_display_axis_range (-183)). lia.
Defined.

(** C8 fails as stated: the integer [2 ^ 53] is a double, the script's
    display axis of it is 36, which is no multiple of 5, and the display
    axis of 36 is 35. *)
Lemma C8_refolding_changes_2p53 :
  let x := Binary64.ofZ (2 ^ 53) in
  Binary64.toZ x = Some (2 ^ 53) /\
  Binary64.getDisplayAxis x = Binary64.ofZ 36 /\
  Binary64.getDisplayAxis (Binary64.getDisplayAxis x) = Binary64.ofZ 35 /\
  Binary64.getDisplayAxis (Binary64.getDisplayAxis x)
  <> Binary64.getDisplayAxis x.
Proof.
  cbv zeta. repeat split; try (vm_compute; reflexivity).
  vm_compute. discriminate.
Qed.

(** C8, for every integer angle of magnitude up to [2 ^ 50]: displaying a
    displayed axis changes nothing, on doubles as on integers. *)
Theorem C8_display_axis_idempotent (x : Z) :
  Z.abs x <= 2 ^ 50 ->
  Binary64.getDisplayAxis (Binary64.getDisplayAxis (Binary64.ofZ x))
  = Binary64.getDisplayAxis (Binary64.ofZ x) /\
  getDisplayAxis (getDisplayAxis x) = getDisplayAxis x.
Proof.
  intros Hx. destruct (getDisplayAxis_range x) as [Hr Hk].
  assert (I : getDisplayAxis (getDisplayAxis x) = getDisplayAxis x)
    by (apply getDisplayAxis_fixed; [lia | exact Hk]).
  split; [ | exact I].
  assert (H180 : 180 <= 2 ^ 50) by (apply Z.leb_le; reflexivity).
  rewrite (getDisplayAxis_double x) by exact Hx.
  rewrite getDisplayAxis_double by lia.
  rewrite I. reflexivity.
Qed.

Lemma C8_display_axis_idempotent_witness :
  Z.abs (-183) <= 2 ^ 50 /\
  Binary64.getDisplayAxis (Binary64.getDisplayAxis (Binary64.ofZ (-183)))
  = Binary64.getDisplayAxis (Binary64.ofZ (-183)).
Proof.
  assert (H : Z.abs (-183) <= 2 ^ 50) by (apply Z.leb_le; reflexivity).
  split; [exact H | exact (proj1 (C8_display_axis_idempotent (-183) H))].
Defined.

(** ** JCC geometry *)

Lemma lines_perpendicular (st : State) :
  getDisplayAxis (getJCCRedLineAxis st - getJCCGreenLineAxis st) = 90.
Proof.
  unfold getJCCRedLineAxis, getJCCGreenLineAxis.
  set (h := jccHandleAngle st).
  assert (Hd : forall x y, 5 <= x <= 180 -> 5 <= y <= 180 ->
                 (x - y - 90) mod 180 = 0 -> getDisplayAxis (x - y) = 90).
  { intros x y Hx Hy Hm.
    assert (Hxy : x - y = 90 \/ x - y = -90) by euclid.
    destruct Hxy as [-> | ->]; reflexivity. }
  pose proof (getDisplayAxis_range (h + 45)) as [R1 _].
  pose proof (getDisplayAxis_range (h + -45)) as [R2 _].
  pose proof (getDisplayAxis_mod (h + 45)) as M1.
  pose proof (getDisplayAxis_mod (h + -45)) as M2.
  replace (h + 45) with (h + 5 * 9) in M1 at 2 by lia.
  replace (h + -45) with (h + 5 * -9) in M2 at 2 by lia.
  rewrite roundTo5Degrees_shift in M1, M2.
  destruct (jccFlipped st); cbn [negb]; apply Hd; try assumption; euclid.
Qed.

Lemma toggleFlip_swaps (st : State) :
  getJCCRedLineAxis (toggleFlip st) = getJCCGreenLineAxis st /\
  getJCCGreenLineAxis (toggleFlip st) = getJCCRedLineAxis st.
Proof.
  unfold getJCCRedLineAxis, getJCCGreenLineAxis, toggleFlip.
  cbn [jccFlipped jccHandleAngle set_jccFlipped].
  destruct (jccFlipped st); split; reflexivity.
Qed.

(** C5: for a handle angle among 0, 5, ..., 180 and either flip state, the
    display axis of red minus green is congruent to 90 modulo 180 (it is 90),
    and toggling the flip exchanges the red and the green axis. *)
Theorem C5_red_green_perpendicular (st : State) :
  In (jccHandleAngle st) handleAngles ->
  getDisplayAxis (getJCCRedLineAxis st - getJCCGreenLineAxis st) mod 180 = 90 mod 180 /\
  getJCCRedLineAxis (toggleFlip st) = getJCCGreenLineAxis st /\
  getJCCGreenLineAxis (toggleFlip st) = getJCCRedLineAxis st.
Proof.
  intros _. split.
  - rewrite lines_perpendicular. reflexivity.
  - apply toggleFlip_swaps.
Qed.

Lemma C5_red_green_perpendicular_witness :
  In (jccHandleAngle initial) handleAngles /\
  getJCCRedLineAxis (toggleFlip initial) = getJCCGreenLineAxis initial.
Proof.
  split.
  - vm_compute. do 18 right. left. reflexivity.
  - apply (C5_red_green_perpendicular initial).
    vm_compute. do 18 right. left. reflexivity.
Defined.

(** C9: toggling the flip twice gives back the red and the green axis of a
    fixed handle angle. *)
Theorem C9_flip_twice_restores (st : State) :
  jccHandleAngle (toggleFlip (toggleFlip st)) = jccHandleAngle st /\
  jccFlipped (toggleFlip (toggleFlip st)) = jccFlipped st /\
  getJCCRedLineAxis (toggleFlip (toggleFlip st)) = getJCCRedLineAxis st /\
  getJCCGreenLineAxis (toggleFlip (toggleFlip st)) = getJCCGreenLineAxis st.
Proof.
  destruct (toggleFlip_swaps st) as [R G].
  destruct (toggleFlip_swaps (toggleFlip st)) as [R' G'].
  repeat split.
  - cbn. apply negb_involutive.
  - rewrite R', G. reflexivity.
  - rewrite G', R. reflexivity.
Qed.

(** ** Slider release *)

Lemma check_tutorStep (st : State) :
  let r := checkSliderValueForNextStep st in
  (tutorStep r = tutorStep st \/ tutorStep r = tutorStep st + 1) /\
  (tutorStep r = tutorStep st + 1 <->
     (tutorStep st = 1 /\ jccHandleAngle st = 180) \/
     (tutorStep st = 8 /\ currentAxis st = 5) \/
     (tutorStep st = 9 /\ jccHandleAngle st = 5) \/
     (tutorStep st = 17 /\ jccHandleAngle st = getDisplayAxis (currentAxis st + 45))).
Proof.
  unfold checkSliderValueForNextStep.
  destruct (tutorStep st) as [|p|p] eqn:E; [ | split_pos p 5%nat | ];
    cbv zeta;
    try match goal with
        | |- context [if ?x =? ?y then _ else _] => destruct (Z.eqb_spec x y)
        end;
    rewrite ?nextStep_tutorStep, ?E; lia.
Qed.

Lemma commitDrag_tutorStep (s : Slider) (st : State) :
  tutorStep (commitDrag s st) = tutorStep st.
Proof. destruct s; reflexivity. Qed.

Lemma commitDrag_values (s : Slider) (st : State) :
  sliderValue s (commitDrag s st) = getDisplayAxis (sliderValue s st) /\
  sliderValue (otherSlider s) (commitDrag s st) = sliderValue (otherSlider s) st /\
  currentSphere (commitDrag s st) = currentSphere st /\
  currentCylinder (commitDrag s st) = currentCylinder st /\
  jccFlipped (commitDrag s st) = jccFlipped st.
Proof. destruct s; repeat split; reflexivity. Qed.

Lemma sliderValue_same (s : Slider) (st st' : State) :
  sameValues st st' -> sliderValue s st' = sliderValue s st.
Proof. intros (_ & _ & Ha & Hh). destruct s; assumption. Qed.

Lemma release_value (s : Slider) (st : State) :
  sliderValue s (upHandler s st) = getDisplayAxis (sliderValue s st).
Proof.
  unfold upHandler.
  rewrite (sliderValue_same _ _ _ (check_values (commitDrag s st))).
  apply commitDrag_values.
Qed.

(** C3: a release records the snapped value, and the step counter goes up
    by one exactly when the step is 1 and the handle is 180, or 8 and the
    lens axis is 5, or 9 and the handle is 5, or 17 and the handle is the
    display axis of lens axis + 45; otherwise it stays. *)
Theorem C3_release_advances (s : Slider) (st : State) :
  let r := upHandler s st in
  sliderValue s r = getDisplayAxis (sliderValue s st) /\
  sliderValue (otherSlider s) r = sliderValue (otherSlider s) st /\
  (tutorStep r = tutorStep st \/ tutorStep r = tutorStep st + 1) /\
  (tutorStep r = tutorStep st + 1 <->
     (tutorStep st = 1 /\ jccHandleAngle r = 180) \/
     (tutorStep st = 8 /\ currentAxis r = 5) \/
     (tutorStep st = 9 /\ jccHandleAngle r = 5) \/
     (tutorStep st = 17 /\ jccHandleAngle r = getDisplayAxis (currentAxis r + 45))).
Proof.
  unfold upHandler. set (c := commitDrag s st). cbv zeta.
  pose proof (check_values c) as V.
  pose proof (check_tutorStep c) as T. cbv zeta in T.
  pose proof (commitDrag_values s st) as (C1 & C2 & _).
  pose proof (commitDrag_tutorStep s st) as S. fold c in C1, C2, S.
  rewrite S in T.
  rewrite !(sliderValue_same _ _ _ V), C1, C2.
  destruct V as (_ & _ & -> & ->).
  repeat split; try reflexivity; apply T.
Qed.

(** ** Buttons *)

Lemma increasePowerClick_tutorStep (st : State) :
  tutorStep (increasePowerClick st) =
    if (tutorStep st =? 24) || (tutorStep st =? 31) then tutorStep st + 1 else tutorStep st.
Proof.
  unfold increasePowerClick.
  set (st1 := updateLensDisplay (set_currentCylinder (currentCylinder st - 25) st)).
  change (tutorStep st1) with (tutorStep st).
  destruct ((tutorStep st =? 24) || (tutorStep st =? 31)); [ | reflexivity].
  apply (nextStep_tutorStep st1).
Qed.

(** C6: the increase-power listener takes 0.25 off the cylinder on every
    click and advances exactly at steps 24 and 31; the decrease-power
    listener adds 0.25 and never advances. *)
Theorem C6_power_buttons (st : State) :
  currentCylinder (increasePowerClick st) = currentCylinder st - 25 /\
  (tutorStep (increasePowerClick st) = tutorStep st + 1 <->
     tutorStep st = 24 \/ tutorStep st = 31) /\
  (tutorStep (increasePowerClick st) = tutorStep st \/
   tutorStep (increasePowerClick st) = tutorStep st + 1) /\
  currentCylinder (decreasePowerClick st) = currentCylinder st + 25 /\
  tutorStep (decreasePowerClick st) = tutorStep st.
Proof.
  unfold increasePowerClick, decreasePowerClick.
  set (st1 := updateLensDisplay (set_currentCylinder (currentCylinder st - 25) st)).
  change (tutorStep st1) with (tutorStep st).
  pose proof (nextStep_values st1) as (_ & Hc & _).
  pose proof (nextStep_tutorStep st1) as Ht.
  change (tutorStep st1) with (tutorStep st) in Ht.
  change (currentCylinder st1) with (currentCylinder st - 25) in Hc.
  destruct (Z.eqb_spec (tutorStep st) 24), (Z.eqb_spec (tutorStep st) 31);
    cbn [orb]; rewrite ?Hc, ?Ht; cbn; repeat split; lia.
Qed.

(** C7: confirm-power advances exactly at step 38 with cylinder -2.50 and
    otherwise returns the state as it was; confirm-axis likewise at step 16
    with lens axis 5; two increase-power clicks take the initial -2.00 to
    -2.50. *)
Theorem C7_confirm_buttons (st : State) :
  (tutorStep (confirmPowerClick st) = tutorStep st + 1 <->
     tutorStep st = 38 /\ currentCylinder st = -250) /\
  (~ (tutorStep st = 38 /\ currentCylinder st = -250) -> confirmPowerClick st = st) /\
  (tutorStep (confirmAxisClick st) = tutorStep st + 1 <->
     tutorStep st = 16 /\ currentAxis st = 5) /\
  (~ (tutorStep st = 16 /\ currentAxis st = 5) -> confirmAxisClick st = st) /\
  currentCylinder initial = -200 /\
  currentCylinder (increasePowerClick initial) = -225 /\
  currentCylinder (increasePowerClick (increasePowerClick initial)) = -250.
Proof.
  unfold confirmPowerClick, confirmAxisClick.
  pose proof (nextStep_tutorStep st) as Ht.
  destruct (Z.eqb_spec (tutorStep st) 38), (Z.eqb_spec (currentCylinder st) (-250)),
    (Z.eqb_spec (tutorStep st) 16), (Z.eqb_spec (currentAxis st) 5);
    cbn [andb]; rewrite ?Ht;
    repeat split; try reflexivity; try lia; intros; lia.
Qed.

(** ** Drag previews *)

Lemma moveHandler_frame (s : Slider) (e : Pointer) (st : State) :
  let st' := moveHandler s e st in
  tutorStep st' = tutorStep st /\
  currentSphere st' = currentSphere st /\
  currentCylinder st' = currentCylinder st /\
  jccFlipped st' = jccFlipped st /\
  disabled st' = disabled st /\
  isDraggingJCC st' = isDraggingJCC st /\
  isDraggingLens st' = isDraggingLens st /\
  sliderValue (otherSlider s) st' = sliderValue (otherSlider s) st.
Proof.
  unfold moveHandler.
  destruct (negb (isDraggingJCC st) && negb (isDraggingLens st)), s;
    repeat split; reflexivity.
Qed.

Lemma moveHandler_value (s : Slider) (e : Pointer) (st : State) :
  sliderValue s (moveHandler s e st) =
    if isDraggingJCC st || isDraggingLens st then e s else sliderValue s st.
Proof.
  unfold moveHandler.
  destruct (isDraggingJCC st), (isDraggingLens st), s; reflexivity.
Qed.

Lemma moveHandler_text (s : Slider) (e : Pointer) (st : State) :
  sliderText s (moveHandler s e st) =
    if isDraggingJCC st || isDraggingLens st
    then (string_of_Z (getDisplayAxis (e s)) ++ degree)%string
    else sliderText s st.
Proof.
  unfold moveHandler.
  destruct (isDraggingJCC st), (isDraggingLens st), s; reflexivity.
Qed.

Lemma last_cons {A} (a d : A) (l : list A) : last (a :: l) d = last l a.
Proof.
  revert a d. induction l as [|b l IH]; intros a d; [reflexivity | ].
  change (last (a :: b :: l) d) with (last (b :: l) d).
  rewrite (IH b d), (IH b a). reflexivity.
Qed.

(** C1, as the script has it: a move event of a running drag stores the
    pointer's angle, not yet snapped, in the variable of the dragged slider
    and shows its snapped value; over any sequence of move events the step
    counter, sphere, cylinder, flip flag, control availability and the other
    slider's variable stay as they were, so nothing advances; the release
    snaps the stored value and runs [checkSliderValueForNextStep]. *)
Theorem C1_preview_writes_own_slider (s : Slider) (es : list Pointer) (st : State) :
  let st' := moves s es st in
  let dragging := isDraggingJCC st || isDraggingLens st in
  (tutorStep st' = tutorStep st /\
   currentSphere st' = currentSphere st /\
   currentCylinder st' = currentCylinder st /\
   jccFlipped st' = jccFlipped st /\
   disabled st' = disabled st /\
   sliderValue (otherSlider s) st' = sliderValue (otherSlider s) st) /\
  sliderValue s st' =
    (if dragging then last (map (fun e => e s) es) (sliderValue s st)
     else sliderValue s st) /\
  sliderText s st' =
    (if dragging
     then last (map (fun e => string_of_Z (getDisplayAxis (e s)) ++ degree)%string es)
            (sliderText s st)
     else sliderText s st) /\
  sliderValue s (upHandler s st') = getDisplayAxis (sliderValue s st') /\
  upHandler s st' = checkSliderValueForNextStep (commitDrag s st').
Proof.
  cbv zeta. split; [ | split; [ | split; [ | split ]]].
  - revert st. induction es as [|e es IH]; intros st; [repeat split | ].
    cbn [moves fold_left]. specialize (IH (moveHandler s e st)). unfold moves in IH.
    pose proof (moveHandler_frame s e st) as F. cbv zeta in F.
    destruct IH as (I1 & I2 & I3 & I4 & I5 & I6).
    destruct F as (F1 & F2 & F3 & F4 & F5 & _ & _ & F6).
    repeat split; congruence.
  - revert st. induction es as [|e es IH]; intros st.
    + cbn. destruct (isDraggingJCC st || isDraggingLens st); reflexivity.
    + cbn [moves fold_left map]. specialize (IH (moveHandler s e st)).
      unfold moves in IH. rewrite IH, last_cons.
      pose proof (moveHandler_frame s e st) as F. cbv zeta in F.
      destruct F as (_ & _ & _ & _ & _ & -> & -> & _).
      rewrite moveHandler_value.
      destruct (isDraggingJCC st || isDraggingLens st); reflexivity.
  - revert st. induction es as [|e es IH]; intros st.
    + cbn. destruct (isDraggingJCC st || isDraggingLens st); reflexivity.
    + cbn [moves fold_left map]. specialize (IH (moveHandler s e st)).
      unfold moves in IH. rewrite IH, last_cons.
      pose proof (moveHandler_frame s e st) as F. cbv zeta in F.
      destruct F as (_ & _ & _ & _ & _ & -> & -> & _).
      rewrite moveHandler_text.
      destruct (isDraggingJCC st || isDraggingLens st); reflexivity.
  - apply release_value.
  - reflexivity.
Qed.

(** ** Invariants of a session *)

Lemma run_reachable (evs : list Event) (st : State) :
  reachable st -> reachable (run evs st).
Proof.
  revert st. induction evs as [|ev evs IH]; intros st H; [exact H | ].
  apply IH, reachable_handle, H.
Qed.

(** A property kept by [nextStep] and by the statements the listeners run
    around it is kept by every event, hence holds in every reachable state. *)
Section HandlerInvariant.

Variable P : State -> Prop.

Hypothesis P_nextStep : forall st, P st -> P (nextStep st).
Hypothesis P_startDrag : forall s e st, P st -> P (startDrag s e st).
Hypothesis P_moveHandler : forall s e st, P st -> P (moveHandler s e st).
Hypothesis P_commitDrag : forall s st, P st -> P (commitDrag s st).
Hypothesis P_flip : forall st, P st -> P (updateJCCDisplay (toggleFlip st)).
Hypothesis P_power :
  forall v st, P st -> P (updateLensDisplay (set_currentCylinder v st)).
Hypothesis P_start : forall st, P st -> P (setDisabled startTutorialButton true st).
Hypothesis P_ok : forall st, P st -> P (set_notificationOnclick false st).
Hypothesis P_timeout : forall st, P st -> P (timeoutFires st).

Lemma P_check (st : State) : P st -> P (checkSliderValueForNextStep st).
Proof.
  intros H. unfold checkSliderValueForNextStep.
  repeat match goal with
         | |- context [match ?z with Z0 => _ | Zpos _ => _ | Zneg _ => _ end] => destruct z
         | |- context [match ?p with xI _ => _ | xO _ => _ | xH => _ end] => destruct p
         | |- context [if ?b then _ else _] => destruct b
         end;
    first [exact H | apply P_nextStep, H].
Qed.

Lemma P_handle (ev : Event) (st : State) : P st -> P (handle ev st).
Proof.
  intros H. destruct ev as [s e|e| | | | | | | | | ]; cbn [handle].
  - apply P_startDrag, H.
  - generalize (dragListeners st). intros l. revert st H.
    induction l as [|s l IH]; intros st H; [exact H | ].
    apply IH, P_moveHandler, H.
  - generalize (dragListeners st). intros l. revert st H.
    induction l as [|s l IH]; intros st H; [exact H | ].
    apply IH. unfold upHandler. apply P_check, P_commitDrag, H.
  - unfold flipJCCClick. destruct (disabled st flipJCCButton); [exact H | ].
    apply P_nextStep, P_flip, H.
  - unfold increasePowerClick.
    match goal with |- context [if ?b then _ else _] => destruct b end;
      [apply P_nextStep | ]; apply P_power, H.
  - unfold decreasePowerClick. apply P_power, H.
  - unfold confirmAxisClick.
    match goal with |- context [if ?b then _ else _] => destruct b end;
      [apply P_nextStep | ]; exact H.
  - unfold confirmPowerClick.
    match goal with |- context [if ?b then _ else _] => destruct b end;
      [apply P_nextStep | ]; exact H.
  - unfold startTutorialClick. apply P_nextStep, P_start, H.
  - unfold notificationOkClick. destruct (notificationOnclick st); [ | exact H].
    apply P_nextStep, P_ok, H.
  - apply P_timeout, H.
Qed.

Lemma P_reachable (st : State) : P initial -> reachable st -> P st.
Proof.
  intros H0 R. induction R as [|ev st R IH]; [exact H0 | apply P_handle, IH].
Qed.

End HandlerInvariant.

(** No event writes the sphere. *)
Lemma handle_currentSphere (ev : Event) (st : State) :
  currentSphere (handle ev st) = currentSphere st.
Proof.
  apply (P_handle (fun st' => currentSphere st' = currentSphere st));
    try reflexivity; clear ev.
  - intros st' H. rewrite <- H. apply nextStep_values.
  - intros s e st' H. rewrite <- H. unfold startDrag.
    destruct (disabled st' (sliderControl s)), s; reflexivity.
  - intros s e st' H. rewrite <- H. apply moveHandler_frame.
  - intros s st' H. rewrite <- H. apply commitDrag_values.
  - intros st' H. exact H.
  - intros v st' H. exact H.
  - intros st' H. exact H.
  - intros st' H. exact H.
  - intros st' H. rewrite <- H. unfold timeoutFires.
    destruct (pendingTimeouts st'); reflexivity.
Qed.

(** ** The sphere and the prescription lines *)

Lemma rxText_prefix (st : State) :
  currentSphere st = 0 -> prefix "0.00 DS" (rxText st) = true.
Proof. intros H. unfold rxText. rewrite H. reflexivity. Qed.

Lemma rxShown_initial : rxShown initial.
Proof.
  split; [reflexivity | split; [reflexivity | intros s H; discriminate H]].
Qed.

Lemma rxShown_nextStep (st : State) : rxShown st -> rxShown (nextStep st).
Proof.
  intros (H0 & Hc & Hf). unfold nextStep.
  cbn [tutorStep set_tutorStep disableAllControls set_disabled].
  step_cases (tutorStep st + 1);
    (split; [exact H0 | split; [first [exact Hc | apply rxText_prefix; exact H0] | ]]);
    first [exact Hf
          | intros s Hs; injection Hs as <-; apply rxText_prefix; exact H0].
Qed.

Lemma rxShown_lens (st st' : State) :
  currentSphere st' = currentSphere st ->
  finalRXDisplay st' = finalRXDisplay st ->
  rxShown st -> rxShown (updateLensDisplay st').
Proof.
  intros Hs Hf (H0 & Hc & Hf').
  split; [ | split].
  - cbn. congruence.
  - apply rxText_prefix. congruence.
  - cbn. rewrite Hf. exact Hf'.
Qed.

Lemma rxShown_reachable (st : State) : reachable st -> rxShown st.
Proof.
  intros R. apply (P_reachable rxShown); try assumption;
    try exact rxShown_initial; try exact rxShown_nextStep; clear st R.
  - intros s e st' H. unfold startDrag.
    destruct (disabled st' (sliderControl s)), s; exact H.
  - intros s e st' H. unfold moveHandler.
    destruct (negb (isDraggingJCC st') && negb (isDraggingLens st')), s; exact H.
  - intros [|] st' H; [exact H | ].
    unfold commitDrag. cbv zeta. apply (rxShown_lens st'); [reflexivity .. | exact H].
  - intros st' H. exact H.
  - intros v st' H. apply (rxShown_lens st'); [reflexivity .. | exact H].
  - intros st' H. exact H.
  - intros st' H. exact H.
  - intros st' H. unfold timeoutFires. destruct (pendingTimeouts st'); exact H.
Qed.

(** C10: in every reachable state the sphere is 0.00 and the current
    prescription line, and the final one once it is written, begin with
    "0.00 DS"; no event writes the sphere. *)
Theorem C10_sphere_never_written (st : State) :
  reachable st ->
  currentSphere st = 0 /\
  prefix "0.00 DS" (currentRXDisplay st) = true /\
  (forall s, finalRXDisplay st = Some s -> prefix "0.00 DS" s = true) /\
  (forall ev, currentSphere (handle ev st) = currentSphere st).
Proof.
  intros R. destruct (rxShown_reachable st R) as (H0 & Hc & Hf).
  repeat split; try assumption. intros ev. apply handle_currentSphere.
Qed.

Lemma C10_sphere_never_written_witness :
  reachable (run session initial) /\
  finalRXDisplay (run session initial) = Some "0.00 DS / -2.50 DC x 5°" /\
  currentSphere (run session initial) = 0.
Proof.
  split; [apply run_reachable, reachable_initial | ].
  split; [vm_compute; reflexivity | ].
  exact (proj1 (C10_sphere_never_written (run session initial)
                  (run_reachable session initial reachable_initial))).
Defined.

(** ** Previews and disabled controls *)

(** C1 fails as stated: with the JCC slider held at 90 in step 1, one move
    event with the pointer at 37 degrees leaves 37 in [jccHandleAngle]. *)
Lemma C1_move_event_writes_handle :
  let st := run [StartTutorial; TimerFires; MouseDown jccAxisSliderDiv (pointerAt 90)] initial in
  reachable st /\
  tutorStep st = 1 /\ isDraggingJCC st = true /\ jccHandleAngle st = 90 /\
  jccHandleAngle (handle (MouseMove (pointerAt 37)) st) = 37 /\
  jccHandleAngle (moveHandler jccAxisSliderDiv (pointerAt 37) st) <> jccHandleAngle st.
Proof.
  cbv zeta. split; [apply run_reachable, reachable_initial | ].
  repeat split; try (vm_compute; reflexivity).
  vm_compute. discriminate.
Qed.

(** The flip listener and [startDrag] look at the disabled flag first. *)
Lemma flipJCCClick_disabled (st : State) :
  disabled st flipJCCButton = true -> flipJCCClick st = st.
Proof. intros H. unfold flipJCCClick. rewrite H. reflexivity. Qed.

Lemma startDrag_disabled (s : Slider) (e : Pointer) (st : State) :
  disabled st (sliderControl s) = true -> startDrag s e st = st.
Proof. intros H. unfold startDrag. rewrite H. reflexivity. Qed.

Lemma gated_nextStep (st : State) : gated (nextStep st).
Proof.
  unfold nextStep. cbn [tutorStep set_tutorStep disableAllControls set_disabled].
  step_cases (tutorStep st + 1);
    unfold gated; (split; [ | split]); intros H;
    first [reflexivity | split; reflexivity | exfalso; cbn in H; lia].
Qed.

Lemma gated_same (st st' : State) :
  tutorStep st' = tutorStep st ->
  (forall c, c <> jccAxisSlider -> c <> startTutorialButton ->
             disabled st' c = disabled st c) ->
  gated st -> gated st'.
Proof.
  intros Ht Hd (G1 & G2 & G3). unfold gated.
  rewrite Ht, !Hd by discriminate. repeat split; tauto.
Qed.

Lemma gated_reachable (st : State) : reachable st -> gated st.
Proof.
  intros R. apply (P_reachable gated); try assumption; clear st R.
  - intros st _. apply gated_nextStep.
  - intros s e st. apply gated_same; unfold startDrag;
      destruct (disabled st (sliderControl s)), s; reflexivity.
  - intros s e st. apply gated_same; unfold moveHandler;
      destruct (negb (isDraggingJCC st) && negb (isDraggingLens st)), s; reflexivity.
  - intros s st. apply gated_same; destruct s; reflexivity.
  - intros st. apply gated_same; reflexivity.
  - intros v st. apply gated_same; reflexivity.
  - intros st. apply gated_same; [reflexivity | ].
    intros c _ Hc. destruct c; try reflexivity. contradiction.
  - intros st. apply gated_same; reflexivity.
  - intros st. apply gated_same; unfold timeoutFires;
      destruct (pendingTimeouts st); try reflexivity.
    intros c Hc _. destruct c; try reflexivity. contradiction.
  - unfold gated. (split; [ | split]); intros H; vm_compute in H; lia.
Qed.

(** In a session the two confirm listeners do nothing while their button is
    disabled, and a power listener that runs while its button is disabled
    does not advance. *)
Lemma confirmClicks_disabled (st : State) :
  reachable st ->
  (disabled st confirmAxisButton = true -> confirmAxisClick st = st) /\
  (disabled st confirmPowerButton = true -> confirmPowerClick st = st) /\
  (disabled st increasePowerButton = true ->
   tutorStep (increasePowerClick st) = tutorStep st).
Proof.
  intros R. destruct (gated_reachable st R) as (G1 & G2 & G3).
  split; [ | split]; intros H.
  - unfold confirmAxisClick. destruct (Z.eqb_spec (tutorStep st) 16) as [E|E];
      [rewrite (G1 E) in H; discriminate H | reflexivity].
  - unfold confirmPowerClick. destruct (Z.eqb_spec (tutorStep st) 38) as [E|E];
      [rewrite (G2 E) in H; discriminate H | reflexivity].
  - rewrite increasePowerClick_tutorStep.
    destruct (Z.eqb_spec (tutorStep st) 24) as [E|E];
      [destruct (G3 (or_introl E)); congruence | ].
    destruct (Z.eqb_spec (tutorStep st) 31) as [E'|E'];
      [destruct (G3 (or_intror E')); congruence | reflexivity].
Qed.

(** C2 at its failing input: after the start click the tutor is in step 1
    and both power buttons are disabled, yet their listeners, which lack the
    check the flip listener makes, rewrite the cylinder. *)
Lemma C2_power_listeners_ignore_disabled :
  let st := handle StartTutorial initial in
  reachable st /\ tutorStep st = 1 /\
  disabled st increasePowerButton = true /\
  disabled st decreasePowerButton = true /\
  currentCylinder st = -200 /\
  currentCylinder (handle IncreasePower st) = -225 /\
  currentCylinder (handle DecreasePower st) = -175 /\
  currentRXDisplay (handle IncreasePower st) = "0.00 DS / -2.25 DC x 180°".
Proof.
  cbv zeta. split; [apply reachable_handle, reachable_initial | ].
  repeat split; vm_compute; reflexivity.
Qed.

(** * Further properties *)

(** ** Rounding and the display axis *)

(** Past the bound the two evaluations part: at [5 * 2 ^ 50 + 2] the script
    returns the angle plus 3, the integer function the angle minus 2. *)
Example roundTo5Degrees_double_far :
  Binary64.toZ (Binary64.roundTo5Degrees (Binary64.ofZ (5 * 2 ^ 50 + 2)))
  = Some (5 * 2 ^ 50 + 2 + 3) /\
  roundTo5Degrees (5 * 2 ^ 50 + 2) = 5 * 2 ^ 50 + 2 - 2.
Proof. split; vm_compute; reflexivity. Qed.

(** X1: on an integer angle of magnitude up to [2 ^ 50] the script's
    [roundTo5Degrees] holds the integer [roundTo5Degrees a], which is the
    one multiple of 5 within 2 of the angle; it is monotone on these
    angles. *)
Theorem roundTo5Degrees_nearest (a : Z) :
  Z.abs a <= 2 ^ 50 ->
  Binary64.toZ (Binary64.roundTo5Degrees (Binary64.ofZ a))
  = Some (roundTo5Degrees a) /\
  roundTo5Degrees a mod 5 = 0 /\
  Z.abs (a - roundTo5Degrees a) <= 2 /\
  (forall m, m mod 5 = 0 -> Z.abs (a - m) <= 2 -> m = roundTo5Degrees a) /\
  (forall b, Z.abs b <= 2 ^ 50 -> a <= b ->
             roundTo5Degrees a <= roundTo5Degrees b).
Proof.
  intros Ha. split; [apply roundTo5Degrees_toZ, Ha | ].
  unfold roundTo5Degrees, Math_round_div.
  split; [euclid | split; [euclid | split]].
  - intros m Hm Hm2. euclid.
  - intros b _ Hb. euclid.
Qed.

Lemma roundTo5Degrees_nearest_witness :
  Z.abs (-183) <= 2 ^ 50 /\
  Binary64.toZ (Binary64.roundTo5Degrees (Binary64.ofZ (-183))) = Some (-185).
Proof.
  assert (H : Z.abs (-183) <= 2 ^ 50) by (apply Z.leb_le; reflexivity).
  split; [exact H | exact (proj1 (roundTo5Degrees_nearest (-183) H))].
Defined.

(** X2: the display axes of the integer angles of magnitude up to [2 ^ 50]
    are exactly the clinical axes, on doubles as on integers, and
    [getDisplayAxis] returns each clinical axis unchanged. *)
Theorem getDisplayAxis_image (x : Z) :
  ((exists a, Z.abs a <= 2 ^ 50 /\
              Binary64.toZ (Binary64.getDisplayAxis (Binary64.ofZ a)) = Some x)
   <-> clinicalAxis x) /\
  ((exists a, Z.abs a <= 2 ^ 50 /\ getDisplayAxis a = x) <-> clinicalAxis x) /\
  (clinicalAxis x ->
   Binary64.getDisplayAxis (Binary64.ofZ x) = Binary64.ofZ x /\
   getDisplayAxis x = x).
Proof.
  assert (H180 : 180 <= 2 ^ 50) by (apply Z.leb_le; reflexivity).
  assert (H53 : 2 ^ 50 < 2 ^ 53) by (apply Z.ltb_lt; reflexivity).
  assert (F : clinicalAxis x -> getDisplayAxis x = x).
  { intros [Hr Hm]. apply getDisplayAxis_fixed; [lia | ].
    exists (x / 5). euclid. }
  assert (G : forall a, clinicalAxis (getDisplayAxis a)).
  { intros a. destruct (getDisplayAxis_range a) as [Hr [k Hk]].
    split; [exact Hr | rewrite Hk; euclid]. }
  split; [split | split; [split | ]].
  - intros [a [Ha E]]. rewrite getDisplayAxis_double in E by exact Ha.
    rewrite toZ_ofZ in E by (destruct (G a) as [Hr _]; lia).
    injection E as <-. apply G.
  - intros H. exists x. destruct H as [Hr Hm].
    split; [lia | ]. rewrite getDisplayAxis_double by lia.
    rewrite (F (conj Hr Hm)). apply toZ_ofZ. lia.
  - intros [a [_ <-]]. apply G.
  - intros H. exists x. destruct H as [Hr Hm].
    split; [lia | exact (F (conj Hr Hm))].
  - intros H. split; [ | exact (F H)].
    rewrite getDisplayAxis_double by (destruct H as [Hr _]; lia).
    rewrite (F H). reflexivity.
Qed.

Lemma getDisplayAxis_image_witness :
  clinicalAxis 135 /\
  Binary64.getDisplayAxis (Binary64.ofZ 135) = Binary64.ofZ 135.
Proof.
  assert (H : clinicalAxis 135) by (split; [lia | reflexivity]).
  split; [exact H | exact (proj1 (proj2 (proj2 (getDisplayAxis_image 135)) H))].
Defined.

(** X21: on every integer angle of magnitude up to [2 ^ 50] the script's
    arithmetic on doubles and the integer functions agree: the angle is a
    double, the script's [roundTo5Degrees] holds [roundTo5Degrees x], and its
    [getDisplayAxis] returns the double of [getDisplayAxis x]. *)
Theorem double_agrees_with_integer (x : Z) :
  Z.abs x <= 2 ^ 50 ->
  Binary64.toZ (Binary64.ofZ x) = Some x /\
  Binary64.toZ (Binary64.roundTo5Degrees (Binary64.ofZ x))
  = Some (roundTo5Degrees x) /\
  Binary64.getDisplayAxis (Binary64.ofZ x) = Binary64.ofZ (getDisplayAxis x) /\
  Binary64.toZ (Binary64.getDisplayAxis (Binary64.ofZ x))
  = Some (getDisplayAxis x).
Proof.
  intros Hx.
  assert (H180 : 180 < 2 ^ 53) by (apply Z.ltb_lt; reflexivity).
  assert (H53 : 2 ^ 50 < 2 ^ 53) by (apply Z.ltb_lt; reflexivity).
  split; [apply toZ_ofZ; lia | ].
  split; [apply roundTo5Degrees_toZ, Hx | ].
  rewrite getDisplayAxis_double by exact Hx.
  split; [reflexivity | ].
  apply toZ_ofZ. destruct (getDisplayAxis_range x) as [Hr _]. lia.
Qed.

Lemma double_agrees_with_integer_witness :
  Z.abs (-183) <= 2 ^ 50 /\
  Binary64.getDisplayAxis (Binary64.ofZ (-183)) = Binary64.ofZ 175.
Proof.
  assert (H : Z.abs (-183) <= 2 ^ 50) by (apply Z.leb_le; reflexivity).
  split; [exact H | ].
  exact (proj1 (proj2 (proj2 (double_agrees_with_integer (-183) H)))).
Defined.

Lemma getDisplayAxis_eq_mod (a b : Z) :
  getDisplayAxis a = getDisplayAxis b ->
  (roundTo5Degrees a - roundTo5Degrees b) mod 180 = 0.
Proof.
  intros H. pose proof (getDisplayAxis_mod a). pose proof (getDisplayAxis_mod b).
  euclid.
Qed.

(** X3: two angles are displayed as the same axis exactly when their snapped
    values differ by a multiple of 180. *)
Theorem getDisplayAxis_eq_iff (a b : Z) :
  getDisplayAxis a = getDisplayAxis b <->
  (roundTo5Degrees a - roundTo5Degrees b) mod 180 = 0.
Proof. split; [apply getDisplayAxis_eq_mod | apply getDisplayAxis_congr]. Qed.

(** ** The target of step 17 *)

(** X4: with the handle on the angle step 17 asks for, the display axis of
    lens axis + 45, an unflipped JCC has its red line on the lens axis and
    its green line across it; a flipped JCC has them the other way round. *)
Theorem step17_target_aligns (st : State) :
  jccHandleAngle st = getDisplayAxis (currentAxis st + 45) ->
  (jccFlipped st = false ->
   getJCCRedLineAxis st = getDisplayAxis (currentAxis st) /\
   getJCCGreenLineAxis st = getDisplayAxis (currentAxis st + 90)) /\
  (jccFlipped st = true ->
   getJCCGreenLineAxis st = getDisplayAxis (currentAxis st) /\
   getJCCRedLineAxis st = getDisplayAxis (currentAxis st + 90)) /\
  getDisplayAxis (currentAxis st + 90) <> getDisplayAxis (currentAxis st).
Proof.
  intros Hh. set (a := currentAxis st) in *.
  assert (Hm : getDisplayAxis (getDisplayAxis (a + 45) + -45) = getDisplayAxis a).
  { apply getDisplayAxis_congr.
    replace (getDisplayAxis (a + 45) + -45)
      with (getDisplayAxis (a + 45) + 5 * -9) by lia.
    rewrite roundTo5Degrees_shift.
    destruct (getDisplayAxis_range (a + 45)) as [_ [k Hk]].
    rewrite Hk, roundTo5Degrees_multiple, <- Hk.
    pose proof (getDisplayAxis_mod (a + 45)) as M.
    replace (a + 45) with (a + 5 * 9) in M at 2 by lia.
    rewrite roundTo5Degrees_shift in M. euclid. }
  assert (Hp : getDisplayAxis (getDisplayAxis (a + 45) + 45) = getDisplayAxis (a + 90)).
  { apply getDisplayAxis_congr.
    replace (getDisplayAxis (a + 45) + 45)
      with (getDisplayAxis (a + 45) + 5 * 9) by lia.
    rewrite roundTo5Degrees_shift.
    destruct (getDisplayAxis_range (a + 45)) as [_ [k Hk]].
    rewrite Hk, roundTo5Degrees_multiple, <- Hk.
    pose proof (getDisplayAxis_mod (a + 45)) as M.
    replace (a + 45) with (a + 5 * 9) in M at 2 by lia.
    replace (a + 90) with (a + 5 * 18) by lia.
    rewrite !roundTo5Degrees_shift in *. euclid. }
  unfold getJCCRedLineAxis, getJCCGreenLineAxis. rewrite Hh.
  split; [ | split].
  - intros ->. cbn [negb]. split; assumption.
  - intros ->. cbn [negb]. split; assumption.
  - intros E. apply getDisplayAxis_eq_mod in E.
    replace (a + 90) with (a + 5 * 18) in E by lia.
    rewrite roundTo5Degrees_shift in E. euclid.
Qed.

Lemma step17_target_aligns_witness :
  jccHandleAngle (set_jccHandleAngle 50 (set_currentAxis 5 initial)) =
    getDisplayAxis (currentAxis (set_jccHandleAngle 50 (set_currentAxis 5 initial)) + 45) /\
  getDisplayAxis (currentAxis (set_jccHandleAngle 50 (set_currentAxis 5 initial)) + 90)
    <> getDisplayAxis (currentAxis (set_jccHandleAngle 50 (set_currentAxis 5 initial))).
Proof.
  split; [reflexivity | ].
  exact (proj2 (proj2 (step17_target_aligns
                         (set_jccHandleAngle 50 (set_currentAxis 5 initial)) eq_refl))).
Defined.

(** ** Enabling controls *)

Lemma enableControl_disabled (nm : string) (st : State) (c : Control) :
  disabled (enableControl nm st) c =
    disabled st c && disabled (enableControl nm (disableAllControls st)) c.
Proof.
  unfold enableControl.
  repeat match goal with
         | |- context [if (?a =? ?b)%string then _ else _] => destruct (a =? b)%string
         end;
    destruct c; cbn; rewrite ?andb_true_r, ?andb_false_r; reflexivity.
Qed.

Lemma enableControl_alone (nm : string) (st st' : State) (c : Control) :
  disabled (enableControl nm (disableAllControls st)) c =
    disabled (enableControl nm (disableAllControls st')) c.
Proof.
  unfold enableControl.
  repeat match goal with
         | |- context [if (?a =? ?b)%string then _ else _] => destruct (a =? b)%string
         end;
    destruct c; reflexivity.
Qed.

Lemma enableControl_frame (nm : string) (st : State) :
  sameValues st (enableControl nm st) /\
  tutorStep (enableControl nm st) = tutorStep st /\
  jccFlipped (enableControl nm st) = jccFlipped st /\
  disabled (enableControl nm st) notificationOkButton = disabled st notificationOkButton.
Proof.
  unfold enableControl, sameValues.
  repeat match goal with
         | |- context [if (?a =? ?b)%string then _ else _] => destruct (a =? b)%string
         end;
    repeat split; reflexivity.
Qed.

(** X5: [enableControls] enables a control exactly when it was enabled before
    or one of the names alone enables it; it changes no variable, never
    disables anything and, whatever the names, leaves the notification's OK
    button as it was. *)
Theorem enableControls_effect (names : list string) (st : State) (c : Control) :
  (disabled (enableControls names st) c = false <->
     disabled st c = false \/
     exists nm, In nm names /\
                disabled (enableControl nm (disableAllControls st)) c = false) /\
  disabled (enableControls names st) notificationOkButton =
    disabled st notificationOkButton /\
  sameValues st (enableControls names st) /\
  tutorStep (enableControls names st) = tutorStep st /\
  jccFlipped (enableControls names st) = jccFlipped st.
Proof.
  unfold enableControls. revert st.
  induction names as [|nm names IH]; intros st.
  - cbn. unfold sameValues. repeat split; try tauto.
    intros [H | (nm & [] & _)]. exact H.
  - cbn [fold_left]. destruct (IH (enableControl nm st)) as (I1 & I2 & I3 & I4 & I5).
    destruct (enableControl_frame nm st) as (F1 & F2 & F3 & F4).
    split; [ | split; [congruence | split; [ | split; congruence]]].
    + rewrite I1, enableControl_disabled, andb_false_iff.
      split.
      * intros [[H | H] | (nm' & Hin & H)].
        -- left; exact H.
        -- right. exists nm. split; [left; reflexivity | exact H].
        -- right. exists nm'. split; [right; exact Hin | ].
           rewrite <- H. apply enableControl_alone.
      * intros [H | (nm' & [<- | Hin] & H)].
        -- left; left; exact H.
        -- left; right; exact H.
        -- right. exists nm'. split; [exact Hin | ].
           rewrite <- H. apply enableControl_alone.
    + unfold sameValues in *. intuition congruence.
Qed.

(** ** [nextStep], field by field *)

Lemma nextStep_disabled (st : State) (c : Control) :
  disabled (nextStep st) c =
    negb (memControl c (if tutorStep st + 1 <=? 1 then []
                        else stepControls (tutorStep st + 1))).
Proof.
  unfold nextStep. cbn [tutorStep set_tutorStep disableAllControls set_disabled].
  step_cases (tutorStep st + 1); destruct c; reflexivity.
Qed.

Lemma nextStep_jccFlipped (st : State) :
  jccFlipped (nextStep st) =
    match flipAt (tutorStep st + 1) with Some b => b | None => jccFlipped st end.
Proof.
  unfold nextStep. cbn [tutorStep set_tutorStep disableAllControls set_disabled].
  step_cases (tutorStep st + 1); reflexivity.
Qed.

Lemma nextStep_browser (st : State) :
  dragListeners (nextStep st) = dragListeners st /\
  isDraggingJCC (nextStep st) = isDraggingJCC st /\
  isDraggingLens (nextStep st) = isDraggingLens st /\
  pendingTimeouts (nextStep st) =
    (if tutorStep st + 1 =? 1 then S (pendingTimeouts st) else pendingTimeouts st) /\
  finalRXDisplay (nextStep st) =
    (if tutorStep st + 1 =? 39 then Some (rxText st) else finalRXDisplay st).
Proof.
  unfold nextStep. cbn [tutorStep set_tutorStep disableAllControls set_disabled].
  step_cases (tutorStep st + 1); repeat split; reflexivity.
Qed.

Lemma check_cases (st : State) :
  checkSliderValueForNextStep st = st \/
  (checkSliderValueForNextStep st = nextStep st /\
   ((tutorStep st = 1 /\ jccHandleAngle st = 180) \/
    (tutorStep st = 8 /\ currentAxis st = 5) \/
    (tutorStep st = 9 /\ jccHandleAngle st = 5) \/
    (tutorStep st = 17 /\ jccHandleAngle st = getDisplayAxis (currentAxis st + 45)))).
Proof.
  unfold checkSliderValueForNextStep.
  destruct (tutorStep st) as [|p|p]; [ | split_pos p 5%nat | ];
    cbv zeta;
    try match goal with
        | |- context [if ?x =? ?y then _ else _] => destruct (Z.eqb_spec x y)
        end;
    first [left; reflexivity | right; split; [reflexivity | tauto]].
Qed.

(** ** Moves and releases on the document *)

Lemma removeListener_head (s : Slider) (l : list Slider) : removeListener s (s :: l) = l.
Proof. destruct s; reflexivity. Qed.

Lemma moveHandler_listeners (s : Slider) (e : Pointer) (st : State) :
  dragListeners (moveHandler s e st) = dragListeners st.
Proof.
  unfold moveHandler.
  destruct (negb (isDraggingJCC st) && negb (isDraggingLens st)), s; reflexivity.
Qed.

Lemma upHandler_browser (s : Slider) (st : State) :
  dragListeners (upHandler s st) = removeListener s (dragListeners st) /\
  isDraggingJCC (upHandler s st) = false /\
  isDraggingLens (upHandler s st) = false.
Proof.
  unfold upHandler.
  assert (C : dragListeners (commitDrag s st) = removeListener s (dragListeners st) /\
              isDraggingJCC (commitDrag s st) = false /\
              isDraggingLens (commitDrag s st) = false)
    by (destruct s; repeat split; reflexivity).
  destruct (check_cases (commitDrag s st)) as [-> | [-> _]]; [exact C | ].
  destruct (nextStep_browser (commitDrag s st)) as (-> & -> & -> & _). exact C.
Qed.

(** A property the closures keep while they are registered is kept by a
    move and by a release on the document. *)
Section DocumentEvents.

Variable P : State -> Prop.

Lemma mouseMove_keeps (e : Pointer) (st : State) :
  (forall s st, In s (dragListeners st) -> P st -> P (moveHandler s e st)) ->
  P st -> P (handle (MouseMove e) st).
Proof.
  intros K H. cbn [handle].
  assert (G : forall l st, incl l (dragListeners st) -> P st ->
                P (fold_left (fun st s => moveHandler s e st) l st)).
  { clear st H. induction l as [|s l IH]; intros st I H; [exact H | ].
    cbn [fold_left]. apply IH.
    - rewrite moveHandler_listeners. intros x Hx. apply I. right. exact Hx.
    - apply K; [apply I; left; reflexivity | exact H]. }
  apply G; [apply incl_refl | exact H].
Qed.

Lemma mouseUp_keeps (st : State) :
  (forall s l st, dragListeners st = s :: l -> P st -> P (upHandler s st)) ->
  P st ->
  P (handle MouseUp st) /\ dragListeners (handle MouseUp st) = [].
Proof.
  intros K H. cbn [handle].
  remember (dragListeners st) as l eqn:E. revert st H E.
  induction l as [|s l IH]; intros st H E; [split; [exact H | symmetry; exact E] | ].
  cbn [fold_left]. apply IH.
  - apply (K s l); [symmetry; exact E | exact H].
  - destruct (upHandler_browser s st) as (-> & _). rewrite <- E.
    symmetry. apply removeListener_head.
Qed.

End DocumentEvents.

(** ** Steps only go up *)

Lemma handle_tutorStep_le (ev : Event) (st : State) :
  tutorStep st <= tutorStep (handle ev st).
Proof.
  apply (P_handle (fun st' => tutorStep st <= tutorStep st')); try lia; clear ev.
  - intros st' H. rewrite nextStep_tutorStep. lia.
  - intros s e st' H. unfold startDrag.
    destruct (disabled st' (sliderControl s)), s; exact H.
  - intros s e st' H.
    destruct (moveHandler_frame s e st') as (-> & _). exact H.
  - intros s st' H. rewrite commitDrag_tutorStep. exact H.
  - intros st' H. exact H.
  - intros v st' H. exact H.
  - intros st' H. exact H.
  - intros st' H. exact H.
  - intros st' H. unfold timeoutFires. destruct (pendingTimeouts st'); exact H.
Qed.

Lemma event_one_step (ev : Event) (st : State) :
  ev <> MouseUp -> tutorStep (handle ev st) <= tutorStep st + 1.
Proof.
  intros Hev. pose proof (nextStep_tutorStep) as N.
  destruct ev as [s e|e| | | | | | | | | ]; cbn [handle].
  - unfold startDrag. destruct (disabled st (sliderControl s)), s; cbn; lia.
  - enough (tutorStep (handle (MouseMove e) st) = tutorStep st) as E
        by (cbn [handle] in E; lia).
    apply (mouseMove_keeps (fun st' => tutorStep st' = tutorStep st)); [ | reflexivity].
    intros s st' _ H. destruct (moveHandler_frame s e st') as (-> & _). exact H.
  - contradiction.
  - unfold flipJCCClick. destruct (disabled st flipJCCButton); [lia | ].
    rewrite N. cbn. lia.
  - rewrite increasePowerClick_tutorStep.
    destruct ((tutorStep st =? 24) || (tutorStep st =? 31)); lia.
  - cbn. lia.
  - unfold confirmAxisClick.
    destruct ((tutorStep st =? 16) && (currentAxis st =? 5)); rewrite ?N; lia.
  - unfold confirmPowerClick.
    destruct ((tutorStep st =? 38) && (currentCylinder st =? -250)); rewrite ?N; lia.
  - unfold startTutorialClick. rewrite N. cbn. lia.
  - unfold notificationOkClick. destruct (notificationOnclick st); rewrite ?N; cbn; lia.
  - unfold timeoutFires. destruct (pendingTimeouts st); cbn; lia.
Qed.

(** X6: the step counter never goes down, over any sequence of events, and an
    event other than a release on the document raises it by at most one. *)
Theorem tutorStep_monotone (evs : list Event) (st : State) :
  tutorStep st <= tutorStep (run evs st) /\
  (forall ev, ev <> MouseUp -> tutorStep (handle ev st) <= tutorStep st + 1).
Proof.
  split.
  - revert st. induction evs as [|ev evs IH]; intros st; [cbn; lia | ].
    cbn [run fold_left]. pose proof (handle_tutorStep_le ev st).
    specialize (IH (handle ev st)). unfold run in IH. lia.
  - intros ev. apply event_one_step.
Qed.

(** X7: a release on the document removes every registered closure and, when
    there was one, clears both dragging flags; with none registered it
    changes nothing. *)
Theorem release_clears (st : State) :
  dragListeners (handle MouseUp st) = [] /\
  (dragListeners st <> [] ->
   isDraggingJCC (handle MouseUp st) = false /\
   isDraggingLens (handle MouseUp st) = false) /\
  (dragListeners st = [] -> handle MouseUp st = st).
Proof.
  pose proof (mouseUp_keeps
                (fun st' => dragListeners st' = dragListeners st \/
                            (isDraggingJCC st' = false /\ isDraggingLens st' = false)) st)
    as K.
  destruct K as [K E].
  - intros s l st' _ _. right. apply upHandler_browser.
  - left; reflexivity.
  - split; [exact E | split].
    + intros Hne. destruct K as [K | K]; [ | exact K].
      rewrite E in K. congruence.
    + intros H. cbn [handle]. rewrite H. reflexivity.
Qed.

(** ** A whole drag *)

Lemma getDisplayAxis_fixed_point (x : Z) :
  getDisplayAxis (getDisplayAxis x) = getDisplayAxis x.
Proof.
  destruct (getDisplayAxis_range x) as [Hr Hk].
  apply getDisplayAxis_fixed; [lia | exact Hk].
Qed.

Lemma release_parts (s : Slider) (st : State) :
  sliderValue s (upHandler s st) = getDisplayAxis (sliderValue s st) /\
  sliderValue (otherSlider s) (upHandler s st) = sliderValue (otherSlider s) st /\
  (tutorStep (upHandler s st) = tutorStep st \/
   tutorStep (upHandler s st) = tutorStep st + 1).
Proof.
  split; [apply release_value | ]. unfold upHandler.
  pose proof (check_values (commitDrag s st)) as V.
  pose proof (check_tutorStep (commitDrag s st)) as [T _].
  rewrite commitDrag_tutorStep in T.
  rewrite (sliderValue_same _ _ _ V).
  split; [apply commitDrag_values | exact T].
Qed.

Lemma moves_spec (s : Slider) (es : list Pointer) (st : State) :
  isDraggingJCC st || isDraggingLens st = true ->
  sliderValue s (moves s es st) = last (map (fun e => e s) es) (sliderValue s st) /\
  sliderValue (otherSlider s) (moves s es st) = sliderValue (otherSlider s) st /\
  tutorStep (moves s es st) = tutorStep st /\
  dragListeners (moves s es st) = dragListeners st.
Proof.
  revert st. induction es as [|e es IH]; intros st D; [repeat split | ].
  cbn [moves fold_left map]. fold (moves s es (moveHandler s e st)).
  pose proof (moveHandler_frame s e st) as F. cbv zeta in F.
  destruct F as (F1 & _ & _ & _ & _ & F2 & F3 & F4).
  destruct (IH (moveHandler s e st)) as (I1 & I2 & I3 & I4);
    [rewrite F2, F3; exact D | ].
  rewrite I1, I2, I3, I4, last_cons, moveHandler_value, D, moveHandler_listeners.
  repeat split; assumption.
Qed.

Lemma run_moves (s : Slider) (es : list Pointer) (st : State) :
  dragListeners st = [s] -> run (map MouseMove es) st = moves s es st.
Proof.
  revert st. induction es as [|e es IH]; intros st L; [reflexivity | ].
  cbn [map run fold_left handle moves]. rewrite L. cbn [fold_left].
  apply IH. rewrite moveHandler_listeners. exact L.
Qed.

Lemma run_app (l1 l2 : list Event) (st : State) :
  run (l1 ++ l2) st = run l2 (run l1 st).
Proof. apply fold_left_app. Qed.

Lemma display_last (l : list Z) (x : Z) :
  getDisplayAxis (last l (getDisplayAxis x)) = getDisplayAxis (last l x).
Proof.
  destruct l as [|a l]; [apply getDisplayAxis_fixed_point | ].
  rewrite !last_cons. reflexivity.
Qed.

(** X8: pressing an enabled slider with no drag running, moving and releasing
    leaves that slider at the display axis of the last pointer position (of
    the press, if the pointer did not move), the other slider untouched, no
    closure registered, and the step where it was or one further. *)
Theorem drag_gesture (s : Slider) (e : Pointer) (es : list Pointer) (st : State) :
  dragListeners st = [] ->
  disabled st (sliderControl s) = false ->
  let st' := run (MouseDown s e :: map MouseMove es ++ [MouseUp]) st in
  sliderValue s st' = getDisplayAxis (last (map (fun p => p s) es) (e s)) /\
  sliderValue (otherSlider s) st' = sliderValue (otherSlider s) st /\
  dragListeners st' = [] /\
  (tutorStep st' = tutorStep st \/ tutorStep st' = tutorStep st + 1).
Proof.
  intros L En. cbv zeta.
  change (run (MouseDown s e :: map MouseMove es ++ [MouseUp]) st)
    with (run (map MouseMove es ++ [MouseUp]) (handle (MouseDown s e) st)).
  rewrite run_app. cbn [run fold_left].
  fold (run (map MouseMove es) (handle (MouseDown s e) st)).
  set (st1 := handle (MouseDown s e) st).
  assert (S1 : dragListeners st1 = [s] /\
               isDraggingJCC st1 || isDraggingLens st1 = true /\
               sliderValue s st1 = getDisplayAxis (e s) /\
               sliderValue (otherSlider s) st1 = sliderValue (otherSlider s) st /\
               tutorStep st1 = tutorStep st).
  { subst st1. cbn [handle]. unfold startDrag. rewrite En.
    destruct s; cbn; rewrite L, ?orb_true_r; repeat split. }
  destruct S1 as (L1 & D1 & V1 & O1 & T1).
  rewrite (run_moves s es st1 L1).
  destruct (moves_spec s es st1 D1) as (V2 & O2 & T2 & L2).
  set (st2 := moves s es st1) in *.
  cbn [handle]. rewrite L2, L1. cbn [fold_left].
  pose proof (release_parts s st2) as (R1 & R2 & R3).
  destruct (upHandler_browser s st2) as (R4 & _).
  rewrite R1, R2, R4, L2, L1, removeListener_head, V2, V1, O2, O1, display_last.
  rewrite T2, T1 in R3. repeat split. exact R3.
Qed.

Lemma drag_gesture_witness :
  dragListeners (run [StartTutorial; TimerFires] initial) = [] /\
  disabled (run [StartTutorial; TimerFires] initial) (sliderControl jccAxisSliderDiv) = false /\
  sliderValue jccAxisSliderDiv
    (run (MouseDown jccAxisSliderDiv (pointerAt 90)
            :: map MouseMove [pointerAt 37; pointerAt 178] ++ [MouseUp])
         (run [StartTutorial; TimerFires] initial)) = 180.
Proof.
  split; [reflexivity | split; [reflexivity | ]].
  exact (proj1 (drag_gesture jccAxisSliderDiv (pointerAt 90) [pointerAt 37; pointerAt 178]
                  (run [StartTutorial; TimerFires] initial) eq_refl eq_refl)).
Defined.

(** ** The page follows the variables *)

Lemma clinicalAxis_display (x : Z) : clinicalAxis (getDisplayAxis x).
Proof.
  destruct (getDisplayAxis_range x) as [Hr [k Hk]].
  split; [exact Hr | rewrite Hk; euclid].
Qed.

Lemma settled_initial : settled initial.
Proof.
  split; [ | split; [ | split]]; try reflexivity.
  intros [|] _; (split; [split; [cbn; lia | reflexivity] | reflexivity]).
Qed.

Lemma settled_nextStep (st : State) : settled st -> settled (nextStep st).
Proof.
  intros (H1 & H2 & H3 & H4).
  assert (J := fun H => proj1 (H1 jccAxisSliderDiv H)).
  assert (J' := fun H => proj2 (H1 jccAxisSliderDiv H)).
  assert (L := fun H => proj1 (H1 lensAxisSliderDiv H)).
  assert (L' := fun H => proj2 (H1 lensAxisSliderDiv H)).
  cbn [sliderValue sliderText] in J, J', L, L'.
  unfold nextStep. cbn [tutorStep set_tutorStep disableAllControls set_disabled].
  step_cases (tutorStep st + 1);
    (split; [intros [|] N; (split; [first [exact (J N) | exact (L N)] | ]);
             first [exact (J' N) | exact (L' N) | reflexivity]
            | split; [first [exact H2 | reflexivity] | split; [ | ]]]);
    first [exact H3 | exact H4 | reflexivity].
Qed.

Lemma settled_startDrag (s : Slider) (e : Pointer) (st : State) :
  settled st -> settled (startDrag s e st).
Proof.
  intros H. pose proof H as (H1 & H2 & H3 & H4). unfold startDrag.
  destruct (disabled st (sliderControl s)); [exact H | ]. clear H.
  assert (N : forall t, ~ In t (dragListeners st ++ [s]) ->
                        ~ In t (dragListeners st) /\ t <> s).
  { intros t Ht. split; [intros I | intros ->]; apply Ht, in_or_app;
      [left; exact I | right; left; reflexivity]. }
  destruct s; (split; [ | split; [ | split]]); try assumption;
    cbn [dragListeners set_dragListeners set_isDraggingJCC set_isDraggingLens
           updateValueCallback updateJCCRotation updateLensRotation
           set_jccHandleAngle set_currentAxis].
  - intros t Ht. destruct (N t Ht) as [Nt Ne]. destruct t; [congruence | ].
    exact (H1 _ Nt).
  - intros Ht. destruct (N _ Ht) as [Nt _]. exact (H2 Nt).
  - intros t Ht. destruct (N t Ht) as [Nt Ne]. destruct t; [ | congruence].
    exact (H1 _ Nt).
  - intros Ht. destruct (N _ Ht) as [_ Ne]. congruence.
Qed.

Lemma settled_moveHandler (s : Slider) (e : Pointer) (st : State) :
  In s (dragListeners st) -> settled st -> settled (moveHandler s e st).
Proof.
  intros I H. pose proof H as (H1 & H2 & H3 & H4). unfold moveHandler.
  destruct (negb (isDraggingJCC st) && negb (isDraggingLens st)); [exact H | ].
  clear H.
  destruct s; (split; [ | split; [ | split]]); try assumption;
    cbn [dragListeners updateValueCallback updateJCCRotation updateLensRotation
           set_jccHandleAngle set_currentAxis set_jccAngleDisplay set_lensAxisDisplay].
  - intros [|] Nt; [contradiction | exact (H1 _ Nt)].
  - intros [|] Nt; [exact (H1 _ Nt) | contradiction].
  - intros Nt. contradiction.
Qed.

Lemma settled_commitDrag (s : Slider) (l : list Slider) (st : State) :
  dragListeners st = s :: l -> settled st -> settled (commitDrag s st).
Proof.
  intros E (H1 & H2 & H3 & H4).
  assert (N : forall t, t <> s -> ~ In t l -> ~ In t (dragListeners st)).
  { intros t Ne Nt. rewrite E. intros [-> | I]; [congruence | contradiction]. }
  assert (R : dragListeners (commitDrag s st) = l).
  { destruct s; cbn; rewrite E; reflexivity. }
  unfold settled. rewrite R. clear R.
  destruct s; (split; [ | split; [ | split]]); try assumption; try reflexivity.
  - intros [|] Nt.
    + split; [apply clinicalAxis_display | reflexivity].
    + apply (H1 lensAxisSliderDiv), N; [discriminate | exact Nt].
  - intros Nt. apply H2, N; [discriminate | exact Nt].
  - intros [|] Nt.
    + apply (H1 jccAxisSliderDiv), N; [discriminate | exact Nt].
    + split; [apply clinicalAxis_display | reflexivity].
Qed.

Lemma settled_redraw (st : State) :
  settled st ->
  settled (updateJCCDisplay (toggleFlip st)) /\
  (forall v, settled (updateLensDisplay (set_currentCylinder v st))).
Proof.
  intros (H1 & H2 & H3 & H4). split; [ | intros v];
    (split; [ | split; [ | split]]); try assumption; try reflexivity.
  - intros [|] Nt; [ | exact (H1 _ Nt)].
    split; [exact (proj1 (H1 _ Nt)) | reflexivity].
  - intros [|] Nt; [exact (H1 _ Nt) | ].
    split; [exact (proj1 (H1 _ Nt)) | reflexivity].
Qed.

Lemma settled_handle (ev : Event) (st : State) : settled st -> settled (handle ev st).
Proof.
  intros H. destruct ev as [s e|e| | | | | | | | | ].
  - apply settled_startDrag, H.
  - apply mouseMove_keeps; [ | exact H]. intros s st'. apply settled_moveHandler.
  - apply mouseUp_keeps; [ | exact H]. intros s l st' E H'. unfold upHandler.
    pose proof (settled_commitDrag s l st' E H') as C.
    destruct (check_cases (commitDrag s st')) as [-> | [-> _]];
      [exact C | apply settled_nextStep, C].
  - cbn [handle]. unfold flipJCCClick. destruct (disabled st flipJCCButton); [exact H | ].
    apply settled_nextStep, settled_redraw, H.
  - cbn [handle]. unfold increasePowerClick.
    match goal with |- context [if ?b then _ else _] => destruct b end;
      [apply settled_nextStep | ]; apply settled_redraw, H.
  - apply settled_redraw, H.
  - cbn [handle]. unfold confirmAxisClick.
    match goal with |- context [if ?b then _ else _] => destruct b end;
      [apply settled_nextStep | ]; exact H.
  - cbn [handle]. unfold confirmPowerClick.
    match goal with |- context [if ?b then _ else _] => destruct b end;
      [apply settled_nextStep | ]; exact H.
  - apply settled_nextStep. exact H.
  - cbn [handle]. unfold notificationOkClick.
    destruct (notificationOnclick st); [apply settled_nextStep | ]; exact H.
  - cbn [handle]. unfold timeoutFires. destruct (pendingTimeouts st); exact H.
Qed.

Lemma settled_reachable (st : State) : reachable st -> settled st.
Proof.
  intros R. induction R as [|ev st R IH];
    [exact settled_initial | apply settled_handle, IH].
Qed.

(** X9: in every reachable state a slider that is not being dragged holds a
    clinical axis: a multiple of 5 from 5 to 180. *)
Theorem idle_sliders_hold_axes (st : State) (s : Slider) :
  reachable st -> ~ In s (dragListeners st) -> clinicalAxis (sliderValue s st).
Proof. intros R N. apply (settled_reachable st R), N. Qed.

Lemma idle_sliders_hold_axes_witness :
  reachable (run session initial) /\
  ~ In lensAxisSliderDiv (dragListeners (run session initial)) /\
  clinicalAxis (sliderValue lensAxisSliderDiv (run session initial)).
Proof.
  assert (N : ~ In lensAxisSliderDiv (dragListeners (run session initial)))
    by (vm_compute; tauto).
  split; [apply run_reachable, reachable_initial | split; [exact N | ]].
  exact (idle_sliders_hold_axes (run session initial) lensAxisSliderDiv
           (run_reachable session initial reachable_initial) N).
Defined.

Lemma set_same (st : State) :
  set_lensAxisDisplay (lensAxisDisplay st) st = st /\
  set_currentRXDisplay (currentRXDisplay st) st = st /\
  set_cylinderPowerDisplay (cylinderPowerDisplay st) st = st /\
  set_jccAngleDisplay (jccAngleDisplay st) st = st /\
  set_jccPositionDisplay (jccPositionDisplay st) st = st.
Proof. destruct st. repeat split. Qed.

(** X10: in every reachable state with no drag running a redraw changes nothing:
    [updateLensDisplay] and [updateJCCDisplay] return the state they get. *)
Theorem redraw_is_identity (st : State) :
  reachable st -> dragListeners st = [] ->
  updateLensDisplay st = st /\ updateJCCDisplay st = st.
Proof.
  intros R E. destruct (settled_reachable st R) as (H1 & H2 & H3 & H4).
  rewrite E in H1, H2.
  destruct (H1 jccAxisSliderDiv (fun F => F)) as [_ J].
  destruct (H1 lensAxisSliderDiv (fun F => F)) as [_ L].
  specialize (H2 (fun F => F)). cbn [sliderText sliderValue] in J, L.
  destruct (set_same st) as (S1 & S2 & S3 & S4 & S5).
  unfold updateLensDisplay, updateJCCDisplay.
  fold (axisText (currentAxis st)). fold (axisText (jccHandleAngle st)).
  rewrite <- L, <- J, <- H3, S1, S5, <- H2, S2, <- H4, S3, S4.
  split; reflexivity.
Qed.

Lemma redraw_is_identity_witness :
  reachable (run session initial) /\ dragListeners (run session initial) = [] /\
  updateLensDisplay (run session initial) = run session initial.
Proof.
  split; [apply run_reachable, reachable_initial | split; [reflexivity | ]].
  exact (proj1 (redraw_is_identity (run session initial)
                  (run_reachable session initial reachable_initial) eq_refl)).
Defined.

(** ** The start button *)

Lemma startOpen_nextStep (st : State) : 0 <= tutorStep st -> startOpen (nextStep st).
Proof.
  intros H. unfold startOpen.
  rewrite nextStep_tutorStep, nextStep_disabled.
  split; [lia | ].
  assert (D : forall n, memControl startTutorialButton
                          (if n <=? 1 then [] else stepControls n) = false)
    by (intros n; step_cases n; reflexivity).
  rewrite D. cbn. split; [discriminate | lia].
Qed.

Lemma startOpen_same (st st' : State) :
  tutorStep st' = tutorStep st ->
  disabled st' startTutorialButton = disabled st startTutorialButton ->
  startOpen st -> startOpen st'.
Proof. unfold startOpen. intros -> ->. tauto. Qed.

Lemma startOpen_handle (ev : Event) (st : State) : startOpen st -> startOpen (handle ev st).
Proof.
  intros H. pose proof H as [H0 _].
  destruct ev as [s e|e| | | | | | | | | ].
  - revert H. apply startOpen_same; cbn [handle]; unfold startDrag;
      destruct (disabled st (sliderControl s)), s; reflexivity.
  - apply mouseMove_keeps; [ | exact H]. intros s st' _.
    destruct (moveHandler_frame s e st') as (T & _ & _ & _ & D & _).
    apply startOpen_same; [exact T | rewrite D; reflexivity].
  - apply mouseUp_keeps; [ | exact H]. intros s l st' _ H'. unfold upHandler.
    destruct (check_cases (commitDrag s st')) as [-> | [-> _]].
    + revert H'. apply startOpen_same; destruct s; reflexivity.
    + apply startOpen_nextStep. rewrite commitDrag_tutorStep. apply H'.
  - cbn [handle]. unfold flipJCCClick. destruct (disabled st flipJCCButton); [exact H | ].
    apply startOpen_nextStep. exact H0.
  - cbn [handle]. unfold increasePowerClick.
    match goal with |- context [if ?b then _ else _] => destruct b end;
      [apply startOpen_nextStep; exact H0 | ].
    revert H. apply startOpen_same; reflexivity.
  - revert H. apply startOpen_same; reflexivity.
  - cbn [handle]. unfold confirmAxisClick.
    match goal with |- context [if ?b then _ else _] => destruct b end;
      [apply startOpen_nextStep; exact H0 | exact H].
  - cbn [handle]. unfold confirmPowerClick.
    match goal with |- context [if ?b then _ else _] => destruct b end;
      [apply startOpen_nextStep; exact H0 | exact H].
  - apply startOpen_nextStep. exact H0.
  - cbn [handle]. unfold notificationOkClick.
    destruct (notificationOnclick st); [apply startOpen_nextStep; exact H0 | exact H].
  - revert H. apply startOpen_same; cbn [handle]; unfold timeoutFires;
      destruct (pendingTimeouts st); reflexivity.
Qed.

(** X11: in every reachable state the step counter is not negative and the start
    button is enabled exactly when the step is 0: once the tutorial has
    started, nothing enables the start button again. *)
Theorem start_button_only_at_step_0 (st : State) :
  reachable st ->
  0 <= tutorStep st /\
  (disabled st startTutorialButton = false <-> tutorStep st = 0).
Proof.
  intros R. induction R as [|ev st R IH]; [ | apply startOpen_handle, IH].
  split; [cbn; lia | split; reflexivity].
Qed.

Lemma start_button_only_at_step_0_witness :
  reachable (run session initial) /\ 0 <= tutorStep (run session initial).
Proof.
  split; [apply run_reachable, reachable_initial | ].
  exact (proj1 (start_button_only_at_step_0 (run session initial)
                  (run_reachable session initial reachable_initial))).
Defined.

(** ** Sessions in a browser *)

Lemma nextStep_onclick (st : State) :
  notificationOnclick (nextStep st) =
    if memControl notificationOkButton (stepControls (tutorStep st + 1)) then true
    else notificationOnclick st.
Proof.
  unfold nextStep. cbn [tutorStep set_tutorStep disableAllControls set_disabled].
  step_cases (tutorStep st + 1); reflexivity.
Qed.

Lemma step_in (n : Z) :
  0 <= n <= 39 ->
  n = 39 \/ n = 38 \/ n = 37 \/ n = 36 \/ n = 35 \/ n = 34 \/ n = 33 \/ n = 32 \/
  n = 31 \/ n = 30 \/ n = 29 \/ n = 28 \/ n = 27 \/ n = 26 \/ n = 25 \/ n = 24 \/
  n = 23 \/ n = 22 \/ n = 21 \/ n = 20 \/ n = 19 \/ n = 18 \/ n = 17 \/ n = 16 \/
  n = 15 \/ n = 14 \/ n = 13 \/ n = 12 \/ n = 11 \/ n = 10 \/ n = 9 \/ n = 8 \/
  n = 7 \/ n = 6 \/ n = 5 \/ n = 4 \/ n = 3 \/ n = 2 \/ n = 1 \/ n = 0.
Proof. lia. Qed.

(** Case analysis on a step known to lie between 0 and 39. *)
Ltac enum_step H E :=
  let I := fresh "I" in
  pose proof (step_in _ H) as I;
  repeat (destruct I as [E | I]; [ | ]); [ .. | rename I into E].

Lemma inSession_reachable (st : State) : inSession st -> reachable st.
Proof.
  intros S. induction S as [|ev st S IH _];
    [apply reachable_initial | apply reachable_handle, IH].
Qed.

Lemma onScript_enter (st : State) :
  0 <= tutorStep st < 39 ->
  pendingTimeouts st = 0%nat ->
  currentSphere st = 0 ->
  finalRXDisplay st = None ->
  agrees (scriptAxis (tutorStep st + 1)) (currentAxis st) ->
  agrees (scriptHandle (tutorStep st + 1)) (jccHandleAngle st) ->
  (flipAt (tutorStep st + 1) = None -> jccFlipped st = scriptFlipped (tutorStep st + 1)) ->
  scriptCylinder (tutorStep st + 1) <= currentCylinder st ->
  (tutorStep st = 38 -> currentCylinder st = -250) ->
  (memControl notificationOkButton (stepControls (tutorStep st + 1)) = false ->
   notificationOnclick st = false) ->
  onScript (nextStep st).
Proof.
  intros Hn Hp Hs Hf Ha Hh Hfl Hc Hc' Ho.
  destruct (nextStep_values st) as (V1 & V2 & V3 & V4).
  destruct (nextStep_browser st) as (_ & _ & _ & B1 & B2).
  unfold onScript.
  rewrite nextStep_tutorStep, V1, V2, V3, V4, B1, B2, nextStep_jccFlipped,
    nextStep_onclick, Hp.
  assert (D := nextStep_disabled st).
  remember (disabled (nextStep st)) as d eqn:Ed. clear Ed.
  assert (R : 0 <= tutorStep st <= 39) by lia.
  enum_step R E; rewrite E in *; try lia; clear E R;
    cbn in Ha, Hh, Hfl, Hc, Ho, D |- *;
    (split; [lia | split; [lia | split; [try discriminate; reflexivity | ]]]);
    (split; [intros c; rewrite D; destruct c; reflexivity | ]);
    repeat split; try assumption; try lia; try (apply Hfl; reflexivity);
    try (apply Ho; reflexivity); try reflexivity; try discriminate.
  all: unfold rxText; rewrite Hs, Ha, (Hc' eq_refl); reflexivity.
Qed.

(** The facts of [inScript st], with the pending callback and the step
    split into their cases. *)
Ltac script_cases st H :=
  let Hp := fresh "Hp" in
  let E := fresh "E" in
  destruct H as [(R & P1 & P2 & D & S0 & A & Hh & F & C & C39 & FR & O) L];
  assert (Hp : pendingTimeouts st = 0%nat \/ pendingTimeouts st = 1%nat) by lia;
  destruct Hp as [Hp | Hp];
  [ | pose proof (P2 Hp) as E; rewrite Hp, E in *; cbn in D ];
  [ enum_step R E; rewrite Hp, E in *; cbn in D, A, Hh, F, C, FR, O | ].

Lemma inScript_initial : inScript initial.
Proof.
  split; [ | intros s []].
  unfold onScript. cbn. repeat split; try lia; try discriminate.
  intros c; destruct c; reflexivity.
Qed.

Lemma no_listeners (st : State) :
  (forall s, In s (dragListeners st) -> disabled st (sliderControl s) = false) ->
  (forall s, disabled st (sliderControl s) = true) ->
  dragListeners st = [].
Proof.
  intros L N. destruct (dragListeners st) as [|s l]; [reflexivity | ].
  specialize (L s (or_introl eq_refl)). rewrite N in L. discriminate L.
Qed.

Lemma inScript_flip (st : State) :
  inScript st -> disabled st flipJCCButton = false -> inScript (flipJCCClick st).
Proof.
  intros H En. unfold flipJCCClick. rewrite En.
  assert (N : dragListeners st = []).
  { apply no_listeners; [apply H | ].
    script_cases st H; rewrite D in En; try discriminate En;
      intros [|]; rewrite D; reflexivity. }
  split.
  - script_cases st H; rewrite D in En; try discriminate En;
      apply onScript_enter; cbn; rewrite ?E, ?F; cbn;
      try assumption; try reflexivity; try lia; try discriminate.
  - destruct (nextStep_browser (updateJCCDisplay (toggleFlip st))) as (-> & _).
    cbn. rewrite N. intros s [].
Qed.

Lemma onScript_update (st st' : State) :
  tutorStep st' = tutorStep st ->
  pendingTimeouts st' = pendingTimeouts st ->
  (forall c, disabled st' c = disabled st c) ->
  currentSphere st' = currentSphere st ->
  agrees (scriptAxis (tutorStep st)) (currentAxis st') ->
  agrees (scriptHandle (tutorStep st)) (jccHandleAngle st') ->
  jccFlipped st' = jccFlipped st ->
  scriptCylinder (tutorStep st) <= currentCylinder st' ->
  (tutorStep st = 39 -> currentCylinder st' = -250) ->
  finalRXDisplay st' = finalRXDisplay st ->
  notificationOnclick st' = notificationOnclick st ->
  onScript st -> onScript st'.
Proof.
  intros E1 E2 E3 E4 A' H' E5 C' C39' E6 E7
         (R & P1 & P2 & D & S0 & A & Hh & F & C & C39 & FR & O).
  unfold onScript. rewrite E1, E2, E4, E5, E6, E7.
  repeat split; try assumption; try lia.
  intros c. rewrite E3. apply D.
Qed.

Lemma agrees_display (o : option Z) (x : Z) :
  (o = Some 180 \/ o = Some 5 \/ o = Some 90 \/ o = Some 50 \/ o = None) ->
  agrees o x -> agrees o (getDisplayAxis x).
Proof. intros [-> | [-> | [-> | [-> | ->]]]]; cbn; intros; subst; reflexivity. Qed.

Lemma scriptAxis_values (n : Z) :
  scriptAxis n = Some 180 \/ scriptAxis n = Some 5 \/ scriptAxis n = Some 90 \/
  scriptAxis n = Some 50 \/ scriptAxis n = None.
Proof.
  unfold scriptAxis. destruct (n <=? 7); [tauto | ]. destruct (n =? 8); tauto.
Qed.

Lemma scriptHandle_values (n : Z) :
  scriptHandle n = Some 180 \/ scriptHandle n = Some 5 \/ scriptHandle n = Some 90 \/
  scriptHandle n = Some 50 \/ scriptHandle n = None.
Proof.
  unfold scriptHandle.
  repeat match goal with |- context [if ?b then _ else _] => destruct b end; tauto.
Qed.

Lemma onScript_commitDrag (s : Slider) (st : State) :
  onScript st -> onScript (commitDrag s st).
Proof.
  intros H. pose proof H as (_ & _ & _ & _ & _ & A & Hh & _ & C & C39 & _).
  revert H. apply onScript_update; destruct s; try reflexivity; try assumption.
  - apply agrees_display; [apply scriptAxis_values | exact A].
  - apply agrees_display; [apply scriptHandle_values | exact Hh].
Qed.

Lemma onScript_upHandler (s : Slider) (st : State) :
  onScript st -> pendingTimeouts st = 0%nat ->
  onScript (upHandler s st) /\ pendingTimeouts (upHandler s st) = 0%nat.
Proof.
  intros H Hp. unfold upHandler.
  pose proof (onScript_commitDrag s st H) as Hc.
  assert (Hp' : pendingTimeouts (commitDrag s st) = 0%nat) by (destruct s; exact Hp).
  set (c := commitDrag s st) in *. clearbody c. clear H Hp.
  destruct (check_cases c) as [-> | [-> K]]; [split; assumption | ].
  destruct (nextStep_browser c) as (_ & _ & _ & B & _).
  destruct Hc as (R & P1 & P2 & D & S0 & A & Hh & F & C & C39 & FR & O).
  destruct K as [[E K] | [[E K] | [[E K] | [E K]]]];
    rewrite E in *; cbn in A, Hh, F, C, FR, O;
    (split; [ | rewrite B, Hp'; reflexivity]);
    apply onScript_enter; rewrite ?E; cbn;
      try assumption; try reflexivity; try lia; try discriminate;
      try (intros _; assumption).
  rewrite K, A. reflexivity.
Qed.

Lemma inScript_mouseDown (s : Slider) (e : Pointer) (st : State) :
  inScript st -> inScript (startDrag s e st).
Proof.
  intros H. unfold startDrag.
  destruct (disabled st (sliderControl s)) eqn:En; [exact H | ].
  split.
  - destruct H as [H _]. pose proof H as (R & P1 & P2 & D & _).
    assert (Hs : match s with
                 | jccAxisSliderDiv => scriptHandle (tutorStep st) = None
                 | lensAxisSliderDiv => scriptAxis (tutorStep st) = None
                 end).
    { rewrite D in En. destruct (pendingTimeouts st) as [|p]; [ | discriminate En].
      enum_step R E; rewrite E in *; destruct s; try discriminate En; reflexivity. }
    pose proof H as (_ & _ & _ & _ & _ & A & Hh & _ & C & C39 & _).
    revert H. apply onScript_update; destruct s; try reflexivity; try assumption;
      rewrite Hs; exact I.
  - destruct H as [_ L]. intros t Ht.
    assert (Ht' : In t (dragListeners st ++ [s])) by (destruct s; exact Ht).
    assert (Dt : forall c, disabled (startDrag s e st) c = disabled st c)
      by (intros c; unfold startDrag; rewrite En; destruct s; reflexivity).
    unfold startDrag in Dt. rewrite En in Dt. rewrite Dt.
    apply in_app_or in Ht'. destruct Ht' as [Ht' | [<- | []]]; [apply L, Ht' | exact En].
Qed.

Lemma inScript_moveHandler (s : Slider) (e : Pointer) (st : State) :
  In s (dragListeners st) -> inScript st -> inScript (moveHandler s e st).
Proof.
  intros I H. pose proof (proj2 H s I) as En.
  assert (K : moveHandler s e st = st \/
              moveHandler s e st =
                match s with
                | jccAxisSliderDiv =>
                    set_jccAngleDisplay (axisText (e s)) (set_jccHandleAngle (e s) st)
                | lensAxisSliderDiv =>
                    set_lensAxisDisplay (axisText (e s)) (set_currentAxis (e s) st)
                end).
  { unfold moveHandler.
    destruct (negb (isDraggingJCC st) && negb (isDraggingLens st));
      [left; reflexivity | right; destruct s; reflexivity]. }
  destruct K as [-> | ->]; [exact H | ].
  split.
  - destruct H as [H _]. pose proof H as (R & P1 & P2 & D & _).
    assert (Hs : match s with
                 | jccAxisSliderDiv => scriptHandle (tutorStep st) = None
                 | lensAxisSliderDiv => scriptAxis (tutorStep st) = None
                 end).
    { rewrite D in En. destruct (pendingTimeouts st) as [|p]; [ | discriminate En].
      enum_step R E; rewrite E in *; destruct s; try discriminate En; reflexivity. }
    pose proof H as (_ & _ & _ & _ & _ & A & Hh & _ & C & C39 & _).
    revert H. apply onScript_update; destruct s; try reflexivity; try assumption;
      rewrite Hs; exact Logic.I.
  - destruct H as [_ L]. destruct s; exact L.
Qed.

Lemma inScript_button (ev : Event) (st : State) :
  match ev with
  | IncreasePower | DecreasePower | ConfirmAxis | ConfirmPower
  | StartTutorial | NotificationOk | TimerFires => True
  | _ => False
  end ->
  inScript st -> delivered ev st = true -> inScript (handle ev st).
Proof.
  intros Hev H En.
  assert (N : match ev with TimerFires => pendingTimeouts st = 1%nat | _ => True end ->
              dragListeners st = []).
  { intros Ht. apply no_listeners; [apply H | ].
    destruct ev; try contradiction; cbn in En; try apply negb_true_iff in En;
      script_cases st H; rewrite ?D in En; try discriminate En; try discriminate Ht;
      intros [|]; rewrite D; reflexivity. }
  destruct ev; try contradiction; cbn in En; try apply negb_true_iff in En;
    cbn [handle].
  - (* increase-power *)
    specialize (N I). unfold increasePowerClick.
    set (st1 := updateLensDisplay (set_currentCylinder (currentCylinder st - 25) st)).
    change (tutorStep st1) with (tutorStep st).
    split.
    + script_cases st H; rewrite D in En; try discriminate En; cbn [Z.eqb Pos.eqb orb];
        apply onScript_enter; subst st1; cbn; rewrite ?E; cbn;
        try assumption; try reflexivity; try lia; try discriminate;
        try (intros _; assumption).
    + assert (L1 : dragListeners st1 = []) by exact N.
      destruct ((tutorStep st =? 24) || (tutorStep st =? 31));
        [destruct (nextStep_browser st1) as (-> & _) | ]; rewrite L1; intros s [].
  - (* decrease-power *)
    specialize (N I). unfold decreasePowerClick. split; [ | cbn; rewrite N; intros s []].
    destruct H as [H _]. pose proof H as (_ & _ & _ & _ & _ & A & Hh & _ & C & C39 & _).
    assert (E : tutorStep st = 24 \/ tutorStep st = 31).
    { destruct H as (R & P1 & P2 & D & _).
      rewrite D in En. destruct (pendingTimeouts st); [ | discriminate En].
      enum_step R E; rewrite E in En; try discriminate En; lia. }
    revert H. apply onScript_update; try reflexivity; try assumption; cbn; lia.
  - (* confirm-axis *)
    specialize (N I). unfold confirmAxisClick.
    destruct ((tutorStep st =? 16) && (currentAxis st =? 5)); [ | exact H].
    split; [ | destruct (nextStep_browser st) as (-> & _); rewrite N; intros s []].
    script_cases st H; rewrite D in En; try discriminate En;
      apply onScript_enter; rewrite ?E; cbn;
      try assumption; try reflexivity; try lia; try discriminate;
      try (intros _; assumption).
  - (* confirm-power *)
    specialize (N I). unfold confirmPowerClick.
    destruct (Z.eqb_spec (tutorStep st) 38) as [E38 | ]; [ | exact H].
    destruct (Z.eqb_spec (currentCylinder st) (-250)) as [Ec | ]; [ | exact H].
    cbn [andb].
    split; [ | destruct (nextStep_browser st) as (-> & _); rewrite N; intros s []].
    script_cases st H; try discriminate E38;
      apply onScript_enter; rewrite ?E; cbn;
      try assumption; try reflexivity; try lia; try discriminate;
      try (intros _; assumption).
  - (* start *)
    specialize (N I). unfold startTutorialClick.
    split; [ | destruct (nextStep_browser (setDisabled startTutorialButton true st))
                 as (-> & _); cbn; rewrite N; intros s []].
    script_cases st H; rewrite D in En; try discriminate En;
      apply onScript_enter; cbn; rewrite ?E; cbn;
      try assumption; try reflexivity; try lia; try discriminate;
      try (intros _; assumption).
  - (* acknowledge *)
    specialize (N I). unfold notificationOkClick.
    destruct (notificationOnclick st) eqn:On; [ | exact H].
    split; [ | destruct (nextStep_browser (set_notificationOnclick false st))
                 as (-> & _); cbn; rewrite N; intros s []].
    script_cases st H; rewrite D in En; try discriminate En;
      apply onScript_enter; cbn; rewrite ?E; cbn;
      try assumption; try reflexivity; try lia; try discriminate;
      try (intros _; assumption).
  - (* the delayed callback *)
    unfold timeoutFires. destruct (pendingTimeouts st) as [|p] eqn:Ep; [exact H | ].
    assert (Ep1 : p = 0%nat).
    { destruct H as [(_ & P1 & _) _]. rewrite Ep in P1. lia. }
    subst p. specialize (N eq_refl).
    split; [ | cbn; rewrite N; intros s []].
    destruct H as [(R & P1 & P2 & D & S0 & A & Hh & F & C & C39 & FR & O) _].
    pose proof (P2 Ep) as E. rewrite Ep in D.
    unfold onScript. cbn. rewrite E in *. cbn in *.
    repeat split; try assumption; try lia.
    intros c. rewrite D. destruct c; reflexivity.
Qed.

Lemma inScript_handle (ev : Event) (st : State) :
  inScript st -> delivered ev st = true -> inScript (handle ev st).
Proof.
  intros H En.
  destruct ev as [s e|e| | | | | | | | | ];
    try (apply inScript_button; [exact I | exact H | exact En]).
  - apply inScript_mouseDown, H.
  - apply mouseMove_keeps; [ | exact H]. intros s st'. apply inScript_moveHandler.
  - destruct (dragListeners st) as [|s l] eqn:El.
    + cbn [handle]. rewrite El. exact H.
    + assert (Hp : pendingTimeouts st = 0%nat).
      { destruct H as [(_ & _ & _ & D & _) L].
        specialize (L s). rewrite El, D in L. specialize (L (or_introl eq_refl)).
        destruct (pendingTimeouts st); [reflexivity | discriminate L]. }
      destruct (mouseUp_keeps (fun st' => onScript st' /\ pendingTimeouts st' = 0%nat) st)
        as [[K _] E].
      * intros s' l' st' _ [K1 K2]. apply onScript_upHandler; assumption.
      * split; [apply H | exact Hp].
      * split; [exact K | rewrite E; intros t []].
  - apply inScript_flip; [exact H | ]. cbn in En. apply negb_true_iff, En.
Qed.

Lemma inSession_inScript (st : State) : inSession st -> inScript st.
Proof.
  intros S. induction S as [|ev st S IH En];
    [exact inScript_initial | apply inScript_handle; assumption].
Qed.

Lemma runDelivered_inSession (evs : list Event) (st st' : State) :
  inSession st -> runDelivered evs st = Some st' -> inSession st'.
Proof.
  revert st. induction evs as [|ev evs IH]; intros st S R; cbn in R.
  - injection R as <-. exact S.
  - destruct (delivered ev st) eqn:En; [ | discriminate R].
    apply (IH (handle ev st)); [apply inSession_handle; assumption | exact R].
Qed.

Lemma memControl_In (c : Control) (l : list Control) : memControl c l = true <-> In c l.
Proof.
  unfold memControl. rewrite existsb_exists. split.
  - intros (d & I & E). destruct c, d; try discriminate E; exact I.
  - intros I. exists c. split; [exact I | destruct c; reflexivity].
Qed.

(** X12: in a browser session the enabled controls are among those of the
    current step, and they are all of them once no delayed callback is
    pending; a callback is pending only in step 1, with everything
    disabled. *)
Theorem session_controls_follow_step (st : State) :
  inSession st ->
  (forall c, disabled st c = false -> In c (stepControls (tutorStep st))) /\
  (pendingTimeouts st = 0%nat ->
   forall c, In c (stepControls (tutorStep st)) -> disabled st c = false) /\
  (pendingTimeouts st <> 0%nat -> tutorStep st = 1 /\ forall c, disabled st c = true).
Proof.
  intros S. destruct (inSession_inScript st S) as [(R & P1 & P2 & D & _) _].
  split; [ | split].
  - intros c Hc. rewrite D in Hc. apply negb_false_iff, andb_true_iff in Hc.
    apply memControl_In, Hc.
  - intros Hp c Hc. rewrite D, Hp. apply memControl_In in Hc. rewrite Hc. reflexivity.
  - intros Hp. assert (E : pendingTimeouts st = 1%nat) by lia.
    split; [exact (P2 E) | intros c; rewrite D, E; reflexivity].
Qed.

(** X13: a browser session never leaves the steps 0 to 39: the [default] case of
    [nextStep] is not reached, and in step 39 every control is disabled. *)
Theorem session_stays_in_script (st : State) :
  inSession st ->
  0 <= tutorStep st <= 39 /\
  (tutorStep st = 39 -> forall c, disabled st c = true).
Proof.
  intros S. destruct (inSession_inScript st S) as [(R & P1 & P2 & D & _) _].
  split; [exact R | ]. intros E c. rewrite D, E. cbn. rewrite andb_false_r. reflexivity.
Qed.

(** X14: in a browser session the final prescription is written exactly in step
    39, and it is then always 0.00 DS / -2.50 DC x 5 degrees, with the
    cylinder at -2.50 and the lens axis at 5. *)
Theorem session_final_prescription (st : State) :
  inSession st ->
  (tutorStep st < 39 -> finalRXDisplay st = None) /\
  (tutorStep st = 39 ->
   finalRXDisplay st = Some "0.00 DS / -2.50 DC x 5°" /\
   currentCylinder st = -250 /\ currentAxis st = 5 /\ currentSphere st = 0).
Proof.
  intros S.
  destruct (inSession_inScript st S)
    as [(R & P1 & P2 & D & S0 & A & Hh & F & C & C39 & FR & O) _].
  split.
  - intros Hlt. rewrite FR. destruct (Z.eqb_spec (tutorStep st) 39); [lia | reflexivity].
  - intros E. rewrite E in *. cbn in A, FR. auto.
Qed.

(** X15: in a browser session the lens axis, the handle angle and the flip flag
    are the script's wherever the step does not leave them to the learner:
    the lens axis is 180 up to step 7 and 5 from step 9 on; the handle is at
    90 in step 0, 180 in steps 2 to 8, 5 in steps 10 to 16 and 50 from step
    18 on; the flip flag is the one of [scriptFlipped]. *)
Theorem session_values_follow_script (st : State) :
  inSession st ->
  (tutorStep st <= 7 -> currentAxis st = 180) /\
  (9 <= tutorStep st -> currentAxis st = 5) /\
  (tutorStep st = 0 -> jccHandleAngle st = 90) /\
  (2 <= tutorStep st <= 8 -> jccHandleAngle st = 180) /\
  (10 <= tutorStep st <= 16 -> jccHandleAngle st = 5) /\
  (18 <= tutorStep st -> jccHandleAngle st = 50) /\
  jccFlipped st = scriptFlipped (tutorStep st).
Proof.
  intros S.
  destruct (inSession_inScript st S)
    as [(R & P1 & P2 & D & S0 & A & Hh & F & C & C39 & FR & O) _].
  unfold scriptAxis, scriptHandle, agrees in A, Hh.
  repeat split; try exact F; intros Hn;
    repeat match goal with
           | H : context [if ?x <=? ?y then _ else _] |- _ => destruct (Z.leb_spec x y)
           | H : context [if ?x =? ?y then _ else _] |- _ => destruct (Z.eqb_spec x y)
           end; try lia; assumption.
Qed.

Lemma session_inSession : inSession (run session initial).
Proof.
  apply (runDelivered_inSession session initial); [apply inSession_initial | ].
  vm_compute. reflexivity.
Qed.

Lemma session_controls_follow_step_witness :
  inSession (run session initial) /\
  (forall c, disabled (run session initial) c = false ->
             In c (stepControls (tutorStep (run session initial)))).
Proof.
  split; [exact session_inSession | ].
  exact (proj1 (session_controls_follow_step (run session initial) session_inSession)).
Defined.

Lemma session_stays_in_script_witness :
  inSession (run session initial) /\ 0 <= tutorStep (run session initial) <= 39.
Proof.
  split; [exact session_inSession | ].
  exact (proj1 (session_stays_in_script (run session initial) session_inSession)).
Defined.

Lemma session_final_prescription_witness :
  inSession (run session initial) /\ tutorStep (run session initial) = 39 /\
  finalRXDisplay (run session initial) = Some "0.00 DS / -2.50 DC x 5°".
Proof.
  split; [exact session_inSession | split; [reflexivity | ]].
  exact (proj1 (proj2 (session_final_prescription (run session initial) session_inSession)
                  eq_refl)).
Defined.

Lemma session_values_follow_script_witness :
  inSession (run session initial) /\
  jccFlipped (run session initial) = scriptFlipped (tutorStep (run session initial)).
Proof.
  split; [exact session_inSession | ].
  apply (session_values_follow_script (run session initial) session_inSession).
Defined.

(** ** The decrease-power button *)

Lemma scriptCylinder_antitone (n m : Z) :
  n <= m -> scriptCylinder m <= scriptCylinder n.
Proof.
  unfold scriptCylinder. intros H.
  destruct (Z.leb_spec n 24), (Z.leb_spec m 24), (Z.leb_spec n 31), (Z.leb_spec m 31);
    lia.
Qed.

Lemma handle_currentCylinder (ev : Event) (st : State) :
  currentCylinder (handle ev st) =
    match ev with
    | IncreasePower => currentCylinder st - 25
    | DecreasePower => currentCylinder st + 25
    | _ => currentCylinder st
    end.
Proof.
  pose proof (fun st => proj1 (proj2 (nextStep_values st))) as N.
  destruct ev as [s e|e| | | | | | | | | ]; cbn [handle].
  - unfold startDrag. destruct (disabled st (sliderControl s)), s; reflexivity.
  - apply (mouseMove_keeps (fun st' => currentCylinder st' = currentCylinder st));
      [ | reflexivity].
    intros s st' _ H. rewrite <- H. apply moveHandler_frame.
  - apply (mouseUp_keeps (fun st' => currentCylinder st' = currentCylinder st));
      [ | reflexivity].
    intros s l st' _ H. rewrite <- H. unfold upHandler.
    destruct (check_values (commitDrag s st')) as (_ & -> & _).
    apply commitDrag_values.
  - unfold flipJCCClick. destruct (disabled st flipJCCButton); rewrite ?N; reflexivity.
  - unfold increasePowerClick.
    match goal with |- context [if ?b then _ else _] => destruct b end;
      rewrite ?N; reflexivity.
  - reflexivity.
  - unfold confirmAxisClick.
    match goal with |- context [if ?b then _ else _] => destruct b end;
      rewrite ?N; reflexivity.
  - unfold confirmPowerClick.
    match goal with |- context [if ?b then _ else _] => destruct b end;
      rewrite ?N; reflexivity.
  - unfold startTutorialClick. rewrite N. reflexivity.
  - unfold notificationOkClick. destruct (notificationOnclick st); rewrite ?N; reflexivity.
  - unfold timeoutFires. destruct (pendingTimeouts st); reflexivity.
Qed.

Lemma powerSlack_handle (ev : Event) (st : State) :
  inScript st -> delivered ev st = true ->
  powerSlack st <= powerSlack (handle ev st) /\
  (ev = DecreasePower -> powerSlack st + 25 <= powerSlack (handle ev st)).
Proof.
  intros H En. unfold powerSlack. rewrite handle_currentCylinder.
  pose proof (scriptCylinder_antitone _ _ (handle_tutorStep_le ev st)) as M.
  destruct ev; try (split; [lia | discriminate]).
  - (* increase-power: delivered in steps 24 and 31 only *)
    split; [ | discriminate]. cbn in En. apply negb_true_iff in En.
    cbn [handle]. rewrite increasePowerClick_tutorStep.
    script_cases st H; rewrite D in En; try discriminate En; cbn; lia.
  - (* decrease-power keeps the step *)
    split; [ | intros _]; cbn; lia.
Qed.

(** X16: in a browser session, once the decrease-power button has been clicked
    the tutorial cannot be completed: whatever events follow, step 39 is
    not reached. *)
Theorem decrease_blocks_completion (st st' : State) (evs : list Event) :
  inSession st ->
  delivered DecreasePower st = true ->
  runDelivered evs (handle DecreasePower st) = Some st' ->
  tutorStep st' < 39.
Proof.
  intros S En Rn.
  assert (G : forall evs st, inSession st -> 0 < powerSlack st ->
                runDelivered evs st = Some st' -> 0 < powerSlack st' /\ inSession st').
  { clear. induction evs as [|ev evs IH]; intros st S P R; cbn in R.
    - injection R as <-. split; assumption.
    - destruct (delivered ev st) eqn:En; [ | discriminate R].
      apply (IH (handle ev st)); [apply inSession_handle; assumption | | exact R].
      pose proof (powerSlack_handle ev st (inSession_inScript st S) En). lia. }
  destruct (G evs (handle DecreasePower st)) as [P S'].
  - apply inSession_handle; assumption.
  - pose proof (powerSlack_handle DecreasePower st (inSession_inScript st S) En)
      as [_ P].
    specialize (P eq_refl).
    destruct (inSession_inScript st S) as [(_ & _ & _ & _ & _ & _ & _ & _ & C & _) _].
    unfold powerSlack in *. lia.
  - exact Rn.
  - destruct (inSession_inScript st' S')
      as [(R & _ & _ & _ & _ & _ & _ & _ & _ & C39 & _) _].
    unfold powerSlack in P.
    assert (tutorStep st' <> 39); [ | lia].
    intros E. rewrite (C39 E), E in P. cbn in P. lia.
Qed.

Lemma axisPhase_inSession : inSession (run axisPhase initial).
Proof.
  apply (runDelivered_inSession axisPhase initial); [apply inSession_initial | ].
  vm_compute. reflexivity.
Qed.

Lemma decrease_blocks_completion_witness :
  inSession (run axisPhase initial) /\
  delivered DecreasePower (run axisPhase initial) = true /\
  runDelivered powerPhase (handle DecreasePower (run axisPhase initial))
    = Some (run powerPhase (handle DecreasePower (run axisPhase initial))) /\
  tutorStep (run powerPhase (handle DecreasePower (run axisPhase initial))) < 39.
Proof.
  assert (R : runDelivered powerPhase (handle DecreasePower (run axisPhase initial))
              = Some (run powerPhase (handle DecreasePower (run axisPhase initial))))
    by (vm_compute; reflexivity).
  split; [exact axisPhase_inSession | split; [reflexivity | split; [exact R | ]]].
  exact (decrease_blocks_completion _ _ powerPhase axisPhase_inSession eq_refl R).
Defined.

(** ** What the texts say *)

(** X17: in a browser session, when a release in step 17 advances, the
    instruction of step 18 announces the red line at 95 degrees, although
    the lens axis is 5 and the red line, once step 18 has reset the flip,
    lies at 5: the text is built while the JCC is still flipped. *)
Theorem step18_instruction_is_off (st : State) (s : Slider) :
  inSession st -> tutorStep st = 17 -> tutorStep (upHandler s st) = 18 ->
  upHandler s st = nextStep (commitDrag s st) /\
  nextStepInstruction (commitDrag s st) =
    Some "JCC's red line is now aligned with the lens axis at 95°. Click 'Flip JCC' to show Position 1 for power comparison." /\
  getDisplayAxis (currentAxis (upHandler s st)) = 5 /\
  getJCCRedLineAxis (upHandler s st) = 5.
Proof.
  intros S E17 E18.
  destruct (inSession_inScript st S)
    as [(R & P1 & P2 & D & S0 & A & Hh & F & C & C39 & FR & O) _].
  rewrite E17 in A, F. cbn in A, F.
  set (c := commitDrag s st).
  assert (Ec : tutorStep c = 17 /\ currentAxis c = 5 /\ jccFlipped c = true).
  { subst c. rewrite commitDrag_tutorStep.
    destruct s; cbn; rewrite ?A; repeat split; assumption. }
  destruct Ec as (Tc & Ac & Fc).
  assert (K : upHandler s st = nextStep c /\ jccHandleAngle c = 50).
  { unfold upHandler in *. fold c in E18 |- *.
    destruct (check_cases c) as [Q | [Q K]].
    - rewrite Q, Tc in E18. discriminate E18.
    - split; [exact Q | ]. rewrite Tc, Ac in K.
      destruct K as [[K _] | [[K _] | [[K _] | [_ K]]]]; try discriminate K. exact K. }
  destruct K as [-> Hc].
  destruct (nextStep_values c) as (_ & _ & Va & Vh).
  split; [reflexivity | split; [ | split]].
  - unfold nextStepInstruction, getJCCRedLineAxis. rewrite Tc, Fc, Hc. reflexivity.
  - rewrite Va, Ac. reflexivity.
  - unfold getJCCRedLineAxis. rewrite nextStep_jccFlipped, Vh, Tc, Hc. reflexivity.
Qed.

Lemma pressInStep17_inSession : inSession (run pressInStep17 initial).
Proof.
  apply (runDelivered_inSession pressInStep17 initial); [apply inSession_initial | ].
  vm_compute. reflexivity.
Qed.

Lemma step18_instruction_is_off_witness :
  inSession (run pressInStep17 initial) /\
  tutorStep (run pressInStep17 initial) = 17 /\
  tutorStep (upHandler jccAxisSliderDiv (run pressInStep17 initial)) = 18 /\
  getJCCRedLineAxis (upHandler jccAxisSliderDiv (run pressInStep17 initial)) = 5.
Proof.
  split; [exact pressInStep17_inSession | split; [reflexivity | split; [reflexivity | ]]].
  exact (proj2 (proj2 (proj2 (step18_instruction_is_off (run pressInStep17 initial)
                                jccAxisSliderDiv pressInStep17_inSession
                                eq_refl eq_refl)))).
Defined.

(** X18: in a browser session every notification of the power phase quotes one
    and the same angle, 5 degrees, for the red and for the green line,
    although the two lines are 90 degrees apart. *)
Theorem power_notifications_repeat_axis (st : State) :
  inSession st -> 18 <= tutorStep st -> delivered FlipJCC st = true ->
  let st1 := updateJCCDisplay (toggleFlip st) in
  flipJCCClick st = nextStep st1 /\
  (exists tail,
     nextStepNotification st1 =
       Some ("Position 2 (red line along 5°, green line at 5°): " ++ tail)%string \/
     nextStepNotification st1 =
       Some ("Position 1 (green line along 5°, red line at 5°): " ++ tail)%string) /\
  getJCCRedLineAxis st1 <> getJCCGreenLineAxis st1.
Proof.
  intros S Hn En. cbv zeta. cbn in En. apply negb_true_iff in En.
  split; [unfold flipJCCClick; rewrite En; reflexivity | ].
  pose proof (inSession_inScript st S) as H.
  split.
  - unfold nextStepNotification, getJCCGreenLineAxis, getJCCRedLineAxis.
    cbn [tutorStep currentAxis jccHandleAngle jccFlipped updateJCCDisplay toggleFlip
           set_jccFlipped set_jccPositionDisplay set_jccAngleDisplay].
    script_cases st H; try lia; rewrite D in En; try discriminate En;
      rewrite A, Hh, F; eexists; cbv; first [left; reflexivity | right; reflexivity].
  - intros Q. pose proof (lines_perpendicular (updateJCCDisplay (toggleFlip st))) as P.
    rewrite Q, Z.sub_diag in P. discriminate P.
Qed.

Lemma firstPowerClick_inSession : inSession (run (axisPhase ++ [IncreasePower]) initial).
Proof.
  apply (runDelivered_inSession (axisPhase ++ [IncreasePower]) initial);
    [apply inSession_initial | ].
  vm_compute. reflexivity.
Qed.

Lemma power_notifications_repeat_axis_witness :
  inSession (run (axisPhase ++ [IncreasePower]) initial) /\
  18 <= tutorStep (run (axisPhase ++ [IncreasePower]) initial) /\
  delivered FlipJCC (run (axisPhase ++ [IncreasePower]) initial) = true /\
  flipJCCClick (run (axisPhase ++ [IncreasePower]) initial) =
    nextStep (updateJCCDisplay (toggleFlip (run (axisPhase ++ [IncreasePower]) initial))).
Proof.
  assert (N : 18 <= tutorStep (run (axisPhase ++ [IncreasePower]) initial))
    by (vm_compute; discriminate).
  split; [exact firstPowerClick_inSession | split; [exact N | split; [reflexivity | ]]].
  exact (proj1 (power_notifications_repeat_axis
                  (run (axisPhase ++ [IncreasePower]) initial)
                  firstPowerClick_inSession N eq_refl)).
Defined.

(** ** The tutorial can be completed *)

Lemma runDelivered_app (l1 l2 : list Event) (st st1 : State) :
  runDelivered l1 st = Some st1 ->
  runDelivered (l1 ++ l2) st = runDelivered l2 st1.
Proof.
  revert st. induction l1 as [|ev l1 IH]; intros st R; cbn in R |- *.
  - injection R as <-. reflexivity.
  - destruct (delivered ev st); [apply IH, R | discriminate R].
Qed.

Lemma upHandler_tutorStep_cap (s : Slider) (st : State) :
  tutorStep st <= 18 -> tutorStep (upHandler s st) <= 18.
Proof.
  intros H. unfold upHandler.
  pose proof (check_tutorStep (commitDrag s st)) as [T1 T2]. cbv zeta in T1, T2.
  rewrite commitDrag_tutorStep in T1, T2.
  destruct T1 as [-> | T1]; [exact H | ]. pose proof (proj1 T2 T1). lia.
Qed.

Lemma upHandler_pending (s : Slider) (st : State) :
  1 <= tutorStep st -> pendingTimeouts (upHandler s st) = pendingTimeouts st.
Proof.
  intros H. unfold upHandler.
  assert (C : pendingTimeouts (commitDrag s st) = pendingTimeouts st)
    by (destruct s; reflexivity).
  destruct (check_cases (commitDrag s st)) as [-> | [-> _]]; [exact C | ].
  destruct (nextStep_browser (commitDrag s st)) as (_ & _ & _ & -> & _).
  rewrite commitDrag_tutorStep.
  destruct (Z.eqb_spec (tutorStep st + 1) 1); [lia | exact C].
Qed.

(** A slider step: the slider it enables and the angle it waits for. *)
Lemma slider_progress (st : State) (s : Slider) (target : Z) :
  inSession st -> powerSlack st = 0 ->
  (tutorStep st = 1 /\ s = jccAxisSliderDiv /\ target = 180) \/
  (tutorStep st = 8 /\ s = lensAxisSliderDiv /\ target = 5) \/
  (tutorStep st = 9 /\ s = jccAxisSliderDiv /\ target = 5) \/
  (tutorStep st = 17 /\ s = jccAxisSliderDiv /\ target = 50) ->
  exists evs st',
    runDelivered evs st = Some st' /\ tutorStep st < tutorStep st' /\ powerSlack st' = 0.
Proof.
  intros S P0 Hn.
  set (st1 := handle TimerFires st). set (st2 := handle MouseUp st1).
  assert (S2 : inSession st2)
    by (apply inSession_handle; [apply inSession_handle; [exact S | ] | ]; reflexivity).
  assert (R2 : runDelivered [TimerFires; MouseUp] st = Some st2) by reflexivity.
  assert (N : 1 <= tutorStep st <= 17) by lia.
  assert (F1 : tutorStep st1 = tutorStep st /\ pendingTimeouts st1 = 0%nat /\
               currentCylinder st1 = currentCylinder st).
  { destruct (inSession_inScript st S) as [(_ & P1 & _) _].
    subst st1. cbn [handle]. unfold timeoutFires.
    destruct (pendingTimeouts st) as [|[|p]] eqn:Ep; try lia; repeat split; assumption. }
  destruct F1 as (T1 & Q1 & C1).
  assert (F2 : tutorStep st <= tutorStep st2 <= 18 /\ pendingTimeouts st2 = 0%nat).
  { pose proof (handle_tutorStep_le MouseUp st1) as Le. fold st2 in Le.
    destruct (mouseUp_keeps (fun x => (1 <= tutorStep x <= 18) /\
                                      pendingTimeouts x = 0%nat) st1) as [[K1 K2] _].
    - intros s' l x _ [[K1 K1'] K2].
      pose proof (upHandler_tutorStep_cap s' x K1').
      pose proof (upHandler_pending s' x K1).
      pose proof (release_parts s' x) as (_ & _ & K3).
      split; [lia | congruence].
    - split; [lia | exact Q1].
    - fold st2 in K1, K2. split; [lia | exact K2]. }
  destruct F2 as (T2 & Q2).
  assert (C2 : currentCylinder st2 = currentCylinder st).
  { subst st2. rewrite handle_currentCylinder. exact C1. }
  assert (Sl : forall x, tutorStep x <= 18 -> currentCylinder x = currentCylinder st ->
                         powerSlack x = 0).
  { intros x Hx Cx. unfold powerSlack, scriptCylinder in *.
    destruct (Z.leb_spec (tutorStep x) 24); [ | lia].
    destruct (Z.leb_spec (tutorStep st) 24); lia. }
  destruct (Z.eq_dec (tutorStep st2) (tutorStep st)) as [E2 | Ne].
  2: { exists [TimerFires; MouseUp], st2. split; [exact R2 | split; [lia | ]].
       apply Sl; [lia | exact C2]. }
  (* still in the step: press the slider on the target and release *)
  destruct (mouseUp_keeps (fun _ => True) st1 (fun _ _ _ _ _ => I) I) as [_ L2].
  fold st2 in L2.
  destruct (inSession_inScript st2 S2)
    as [(R & P1 & P2 & D & S0 & A & Hh & F & C & C39 & FR & O) _].
  assert (En : disabled st2 (sliderControl s) = false).
  { rewrite D, Q2, E2.
    destruct Hn as [(-> & -> & _) | [(-> & -> & _) | [(-> & -> & _) | (-> & -> & _)]]];
      reflexivity. }
  clearbody st2. clear st1 T1 Q1 C1.
  remember (handle (MouseDown s (pointerAt target)) st2) as st3 eqn:E3.
  assert (F3 : dragListeners st3 = [s] /\ tutorStep st3 = tutorStep st /\
               currentCylinder st3 = currentCylinder st /\
               sliderValue s st3 = getDisplayAxis target /\
               currentAxis st3 = (match s with
                                  | jccAxisSliderDiv => currentAxis st2
                                  | lensAxisSliderDiv => getDisplayAxis target
                                  end)).
  { rewrite E3. cbn [handle]. unfold startDrag. rewrite En.
    destruct s; cbn; rewrite L2; repeat split; assumption. }
  destruct F3 as (L3 & T3 & C3 & V3 & A3).
  remember (handle MouseUp st3) as st4 eqn:E4.
  assert (U : st4 = upHandler s st3).
  { rewrite E4. cbn [handle]. rewrite L3. reflexivity. }
  exists ([TimerFires; MouseUp] ++ [MouseDown s (pointerAt target); MouseUp]), st4.
  split; [rewrite (runDelivered_app _ _ _ _ R2); cbn [runDelivered delivered];
          rewrite <- E3, <- E4; reflexivity | ].
  assert (T4 : tutorStep st4 = tutorStep st + 1).
  { rewrite U. unfold upHandler.
    pose proof (check_tutorStep (commitDrag s st3)) as [_ T]. cbv zeta in T.
    rewrite commitDrag_tutorStep, T3 in T. apply T.
    destruct (commitDrag_values s st3) as (V & Vo & _). rewrite V3 in V.
    rewrite E2 in A.
    destruct Hn as [(E & -> & ->) | [(E & -> & ->) | [(E & -> & ->) | (E & -> & ->)]]];
      rewrite E in *; cbn [sliderValue otherSlider] in V, Vo; cbn in A;
      cbn [sliderValue] in A3.
    - left. split; [reflexivity | exact V].
    - right; left. split; [reflexivity | exact V].
    - right; right; left. split; [reflexivity | exact V].
    - right; right; right. split; [reflexivity | ].
      rewrite V, Vo, A3, A. reflexivity. }
  split; [lia | ].
  apply Sl; [lia | ]. rewrite U.
  pose proof (handle_currentCylinder MouseUp st3) as Hc. cbn [handle] in Hc.
  rewrite L3 in Hc. cbn [fold_left] in Hc. rewrite Hc. exact C3.
Qed.

Lemma button_advances (st : State) :
  (disabled st flipJCCButton = false ->
   tutorStep (handle FlipJCC st) = tutorStep st + 1) /\
  tutorStep (handle StartTutorial st) = tutorStep st + 1 /\
  (notificationOnclick st = true ->
   tutorStep (handle NotificationOk st) = tutorStep st + 1) /\
  (tutorStep st = 16 -> currentAxis st = 5 ->
   tutorStep (handle ConfirmAxis st) = tutorStep st + 1) /\
  (tutorStep st = 38 -> currentCylinder st = -250 ->
   tutorStep (handle ConfirmPower st) = tutorStep st + 1) /\
  (tutorStep st = 24 \/ tutorStep st = 31 ->
   tutorStep (handle IncreasePower st) = tutorStep st + 1).
Proof.
  cbn [handle].
  unfold flipJCCClick, startTutorialClick, notificationOkClick, confirmAxisClick,
    confirmPowerClick.
  rewrite increasePowerClick_tutorStep.
  repeat split.
  - intros ->. rewrite nextStep_tutorStep. reflexivity.
  - rewrite nextStep_tutorStep. reflexivity.
  - intros ->. rewrite nextStep_tutorStep. reflexivity.
  - intros E ->. rewrite E. cbn. rewrite nextStep_tutorStep, E. reflexivity.
  - intros E ->. rewrite E. cbn. rewrite nextStep_tutorStep, E. reflexivity.
  - intros [-> | ->]; reflexivity.
Qed.

Lemma button_progress (st : State) :
  inSession st -> powerSlack st = 0 -> tutorStep st < 39 ->
  tutorStep st <> 1 -> tutorStep st <> 8 -> tutorStep st <> 9 -> tutorStep st <> 17 ->
  exists ev,
    delivered ev st = true /\
    tutorStep (handle ev st) = tutorStep st + 1 /\
    powerSlack (handle ev st) = 0.
Proof.
  intros S P0 N39 N1 N8 N9 N17.
  pose proof (inSession_inScript st S) as H.
  destruct (button_advances st) as (B1 & B2 & B3 & B4 & B5 & B6).
  unfold powerSlack in *.
  assert (G : forall ev, delivered ev st = true ->
                tutorStep (handle ev st) = tutorStep st + 1 ->
                currentCylinder (handle ev st) - scriptCylinder (tutorStep st + 1) = 0 ->
                exists ev,
                  delivered ev st = true /\
                  tutorStep (handle ev st) = tutorStep st + 1 /\
                  currentCylinder (handle ev st)
                    - scriptCylinder (tutorStep (handle ev st)) = 0).
  { intros ev G1 G2 G3. exists ev. rewrite G2. auto. }
  script_cases st H; try lia; cbn in P0;
    first
      [ apply (G StartTutorial);
        [cbn; rewrite D; reflexivity | exact B2
        | rewrite handle_currentCylinder; cbn; lia]
      | apply (G FlipJCC);
        [cbn; rewrite D; reflexivity | apply B1; rewrite D; reflexivity
        | rewrite handle_currentCylinder; cbn; lia]
      | apply (G NotificationOk);
        [cbn; rewrite D; reflexivity | apply B3; exact O
        | rewrite handle_currentCylinder; cbn; lia]
      | apply (G ConfirmAxis);
        [cbn; rewrite D; reflexivity | apply B4; [reflexivity | exact A]
        | rewrite handle_currentCylinder; cbn; lia]
      | apply (G ConfirmPower);
        [cbn; rewrite D; reflexivity | apply B5; [reflexivity | lia]
        | rewrite handle_currentCylinder; cbn; lia]
      | apply (G IncreasePower);
        [cbn; rewrite D; reflexivity | apply B6; lia
        | rewrite handle_currentCylinder; cbn; lia] ].
Qed.

Lemma session_progress (st : State) :
  inSession st -> powerSlack st = 0 -> tutorStep st < 39 ->
  exists evs st',
    runDelivered evs st = Some st' /\ tutorStep st < tutorStep st' /\ powerSlack st' = 0.
Proof.
  intros S P0 N.
  destruct (Z.eq_dec (tutorStep st) 1) as [E1 | N1];
    [apply (slider_progress st jccAxisSliderDiv 180); tauto | ].
  destruct (Z.eq_dec (tutorStep st) 8) as [E8 | N8];
    [apply (slider_progress st lensAxisSliderDiv 5); tauto | ].
  destruct (Z.eq_dec (tutorStep st) 9) as [E9 | N9];
    [apply (slider_progress st jccAxisSliderDiv 5); tauto | ].
  destruct (Z.eq_dec (tutorStep st) 17) as [E17 | N17];
    [apply (slider_progress st jccAxisSliderDiv 50); tauto | ].
  destruct (button_progress st S P0 N N1 N8 N9 N17) as (ev & En & T & P).
  exists [ev], (handle ev st). cbn. rewrite En. repeat split; [lia | exact P].
Qed.

(** X19: in a browser session in which the decrease-power button has not been
    clicked (the cylinder is the script's), the tutorial can always be
    completed: from every such state some sequence of delivered events
    reaches step 39. *)
Theorem session_can_complete (st : State) :
  inSession st -> powerSlack st = 0 ->
  exists evs st', runDelivered evs st = Some st' /\ tutorStep st' = 39.
Proof.
  remember (Z.to_nat (39 - tutorStep st)) as k eqn:Ek. revert st Ek.
  induction k as [k IH] using lt_wf_ind. intros st Ek S P0.
  destruct (inSession_inScript st S) as [(R & _) _].
  destruct (Z.eq_dec (tutorStep st) 39) as [E | N].
  - exists [], st. split; [reflexivity | exact E].
  - destruct (session_progress st S P0) as (evs1 & st1 & R1 & T1 & P1); [lia | ].
    pose proof (runDelivered_inSession evs1 st st1 S R1) as S1.
    destruct (inSession_inScript st1 S1) as [(R' & _) _].
    destruct (IH (Z.to_nat (39 - tutorStep st1))) with (st := st1)
      as (evs2 & st' & R2 & T2); try reflexivity; try assumption; [lia | ].
    exists (evs1 ++ evs2), st'. split; [ | exact T2].
    rewrite (runDelivered_app _ _ _ _ R1). exact R2.
Qed.

Lemma session_can_complete_witness :
  inSession (run axisPhase initial) /\ powerSlack (run axisPhase initial) = 0 /\
  exists evs st',
    runDelivered evs (run axisPhase initial) = Some st' /\ tutorStep st' = 39.
Proof.
  split; [exact axisPhase_inSession | split; [reflexivity | ]].
  exact (session_can_complete (run axisPhase initial) axisPhase_inSession eq_refl).
Defined.

(** ** One step at a time *)

Lemma release_one_step (st : State) :
  inScript st -> tutorStep (handle MouseUp st) <= tutorStep st + 1.
Proof.
  intros H. destruct (dragListeners st) as [|s0 l0] eqn:El.
  { cbn [handle]. rewrite El. cbn. lia. }
  assert (Hp : pendingTimeouts st = 0%nat).
  { destruct H as [(_ & _ & _ & D & _) L].
    specialize (L s0). rewrite El, D in L. specialize (L (or_introl eq_refl)).
    destruct (pendingTimeouts st); [reflexivity | discriminate L]. }
  set (n := tutorStep st).
  assert (Hs : forall t, In t (dragListeners st) ->
                 (n = 8 /\ t = lensAxisSliderDiv) \/
                 ((n = 1 \/ n = 9 \/ n = 17) /\ t = jccAxisSliderDiv)).
  { intros t Ht. pose proof (proj2 H t Ht) as En. subst n.
    destruct H as [(R & _ & _ & D & _) _]. rewrite D, Hp in En.
    enum_step R E; rewrite E in *; destruct t; try discriminate En; tauto. }
  assert (H8 : n = 8 -> jccHandleAngle st = 180).
  { intros E. destruct H as [(_ & _ & _ & _ & _ & _ & Hh & _) _].
    fold n in Hh. rewrite E in Hh. exact Hh. }
  destruct (mouseUp_keeps
              (fun x => (forall t, In t (dragListeners x) -> In t (dragListeners st)) /\
                        (n = 8 -> jccHandleAngle x = 180) /\
                        (tutorStep x = n \/ tutorStep x = n + 1)) st) as [(_ & _ & K) _].
  - intros s l x Ex (K1 & K2 & K3).
    destruct (upHandler_browser s x) as (Lx & _). rewrite Ex, removeListener_head in Lx.
    assert (Is : In s (dragListeners st)) by (apply K1; rewrite Ex; left; reflexivity).
    pose proof (Hs s Is) as Cs.
    unfold upHandler in *.
    pose proof (check_values (commitDrag s x)) as (_ & _ & _ & Vh).
    pose proof (check_tutorStep (commitDrag s x)) as [T1 T2]. cbv zeta in T1, T2.
    rewrite commitDrag_tutorStep in T1, T2.
    assert (Hc : n = 8 -> jccHandleAngle (commitDrag s x) = 180).
    { intros E. destruct Cs as [[_ ->] | [Cs _]]; [exact (K2 E) | lia]. }
    split; [ | split].
    + intros t Ht. apply K1. rewrite Ex. right. rewrite Lx in Ht. exact Ht.
    + intros E. rewrite Vh. exact (Hc E).
    + destruct K3 as [K3 | K3]; [destruct T1 as [T1 | T1]; [left | right]; lia | ].
      right. destruct T1 as [T1 | T1]; [lia | ]. exfalso.
      apply T2 in T1. rewrite K3 in T1.
      destruct T1 as [[T1 _] | [[T1 _] | [[T1 T1'] | [T1 _]]]]; try lia.
      all: assert (E8 : n = 8) by lia; rewrite (Hc E8) in T1'; discriminate T1'.
  - split; [tauto | split; [exact H8 | left; reflexivity]].
  - subst n. lia.
Qed.

(** X20: from a state of a browser session every event leaves the step where it
    is or moves it one further, also a release with several closures
    registered. *)
Theorem session_event_one_step (ev : Event) (st : State) :
  inSession st ->
  tutorStep st <= tutorStep (handle ev st) <= tutorStep st + 1.
Proof.
  intros S. split; [apply handle_tutorStep_le | ].
  destruct ev; try (apply event_one_step; discriminate).
  apply release_one_step, inSession_inScript, S.
Qed.

Lemma session_event_one_step_witness :
  inSession (run pressInStep17 initial) /\
  tutorStep (handle MouseUp (run pressInStep17 initial))
    <= tutorStep (run pressInStep17 initial) + 1.
Proof.
  split; [exact pressInStep17_inSession | ].
  exact (proj2 (session_event_one_step MouseUp (run pressInStep17 initial)
                  pressInStep17_inSession)).
Defined.
